(** * Task decomposition core: prompt interpretation and task extraction

    Shallow embedding of the TypeScript sources

    - [taskDecomposition/task-decomposition-nlp.ts]  (class [NLPProcessor]),
    - [taskDecomposition/promptProcessing.ts]        (class [PromptProcessor]),
    - [taskDecomposition/task-extraction.ts] and
      [taskDecomposition/task-extraction-continued.ts] (class [TaskExtractor]),
    - [ai/ai-base-client.ts] and [ai/openai-client.ts]
      (classes [BaseAIClient] and [OpenAIClient]),
    - [codeGeneration/codeGenerator.ts]              (class [CodeGenerator]),

    followed by the properties established about them.

    Modelling conventions.

    - A JavaScript string is a Rocq [string]; a character is one code unit
      in the range 0..255 (Latin-1).  [toLowerCase] and [trim] are the
      ECMAScript operations restricted to that range.
    - A JavaScript array is a [list]; [push] appends at the end.
    - A JavaScript number that only ever holds integers is a [Z] (or a [nat]
      when it is a length or an index); the complexity score, which is built
      from multiples of [0.5], is a rational [Q] (every value it can take is
      exactly representable in a double).
    - [Date.now()] reads a wall clock.  The clock is a function from the
      number of reads made so far to the value read, and code that reads it
      is written in a state monad that counts the reads.
    - The libraries [natural] and [compromise] are not part of the
      repository: the tokenizer, the tagger and the entity matchers they
      provide are fields of the record [NLPProcessor].
    - The HTTP service the client posts to is a function from the number of
      POSTs made so far and the request body to the answer or the error of
      that POST; the recursion of the retry loop runs on fuel, and enough
      fuel is shown to give the result. *)

From Stdlib Require Import List Bool Arith ZArith QArith Qminmax Lia Lqa DecimalZ.
From Stdlib Require Import Ascii String DecimalString.
From Stdlib Require Import Relations.Relation_Operators.
Import ListNotations.

Local Close Scope Q_scope.
Local Open Scope string_scope.
Local Open Scope list_scope.
Local Open Scope nat_scope.

(* ================================================================== *)
(** * Definitions *)
(* ================================================================== *)

(** ** JavaScript string and array primitives *)

Module JS.

(** [String.prototype.toLowerCase] on one Latin-1 code unit: [A-Z] and
    the accented capitals U+00C0..U+00DE (except the multiplication sign
    U+00D7) move up by 32. *)
Definition lowerChar (c : ascii) : ascii :=
  let n := nat_of_ascii c in
  if ((65 <=? n) && (n <=? 90))
     || ((192 <=? n) && (n <=? 222) && negb (n =? 215))
  then ascii_of_nat (n + 32)
  else c.

Fixpoint toLowerCase (s : string) : string :=
  match s with
  | EmptyString => EmptyString
  | String c s' => String (lowerChar c) (toLowerCase s')
  end.

(** White space and line terminators in the Latin-1 range: TAB, LF, VT,
    FF, CR, SP and NBSP. *)
Definition isWhiteSpace (c : ascii) : bool :=
  let n := nat_of_ascii c in
  ((9 <=? n) && (n <=? 13)) || (n =? 32) || (n =? 160).

Fixpoint trimStart (s : string) : string :=
  match s with
  | EmptyString => EmptyString
  | String c s' => if isWhiteSpace c then trimStart s' else s
  end.

Fixpoint trimEnd (s : string) : string :=
  match s with
  | EmptyString => EmptyString
  | String c s' =>
      match trimEnd s' with
      | EmptyString => if isWhiteSpace c then EmptyString else String c EmptyString
      | r => String c r
      end
  end.

(** [s.trim()] *)
Definition trim (s : string) : string := trimEnd (trimStart s).

(** [s.indexOf(p, from)]; [None] stands for [-1].  (For the empty [p]
    and [from] beyond the end JavaScript answers the length of [s]; the
    sources never search for the empty string.) *)
Definition indexOfFrom (p : string) (from : nat) (s : string) : option nat :=
  String.index from p s.

(** [s.indexOf(p)] *)
Definition indexOf (p s : string) : option nat := indexOfFrom p 0 s.

(** [s.includes(p)] *)
Definition includes (s p : string) : bool :=
  match indexOf p s with Some _ => true | None => false end.

(** [s.substring(a, b)]: both indices are clamped to the length and
    swapped when [a > b]. *)
Definition substring (a b : nat) (s : string) : string :=
  let a' := Nat.min a (String.length s) in
  let b' := Nat.min b (String.length s) in
  String.substring (Nat.min a' b') (Nat.max a' b' - Nat.min a' b') s.

(** [s.startsWith(p)] *)
Definition startsWith (s p : string) : bool := String.prefix p s.

(** [s.endsWith(p)] *)
Definition endsWith (s p : string) : bool :=
  let n := String.length s in
  let m := String.length p in
  (m <=? n) && String.eqb (String.substring (n - m) m s) p.

(** [arr.join(sep)] *)
Definition join (sep : string) (arr : list string) : string :=
  String.concat sep arr.

(** [arr.includes(x)] on an array of strings. *)
Definition arrIncludes (arr : list string) (x : string) : bool :=
  existsb (String.eqb x) arr.

(** [arr.some(p)] *)
Definition some {A} (p : A -> bool) (arr : list A) : bool := existsb p arr.

(** [arr.slice(0, n)] *)
Definition slice0 {A} (n : nat) (arr : list A) : list A := firstn n arr.

(** The text a template literal inserts for an integer number. *)
Definition numberToString (z : Z) : string :=
  NilZero.string_of_int (Z.to_int z).

(** The text a template literal inserts for an optional string. *)
Definition optionalToString (o : option string) : string :=
  match o with Some s => s | None => "undefined" end.

End JS.

(** ** task-decomposition-nlp.ts *)

Module NLP.

(** [entities] as [analyzePrompt] builds it: four named buckets. *)
Record Entities := mkEntities {
  technologies : list string;
  actions : list string;
  nouns : list string;
  numbers : list string
}.

Record TokenizedPrompt := mkTokenizedPrompt {
  tokens : list string;
  tags : list string;
  entities : Entities
}.

Record CodeContext := mkCodeContext {
  language : option string;
  framework : option string;
  platform : option string;
  dependencies : option (list string);
  constraints : option (list string)
}.

(** The fields of the class that come from [natural] and [compromise]. *)
Record NLPProcessor := mkNLPProcessor {
  tokenize : string -> list string;            (* WordTokenizer.tokenize *)
  tagWords : list string -> list string;       (* tag(tokens).taggedWords.map(w => w.tag) *)
  matchTechnology : string -> list string;     (* doc.match('#Technology').out('array') *)
  matchVerbs : string -> list string;          (* doc.verbs().out('array') *)
  matchNouns : string -> list string;          (* doc.nouns().out('array') *)
  matchNumbers : string -> list string         (* doc.numbers().out('array') *)
}.

Definition analyzePrompt (nlp : NLPProcessor) (prompt : string) : TokenizedPrompt :=
  let tokens := tokenize nlp prompt in
  let tagged := tagWords nlp tokens in
  let entities :=
    {| technologies := matchTechnology nlp prompt;
       actions := matchVerbs nlp prompt;
       nouns := matchNouns nlp prompt;
       numbers := matchNumbers nlp prompt |} in
  {| tokens := tokens; tags := tagged; entities := entities |}.

Definition languages : list string :=
  ["javascript"; "typescript"; "python"; "java"; "c#"; "ruby"; "go"].

Definition frameworks : list string :=
  ["react"; "angular"; "vue"; "express"; "django"; "spring"; "flask"].

Definition platforms : list string :=
  ["node"; "browser"; "web"; "mobile"; "desktop"; "server"].

Definition constraintPhrases : list string :=
  ["must be"; "should be"; "needs to be"; "required to"].

(** The body of the [forEach] over [constraintPhrases]: [acc] is
    [context.constraints] before the call, the result is its value after. *)
Definition pushConstraint (tokens : string) (acc : list string) (phrase : string)
  : list string :=
  match JS.indexOf phrase tokens with
  | Some index =>
      match JS.indexOfFrom "." index tokens with
      | Some endIndex =>
          acc ++ [JS.trim (JS.substring (index + String.length phrase) endIndex tokens)]
      | None => acc
      end
  | None => acc
  end.

Definition extractCodeContext (tokenizedPrompt : TokenizedPrompt) : CodeContext :=
  let technologies' :=
    map JS.toLowerCase (technologies (entities tokenizedPrompt)) in
  let language :=
    find (fun lang =>
            JS.arrIncludes technologies' lang
            || JS.arrIncludes technologies' (lang ++ "programming"))
         languages in
  let framework :=
    find (fun framework => JS.arrIncludes technologies' framework) frameworks in
  let platform :=
    find (fun platform => JS.arrIncludes technologies' platform) platforms in
  let dependencies :=
    filter (fun tech => negb (JS.arrIncludes platforms (JS.toLowerCase tech)))
      (filter (fun tech => negb (JS.arrIncludes frameworks (JS.toLowerCase tech)))
         (filter (fun tech => negb (JS.arrIncludes languages (JS.toLowerCase tech)))
            (technologies (entities tokenizedPrompt)))) in
  let tokens' := JS.toLowerCase (JS.join " " (tokens tokenizedPrompt)) in
  let constraints := fold_left (pushConstraint tokens') constraintPhrases [] in
  {| language := language;
     framework := framework;
     platform := platform;
     dependencies := Some dependencies;
     constraints := Some constraints |}.

Definition commonPhrases : list string :=
  ["create a function"; "implement a class"; "generate an interface";
   "build a component"; "develop an API"; "write a test"].

Definition suggestCompletion (nlp : NLPProcessor) (partial : string) : list string :=
  let tokens := tokenize nlp partial in
  if (List.length tokens <? 2)%nat then []
  else JS.slice0 5 (filter (fun phrase => JS.startsWith phrase partial) commonPhrases).

End NLP.

(** ** promptProcessing.ts *)

Module Prompt.
Import NLP.

Record ProcessedPrompt := mkProcessedPrompt {
  originalPrompt : string;
  tokenized : TokenizedPrompt;
  context : CodeContext;
  complexity : Q;
  priority : Z;
  estimatedTokens : Z
}.

Record PromptValidationResult := mkPromptValidationResult {
  isValid : bool;
  errors : list string;
  warnings : list string;
  suggestions : list string
}.

(** [Object.values(tokenized.entities)] *)
Definition entityValues (e : Entities) : list (list string) :=
  [technologies e; actions e; nouns e; numbers e].

Definition complexityKeywords : list string :=
  ["async"; "concurrent"; "parallel"; "optimize"; "secure";
   "scale"; "distributed"; "enterprise"; "integration"].

Definition calculateComplexity (tokenized : TokenizedPrompt) : Q :=
  let complexity := 0%Q in
  let entityCount : nat :=
    fold_left (fun sum arr => sum + List.length arr)
              (entityValues (entities tokenized)) 0 in
  let complexity :=
    (complexity + inject_Z (Z.of_nat entityCount) * (1 # 2))%Q in
  let keywordCount : nat :=
    List.length
      (filter (fun token => JS.arrIncludes complexityKeywords (JS.toLowerCase token))
              (tokens tokenized)) in
  let complexity :=
    (complexity + inject_Z (Z.of_nat keywordCount) * 2)%Q in
  Qmin (Qmax complexity 1) 10.

Definition urgentKeywords : list string :=
  ["urgent"; "asap"; "critical"; "important"; "priority"].

Definition lowPriorityKeywords : list string :=
  ["experimental"; "optional"; "nice to have"].

(** The value of [priority] when the [return] statement is reached, with the
    two keyword tables as parameters. *)
Definition rawPriorityWith (urgentKeywords lowPriorityKeywords : list string)
           (tokenized : TokenizedPrompt) : Z :=
  let priority := 5%Z in
  let priority :=
    if JS.some (fun token => JS.arrIncludes urgentKeywords (JS.toLowerCase token))
               (tokens tokenized)
    then (priority + 2)%Z else priority in
  let priority :=
    if JS.some (fun token => JS.arrIncludes lowPriorityKeywords (JS.toLowerCase token))
               (tokens tokenized)
    then (priority - 2)%Z else priority in
  priority.

Definition calculatePriorityWith (urgentKeywords lowPriorityKeywords : list string)
           (tokenized : TokenizedPrompt) : Z :=
  let priority := rawPriorityWith urgentKeywords lowPriorityKeywords tokenized in
  Z.min (Z.max priority 1) 10.

Definition calculatePriority (tokenized : TokenizedPrompt) : Z :=
  calculatePriorityWith urgentKeywords lowPriorityKeywords tokenized.

Definition complexityIndicators : list string :=
  ["async"; "await"; "try"; "catch"; "class"; "interface";
   "extends"; "implements"; "generic"; "template"].

Definition estimateRequiredTokens (tokenized : TokenizedPrompt) : Z :=
  let baseTokens := 500%Z in
  let additionalTokens := 0%Z in
  let additionalTokens :=
    (additionalTokens
     + fold_left (fun (sum : Z) (arr : list string) =>
                    sum + Z.of_nat (List.length arr) * 100)
                 (entityValues (entities tokenized)) 0)%Z in
  let additionalTokens :=
    (additionalTokens
     + Z.of_nat (List.length (technologies (entities tokenized))) * 200)%Z in
  let indicatorCount : nat :=
    List.length
      (filter (fun token => JS.arrIncludes complexityIndicators (JS.toLowerCase token))
              (tokens tokenized)) in
  let additionalTokens :=
    (additionalTokens + Z.of_nat indicatorCount * 150)%Z in
  (baseTokens + additionalTokens)%Z.

Definition processPrompt (nlp : NLPProcessor) (prompt : string) : ProcessedPrompt :=
  let tokenized := analyzePrompt nlp prompt in
  let context := extractCodeContext tokenized in
  let complexity := calculateComplexity tokenized in
  let priority := calculatePriority tokenized in
  let estimatedTokens := estimateRequiredTokens tokenized in
  {| originalPrompt := prompt;
     tokenized := tokenized;
     context := context;
     complexity := complexity;
     priority := priority;
     estimatedTokens := estimatedTokens |}.

Definition tooShortMessage : string :=
  "Prompt is too short. Please provide more details.".

Definition tooLongMessage : string :=
  "Prompt is very long. Consider breaking it into smaller requests.".

Definition noStructureMessage : string :=
  "Consider specifying the type of code you want to generate (function, class, component, etc.).".

Definition noLanguageMessage : string :=
  "Consider specifying the programming language.".

Definition commonLanguages : list string :=
  ["javascript"; "typescript"; "python"; "java"; "c#"].

(** The double quote character of the completion message. *)
Definition dquote : string := String (ascii_of_nat 34) EmptyString.

Definition didYouMean (c : string) : string :=
  "Did you mean to say " ++ dquote ++ c ++ dquote ++ "?".

Definition pushError (r : PromptValidationResult) (m : string) :=
  {| isValid := isValid r; errors := errors r ++ [m];
     warnings := warnings r; suggestions := suggestions r |}.

Definition pushWarning (r : PromptValidationResult) (m : string) :=
  {| isValid := isValid r; errors := errors r;
     warnings := warnings r ++ [m]; suggestions := suggestions r |}.

Definition pushSuggestions (r : PromptValidationResult) (ms : list string) :=
  {| isValid := isValid r; errors := errors r;
     warnings := warnings r; suggestions := suggestions r ++ ms |}.

Definition setIsValid (r : PromptValidationResult) (b : bool) :=
  {| isValid := b; errors := errors r;
     warnings := warnings r; suggestions := suggestions r |}.

(** Each [let result] is the record after the corresponding [if] of the
    source has run. *)
Definition validatePrompt (nlp : NLPProcessor) (prompt : string)
  : PromptValidationResult :=
  let result :=
    {| isValid := true; errors := []; warnings := []; suggestions := [] |} in
  let result :=
    if String.length prompt <? 10
    then setIsValid (pushError result tooShortMessage) false
    else result in
  let result :=
    if 1000 <? String.length prompt
    then pushWarning result tooLongMessage
    else result in
  let result :=
    if negb (JS.includes prompt "function")
       && negb (JS.includes prompt "class")
       && negb (JS.includes prompt "component")
       && negb (JS.includes prompt "interface")
    then pushWarning result noStructureMessage
    else result in
  let hasLanguage :=
    JS.some (fun lang => JS.includes (JS.toLowerCase prompt) lang) commonLanguages in
  let result :=
    if negb hasLanguage
    then pushSuggestions result [noLanguageMessage]
    else result in
  let result :=
    if JS.endsWith prompt "..." || JS.endsWith prompt "create"
       || JS.endsWith prompt "generate"
    then
      let completions := suggestCompletion nlp prompt in
      pushSuggestions result (map didYouMean completions)
    else result in
  result.

End Prompt.

(** ** The wall clock *)

Module Clock.

(** [readings n] is what the [n]-th call of [Date.now()] returns;
    [reads] counts the calls made so far. *)
Record State := mkState {
  readings : nat -> Z;
  reads : nat
}.

Definition Eff (A : Type) : Type := State -> A * State.

Definition ret {A} (a : A) : Eff A := fun s => (a, s).

Definition bind {A B} (m : Eff A) (k : A -> Eff B) : Eff B :=
  fun s => let (a, s') := m s in k a s'.

(** [Date.now()] *)
Definition Date_now : Eff Z :=
  fun s => (readings s (reads s),
            {| readings := readings s; reads := S (reads s) |}).

(** The state in which nothing has been read yet. *)
Definition start (readings : nat -> Z) : State :=
  {| readings := readings; reads := 0 |}.

Definition run {A} (m : Eff A) (s : State) : A := fst (m s).

End Clock.

Notation "x <- m ;; k" := (Clock.bind m (fun x => k))
  (at level 61, m at next level, right associativity).

(** ** task-extraction.ts and task-extraction-continued.ts *)

Module Tasks.
Import NLP.

Inductive TaskType :=
| CODE_GENERATION
| DOCUMENTATION
| TESTING
| OPTIMIZATION
| SECURITY
| DEPLOYMENT.

(** [a === b] on task types. *)
Definition TaskType_eqb (a b : TaskType) : bool :=
  match a, b with
  | CODE_GENERATION, CODE_GENERATION
  | DOCUMENTATION, DOCUMENTATION
  | TESTING, TESTING
  | OPTIMIZATION, OPTIMIZATION
  | SECURITY, SECURITY
  | DEPLOYMENT, DEPLOYMENT => true
  | _, _ => false
  end.

(** The object literals the task constructors store in [context]. *)
Inductive TaskContext :=
| CodeGenerationContext (language framework : option string)
                        (dependencies : option (list string))
| LanguageContext (language framework : option string)
| SecurityContext (language framework : option string)
                  (securityChecks : list string)
| DeploymentContext (platform framework : option string).

Record Task := mkTask {
  id : string;
  type : TaskType;
  description : string;
  dependencies : list string;
  estimatedComplexity : Q;
  context : TaskContext
}.

(** The text of [`<prefix>_${Date.now()}`]. *)
Definition stamp (prefix : string) (now : Z) : string :=
  prefix ++ JS.numberToString now.

Definition createCodeGenerationTask (processedPrompt : Prompt.ProcessedPrompt)
  : Clock.Eff Task :=
  now1 <- Clock.Date_now ;;
  Clock.ret
    {| id := stamp "code_gen_" now1;
       type := CODE_GENERATION;
       description :=
         "Generate "
         ++ JS.optionalToString (language (Prompt.context processedPrompt))
         ++ " code based on the prompt: "
         ++ Prompt.originalPrompt processedPrompt;
       dependencies := [];
       estimatedComplexity := Prompt.complexity processedPrompt;
       context :=
         CodeGenerationContext
           (language (Prompt.context processedPrompt))
           (framework (Prompt.context processedPrompt))
           (NLP.dependencies (Prompt.context processedPrompt)) |}.

Definition createDocumentationTask (processedPrompt : Prompt.ProcessedPrompt)
  : Clock.Eff Task :=
  now1 <- Clock.Date_now ;;
  now2 <- Clock.Date_now ;;
  Clock.ret
    {| id := stamp "docs_" now1;
       type := DOCUMENTATION;
       description := "Generate documentation for the generated code";
       dependencies := [stamp "code_gen_" now2];
       estimatedComplexity := Qmax (Prompt.complexity processedPrompt - 2) 1;
       context :=
         LanguageContext
           (language (Prompt.context processedPrompt))
           (framework (Prompt.context processedPrompt)) |}.

Definition createTestingTask (processedPrompt : Prompt.ProcessedPrompt)
  : Clock.Eff Task :=
  now1 <- Clock.Date_now ;;
  now2 <- Clock.Date_now ;;
  Clock.ret
    {| id := stamp "test_" now1;
       type := TESTING;
       description := "Generate tests for the generated code";
       dependencies := [stamp "code_gen_" now2];
       estimatedComplexity := Prompt.complexity processedPrompt;
       context :=
         LanguageContext
           (language (Prompt.context processedPrompt))
           (framework (Prompt.context processedPrompt)) |}.

Definition createOptimizationTask (processedPrompt : Prompt.ProcessedPrompt)
  : Clock.Eff Task :=
  now1 <- Clock.Date_now ;;
  now2 <- Clock.Date_now ;;
  now3 <- Clock.Date_now ;;
  Clock.ret
    {| id := stamp "opt_" now1;
       type := OPTIMIZATION;
       description := "Optimize the generated code for performance";
       dependencies := [stamp "code_gen_" now2; stamp "test_" now3];
       estimatedComplexity := Prompt.complexity processedPrompt + 1;
       context :=
         LanguageContext
           (language (Prompt.context processedPrompt))
           (framework (Prompt.context processedPrompt)) |}.

Definition securityChecks : list string :=
  ["input_validation"; "authentication"; "authorization";
   "data_sanitization"; "encryption"].

Definition createSecurityTask (processedPrompt : Prompt.ProcessedPrompt)
  : Clock.Eff Task :=
  now1 <- Clock.Date_now ;;
  now2 <- Clock.Date_now ;;
  now3 <- Clock.Date_now ;;
  Clock.ret
    {| id := stamp "security_" now1;
       type := SECURITY;
       description := "Implement security measures and validate the generated code";
       dependencies := [stamp "code_gen_" now2; stamp "opt_" now3];
       estimatedComplexity := Prompt.complexity processedPrompt + 2;
       context :=
         SecurityContext
           (language (Prompt.context processedPrompt))
           (framework (Prompt.context processedPrompt))
           securityChecks |}.

Definition createDeploymentTask (processedPrompt : Prompt.ProcessedPrompt)
  : Clock.Eff Task :=
  now1 <- Clock.Date_now ;;
  now2 <- Clock.Date_now ;;
  now3 <- Clock.Date_now ;;
  now4 <- Clock.Date_now ;;
  Clock.ret
    {| id := stamp "deploy_" now1;
       type := DEPLOYMENT;
       description := "Prepare deployment configuration and scripts";
       dependencies :=
         [stamp "code_gen_" now2; stamp "test_" now3; stamp "security_" now4];
       estimatedComplexity := Qmax (Prompt.complexity processedPrompt - 1) 1;
       context :=
         DeploymentContext
           (platform (Prompt.context processedPrompt))
           (framework (Prompt.context processedPrompt)) |}.

Definition containsKeywords (tokenized : TokenizedPrompt) (keywords : list string)
  : bool :=
  let tokens := map JS.toLowerCase (tokens tokenized) in
  JS.some (fun keyword =>
             JS.arrIncludes tokens (JS.toLowerCase keyword)
             || JS.includes (JS.join " " tokens) (JS.toLowerCase keyword))
          keywords.

Definition complexityIndicators : list string :=
  ["class"; "interface"; "function"; "method";
   "api"; "endpoint"; "database"; "async"].

Definition isComplexEnough (tokenized : TokenizedPrompt) : bool :=
  let complexityScore :=
    List.length
      (filter (fun token => JS.arrIncludes complexityIndicators (JS.toLowerCase token))
              (tokens tokenized)) in
  2 <=? complexityScore.

Definition sensitiveKeywords : list string :=
  ["user"; "password"; "auth"; "token"; "credential";
   "payment"; "credit"; "personal"; "private"; "sensitive"].

Definition containsSensitiveOperations (tokenized : TokenizedPrompt) : bool :=
  containsKeywords tokenized sensitiveKeywords.

Definition docKeywords : list string :=
  ["document"; "documentation"; "docs"; "comment"; "api"].

Definition requiresDocumentation (tokenized : TokenizedPrompt) : bool :=
  containsKeywords tokenized docKeywords || isComplexEnough tokenized.

Definition testKeywords : list string :=
  ["test"; "testing"; "unit test"; "integration test"; "e2e"].

Definition requiresTesting (tokenized : TokenizedPrompt) : bool :=
  containsKeywords tokenized testKeywords || isComplexEnough tokenized.

Definition optKeywords : list string :=
  ["optimize"; "performance"; "efficient"; "fast"; "scale"].

Definition requiresOptimization (tokenized : TokenizedPrompt) : bool :=
  containsKeywords tokenized optKeywords.

Definition securityKeywords : list string :=
  ["secure"; "security"; "authentication"; "authorization"; "encrypt"].

Definition requiresSecurity (tokenized : TokenizedPrompt) : bool :=
  containsKeywords tokenized securityKeywords
  || containsSensitiveOperations tokenized.

Definition deployKeywords : list string :=
  ["deploy"; "deployment"; "ci/cd"; "pipeline"; "release"].

Definition requiresDeployment (tokenized : TokenizedPrompt) : bool :=
  containsKeywords tokenized deployKeywords.

(** The array [tasks] is shared and mutated in place: a task is named by
    its index in the array, and [arraySet] writes one cell. *)
Fixpoint arraySet {A} (i : nat) (x : A) (arr : list A) : list A :=
  match arr, i with
  | [], _ => []
  | _ :: rest, 0 => x :: rest
  | y :: rest, S i' => y :: arraySet i' x rest
  end.

(** [task.dependencies.push(d)] *)
Definition pushDependency (task : Task) (d : string) : Task :=
  {| id := id task;
     type := type task;
     description := description task;
     dependencies := dependencies task ++ [d];
     estimatedComplexity := estimatedComplexity task;
     context := context task |}.

(** [addDependencyIfExists(task, allTasks, dependencyType)] where [task] is
    the object stored at index [i] of [allTasks]; the result is the array
    after the call. *)
Definition addDependencyIfExists (i : nat) (allTasks : list Task)
           (dependencyType : TaskType) : list Task :=
  match nth_error allTasks i with
  | None => allTasks
  | Some task =>
      match find (fun t => TaskType_eqb (type t) dependencyType) allTasks with
      | Some dependency =>
          if negb (JS.arrIncludes (dependencies task) (id dependency))
          then arraySet i (pushDependency task (id dependency)) allTasks
          else allTasks
      | None => allTasks
      end
  end.

(** The callback of [tasks.forEach] run on the task at index [i]. *)
Definition establishAt (i : nat) (tasks : list Task) : list Task :=
  match nth_error tasks i with
  | None => tasks
  | Some task =>
      match type task with
      | CODE_GENERATION => tasks
      | DOCUMENTATION =>
          addDependencyIfExists i tasks CODE_GENERATION
      | TESTING =>
          addDependencyIfExists i tasks CODE_GENERATION
      | OPTIMIZATION =>
          let tasks := addDependencyIfExists i tasks CODE_GENERATION in
          addDependencyIfExists i tasks TESTING
      | SECURITY =>
          let tasks := addDependencyIfExists i tasks CODE_GENERATION in
          addDependencyIfExists i tasks OPTIMIZATION
      | DEPLOYMENT =>
          let tasks := addDependencyIfExists i tasks CODE_GENERATION in
          let tasks := addDependencyIfExists i tasks TESTING in
          addDependencyIfExists i tasks SECURITY
      end
  end.

Definition establishTaskDependencies (tasks : list Task) : list Task :=
  fold_left (fun tasks i => establishAt i tasks)
            (seq 0 (List.length tasks)) tasks.

(** [if (cond) { tasks.push(create(processedPrompt)); }] *)
Definition pushWhen (cond : bool) (create : Clock.Eff Task) (tasks : list Task)
  : Clock.Eff (list Task) :=
  if cond
  then (task <- create ;; Clock.ret (tasks ++ [task]))
  else Clock.ret tasks.

Definition extractTasks (processedPrompt : Prompt.ProcessedPrompt)
  : Clock.Eff (list Task) :=
  let tasks : list Task := [] in
  let tokenized := Prompt.tokenized processedPrompt in
  task <- createCodeGenerationTask processedPrompt ;;
  let tasks := tasks ++ [task] in
  tasks <- pushWhen (requiresDocumentation tokenized)
                    (createDocumentationTask processedPrompt) tasks ;;
  tasks <- pushWhen (requiresTesting tokenized)
                    (createTestingTask processedPrompt) tasks ;;
  tasks <- pushWhen (requiresOptimization tokenized)
                    (createOptimizationTask processedPrompt) tasks ;;
  tasks <- pushWhen (requiresSecurity tokenized)
                    (createSecurityTask processedPrompt) tasks ;;
  tasks <- pushWhen (requiresDeployment tokenized)
                    (createDeploymentTask processedPrompt) tasks ;;
  let tasks := establishTaskDependencies tasks in
  Clock.ret tasks.

End Tasks.

(** ** Reference notions *)

(** *** Substrings *)

(** [p] occurs in [s] as a contiguous substring. *)
Definition occursIn (p s : string) : Prop :=
  exists pre post, s = (pre ++ p ++ post)%string.

(** [p] occurs in [s] at position [i]. *)
Definition occursAt (p s : string) (i : nat) : Prop :=
  String.substring i (String.length p) s = p.

(** [i] is the position of the first occurrence of [p] in [s]. *)
Definition firstOccurrence (p s : string) (i : nat) : Prop :=
  occursAt p s i /\ forall j, j < i -> ~ occursAt p s j.

(** [p] does not occur in [s]. *)
Definition absent (p s : string) : Prop :=
  forall j, ~ occursAt p s j.

(** The character of [s] at position [e] is a full stop. *)
Definition dotAt (s : string) (e : nat) : Prop :=
  String.get e s = Some "."%char.

(** [e] is the position of the first full stop of [s] at or after [k]. *)
Definition firstDotFrom (s : string) (k e : nat) : Prop :=
  k <= e /\ dotAt s e /\ forall j, k <= j -> j < e -> ~ dotAt s j.

(** [s] has no full stop at or after position [k]. *)
Definition noDotFrom (s : string) (k : nat) : Prop :=
  forall j, k <= j -> ~ dotAt s j.

(** What one trigger phrase contributes to the constraints of [text]: the
    trimmed span between the end of its first occurrence and the first full
    stop after it, or nothing when the phrase is absent or no full stop
    follows. *)
Inductive contribution (text phrase : string) : list string -> Prop :=
| contribution_span (i e : nat) :
    firstOccurrence phrase text i ->
    firstDotFrom text (i + String.length phrase) e ->
    contribution text phrase
      [JS.trim (String.substring (i + String.length phrase)
                                 (e - (i + String.length phrase)) text)]
| contribution_absent :
    absent phrase text ->
    contribution text phrase []
| contribution_unterminated (i : nat) :
    firstOccurrence phrase text i ->
    noDotFrom text (i + String.length phrase) ->
    contribution text phrase [].

(** *** Lookup tables and keyword tables *)

(** The reading of the specification for language, framework and platform
    detection: the first technology entity, in entity order, whose
    lower-cased text is in the lookup table. *)
Definition firstEntityIn (table : list string) (tokenized : NLP.TokenizedPrompt)
  : option string :=
  find (fun tech => JS.arrIncludes table tech)
       (map JS.toLowerCase (NLP.technologies (NLP.entities tokenized))).

(** [chosen] is the first entry of [table] that satisfies [P], or nothing
    when no entry does. *)
Definition firstOfTable (table : list string) (P : string -> Prop)
           (chosen : option string) : Prop :=
  match chosen with
  | Some x =>
      exists pre post,
        table = pre ++ x :: post /\ P x /\ forall y, In y pre -> ~ P y
  | None => forall y, In y table -> ~ P y
  end.

(** Some technology entity lower-cases to [name]. *)
Definition mentioned (tokenized : NLP.TokenizedPrompt) (name : string) : Prop :=
  exists tech,
    In tech (NLP.technologies (NLP.entities tokenized))
    /\ JS.toLowerCase tech = name.

(** A token that is a single word: it holds no space. *)
Definition singleWord (token : string) : Prop :=
  JS.includes token " " = false.

(** The low-priority table without its multi-word entry. *)
Definition singleWordLowPriorityKeywords : list string :=
  ["experimental"; "optional"].

(** *** The task list as a graph *)

(** [s] starts with the characters of [p]. *)
Fixpoint beginsWith (p s : string) {struct p} : bool :=
  match p with
  | EmptyString => true
  | String a p' =>
      match s with
      | EmptyString => false
      | String b s' => Ascii.eqb a b && beginsWith p' s'
      end
  end.

(** The kind whose identifier prefix the string [s] starts with. *)
Definition idKind (s : string) : option Tasks.TaskType :=
  if beginsWith "code_gen_" s then Some Tasks.CODE_GENERATION
  else if beginsWith "docs_" s then Some Tasks.DOCUMENTATION
  else if beginsWith "test_" s then Some Tasks.TESTING
  else if beginsWith "opt_" s then Some Tasks.OPTIMIZATION
  else if beginsWith "security_" s then Some Tasks.SECURITY
  else if beginsWith "deploy_" s then Some Tasks.DEPLOYMENT
  else None.

(** The kinds a task of kind [k] is made to depend on: the [switch] of
    [establishTaskDependencies] read as a table. *)
Definition impliedKinds (k : Tasks.TaskType) : list Tasks.TaskType :=
  match k with
  | Tasks.CODE_GENERATION => []
  | Tasks.DOCUMENTATION => [Tasks.CODE_GENERATION]
  | Tasks.TESTING => [Tasks.CODE_GENERATION]
  | Tasks.OPTIMIZATION => [Tasks.CODE_GENERATION; Tasks.TESTING]
  | Tasks.SECURITY => [Tasks.CODE_GENERATION; Tasks.OPTIMIZATION]
  | Tasks.DEPLOYMENT => [Tasks.CODE_GENERATION; Tasks.TESTING; Tasks.SECURITY]
  end.

(** The position of a kind in the order in which [extractTasks] emits. *)
Definition rank (k : Tasks.TaskType) : nat :=
  match k with
  | Tasks.CODE_GENERATION => 0
  | Tasks.DOCUMENTATION => 1
  | Tasks.TESTING => 2
  | Tasks.OPTIMIZATION => 3
  | Tasks.SECURITY => 4
  | Tasks.DEPLOYMENT => 5
  end.

(** The kinds [extractTasks] emits for a tokenized prompt, in order. *)
Definition emittedKinds (tokenized : NLP.TokenizedPrompt) : list Tasks.TaskType :=
  Tasks.CODE_GENERATION
  :: (if Tasks.requiresDocumentation tokenized then [Tasks.DOCUMENTATION] else [])
  ++ (if Tasks.requiresTesting tokenized then [Tasks.TESTING] else [])
  ++ (if Tasks.requiresOptimization tokenized then [Tasks.OPTIMIZATION] else [])
  ++ (if Tasks.requiresSecurity tokenized then [Tasks.SECURITY] else [])
  ++ (if Tasks.requiresDeployment tokenized then [Tasks.DEPLOYMENT] else []).

(** Task [a] of the list depends on task [b] of the list: the identifier
    of [b] is among the dependencies of [a]. *)
Definition dependsOn (tasks : list Tasks.Task) (a b : Tasks.Task) : Prop :=
  In a tasks /\ In b tasks /\ In (Tasks.id b) (Tasks.dependencies a).



(** For each kind its own kind is made to depend on, the task names an
    identifier with the prefix of that kind. *)
Definition namesImplied (t : Tasks.Task) : bool :=
  forallb (fun k =>
             existsb (fun d =>
                        match idKind d with
                        | Some k' => Tasks.TaskType_eqb k' k
                        | None => false
                        end)
                     (Tasks.dependencies t))
          (impliedKinds (Tasks.type t)).

(** No task of the list has the identifier [d]. *)
Definition dangling (tasks : list Tasks.Task) (d : string) : Prop :=
  forall t, In t tasks -> Tasks.id t <> d.

(** A task without its identifier and its dependency identifiers. *)
Definition payload (t : Tasks.Task)
  : Tasks.TaskType * string * Q * Tasks.TaskContext :=
  (Tasks.type t, Tasks.description t, Tasks.estimatedComplexity t, Tasks.context t).

(** A task as a constructor leaves it: its identifier carries the prefix of
    its kind, and each dependency carries the prefix of a kind its own kind
    is made to depend on. *)
Definition wellPrefixed (t : Tasks.Task) : Prop :=
  idKind (Tasks.id t) = Some (Tasks.type t)
  /\ Forall (fun d => exists k, idKind d = Some k
                                /\ In k (impliedKinds (Tasks.type t)))
            (Tasks.dependencies t).

(** *** The dependency pass, task by task *)

(** The identifier of the task [find] returns for a kind. *)
Definition dependencyId (allTasks : list Tasks.Task) (k : Tasks.TaskType)
  : option string :=
  option_map Tasks.id
    (find (fun t => Tasks.TaskType_eqb (Tasks.type t) k) allTasks).

(** [addDependencyIfExists] as a function of the task alone. *)
Definition addDependency (allTasks : list Tasks.Task) (k : Tasks.TaskType)
           (task : Tasks.Task) : Tasks.Task :=
  match dependencyId allTasks k with
  | Some d =>
      if negb (JS.arrIncludes (Tasks.dependencies task) d)
      then Tasks.pushDependency task d
      else task
  | None => task
  end.

(** The [forEach] callback as a function of the task alone. *)
Definition establishOne (allTasks : list Tasks.Task) (task : Tasks.Task)
  : Tasks.Task :=
  fold_left (fun t k => addDependency allTasks k t)
            (impliedKinds (Tasks.type task)) task.

(** What [find] can see of a task list: kinds and identifiers. *)
Definition skeleton (tasks : list Tasks.Task)
  : list (Tasks.TaskType * string) :=
  map (fun t => (Tasks.type t, Tasks.id t)) tasks.

(** [extractTasks] up to, and without, the dependency pass. *)
Definition createTasks (processedPrompt : Prompt.ProcessedPrompt)
  : Clock.Eff (list Tasks.Task) :=
  let tasks : list Tasks.Task := [] in
  let tokenized := Prompt.tokenized processedPrompt in
  task <- Tasks.createCodeGenerationTask processedPrompt ;;
  let tasks := tasks ++ [task] in
  tasks <- Tasks.pushWhen (Tasks.requiresDocumentation tokenized)
             (Tasks.createDocumentationTask processedPrompt) tasks ;;
  tasks <- Tasks.pushWhen (Tasks.requiresTesting tokenized)
             (Tasks.createTestingTask processedPrompt) tasks ;;
  tasks <- Tasks.pushWhen (Tasks.requiresOptimization tokenized)
             (Tasks.createOptimizationTask processedPrompt) tasks ;;
  tasks <- Tasks.pushWhen (Tasks.requiresSecurity tokenized)
             (Tasks.createSecurityTask processedPrompt) tasks ;;
  tasks <- Tasks.pushWhen (Tasks.requiresDeployment tokenized)
             (Tasks.createDeploymentTask processedPrompt) tasks ;;
  Clock.ret tasks.

(** *** A run of the decomposition core *)

(** One run of the decomposition core on a prompt: interpretation, then
    task extraction. *)
Definition decompose (nlp : NLP.NLPProcessor) (prompt : string)
  : Clock.Eff (Prompt.ProcessedPrompt * list Tasks.Task) :=
  let processed := Prompt.processPrompt nlp prompt in
  tasks <- Tasks.extractTasks processed ;;
  Clock.ret (processed, tasks).

(** ** Sample inputs *)

(** Three technology entities, no tokens. *)
Definition threeEntities : NLP.TokenizedPrompt :=
  {| NLP.tokens := [];
     NLP.tags := [];
     NLP.entities :=
       {| NLP.technologies := ["redis"; "kafka"; "nginx"];
          NLP.actions := []; NLP.nouns := []; NLP.numbers := [] |} |}.

(** The three words of the multi-word low-priority keyword, as tokens. *)
Definition niceToHave : NLP.TokenizedPrompt :=
  {| NLP.tokens := ["nice"; "to"; "have"];
     NLP.tags := [];
     NLP.entities :=
       {| NLP.technologies := []; NLP.actions := [];
          NLP.nouns := []; NLP.numbers := [] |} |}.

(** The multi-word low-priority keyword as one token, capitalised. *)
Definition niceToHaveToken : NLP.TokenizedPrompt :=
  {| NLP.tokens := ["Nice To Have"];
     NLP.tags := [];
     NLP.entities :=
       {| NLP.technologies := []; NLP.actions := [];
          NLP.nouns := []; NLP.numbers := [] |} |}.

(** Two languages, the later one of the lookup table mentioned first. *)
Definition pythonThenJavascript : NLP.TokenizedPrompt :=
  {| NLP.tokens := ["Port"; "the"; "Python"; "service"; "to"; "JavaScript"];
     NLP.tags := [];
     NLP.entities :=
       {| NLP.technologies := ["Python"; "JavaScript"]; NLP.actions := [];
          NLP.nouns := []; NLP.numbers := [] |} |}.

(** A prompt that mentions the latest version of something. *)
Definition latestVersion : NLP.TokenizedPrompt :=
  {| NLP.tokens := ["Use"; "the"; "latest"; "version"];
     NLP.tags := [];
     NLP.entities :=
       {| NLP.technologies := []; NLP.actions := [];
          NLP.nouns := []; NLP.numbers := [] |} |}.

(** An analyzer that answers with fixed tokens and finds no entity. *)
Definition fixedTokens (toks : list string) : NLP.NLPProcessor :=
  {| NLP.tokenize := fun _ => toks;
     NLP.tagWords := fun _ => [];
     NLP.matchTechnology := fun _ => [];
     NLP.matchVerbs := fun _ => [];
     NLP.matchNouns := fun _ => [];
     NLP.matchNumbers := fun _ => [] |}.

(** A prompt that asks for security and not for performance. *)
Definition secureLogin : Prompt.ProcessedPrompt :=
  Prompt.processPrompt (fixedTokens ["Add"; "a"; "secure"; "login"])
                       "Add a secure login".

(** A prompt that only asks for documentation. *)
Definition documentedParser : Prompt.ProcessedPrompt :=
  Prompt.processPrompt (fixedTokens ["Write"; "a"; "parser"; "with"; "docs"])
                       "Write a parser with docs".

(** A clock that stays within one millisecond. *)
Definition frozenClock : Clock.State :=
  Clock.start (fun _ => 1700000000000%Z).

(** A clock that moves on by one millisecond between any two readings. *)
Definition tickingClock : Clock.State :=
  Clock.start (fun n => (1700000000000 + Z.of_nat n)%Z).

(** The tasks extracted for [secureLogin] within one millisecond. *)
Definition secureLoginTasks : list Tasks.Task :=
  Clock.run (Tasks.extractTasks secureLogin) frozenClock.

(** The security task among them. *)
Definition secureLoginSecurity : Tasks.Task :=
  {| Tasks.id := "security_1700000000000";
     Tasks.type := Tasks.SECURITY;
     Tasks.description :=
       "Implement security measures and validate the generated code";
     Tasks.dependencies := ["code_gen_1700000000000"; "opt_1700000000000"];
     Tasks.estimatedComplexity := (Prompt.complexity secureLogin + 2)%Q;
     Tasks.context := Tasks.SecurityContext None None Tasks.securityChecks |}.

(** ** Further reference notions and sample inputs *)

(** The technology is listed, whatever its case, in one of the three
    lookup tables. *)
Definition knownTechnology (tech : string) : bool :=
  JS.arrIncludes NLP.languages (JS.toLowerCase tech)
  || JS.arrIncludes NLP.frameworks (JS.toLowerCase tech)
  || JS.arrIncludes NLP.platforms (JS.toLowerCase tech).

(** [s] holds no full stop. *)
Definition dotFree (s : string) : Prop :=
  forall j, ~ dotAt s j.

(** The number of entities over the four buckets. *)
Definition entityCount (tokenized : NLP.TokenizedPrompt) : nat :=
  List.length (NLP.technologies (NLP.entities tokenized))
  + List.length (NLP.actions (NLP.entities tokenized))
  + List.length (NLP.nouns (NLP.entities tokenized))
  + List.length (NLP.numbers (NLP.entities tokenized)).

(** The number of tokens that lower-case to an entry of [table]. *)
Definition tokenCount (table : list string) (tokenized : NLP.TokenizedPrompt)
  : nat :=
  List.length
    (filter (fun token => JS.arrIncludes table (JS.toLowerCase token))
            (NLP.tokens tokenized)).

(** The prompt with other tokens and the same tags and entities. *)
Definition withTokens (tokenized : NLP.TokenizedPrompt) (toks : list string)
  : NLP.TokenizedPrompt :=
  {| NLP.tokens := toks;
     NLP.tags := NLP.tags tokenized;
     NLP.entities := NLP.entities tokenized |}.

(** All the prefixes of a string, the empty one first. *)
Fixpoint prefixes (s : string) : list string :=
  EmptyString
  :: match s with
     | EmptyString => []
     | String c s' => map (String c) (prefixes s')
     end.

(** A Django service on Redis. *)
Definition djangoOnRedis : NLP.TokenizedPrompt :=
  {| NLP.tokens := ["Build"; "a"; "Django"; "service"; "on"; "Redis"];
     NLP.tags := [];
     NLP.entities :=
       {| NLP.technologies := ["Django"; "Redis"]; NLP.actions := ["Build"];
          NLP.nouns := ["service"]; NLP.numbers := [] |} |}.

(** A string that is empty or starts with a character that is no white
    space. *)
Definition startsBlack (s : string) : Prop :=
  match s with
  | EmptyString => True
  | String c _ => JS.isWhiteSpace c = false
  end.

(** A prompt with a trigger phrase and word tokens only. *)
Definition mustBeFast : NLP.TokenizedPrompt :=
  {| NLP.tokens := ["It"; "must"; "be"; "fast"];
     NLP.tags := [];
     NLP.entities :=
       {| NLP.technologies := []; NLP.actions := [];
          NLP.nouns := []; NLP.numbers := [] |} |}.

(** [secureLogin] with a word before and a word after. *)
Definition secureLoginPlease : Prompt.ProcessedPrompt :=
  Prompt.processPrompt
    (fixedTokens ["Please"; "Add"; "a"; "secure"; "login"; "today"])
    "Please add a secure login today".

(** The prefix of the identifiers of a kind. *)
Definition idPrefix (k : Tasks.TaskType) : string :=
  match k with
  | Tasks.CODE_GENERATION => "code_gen_"
  | Tasks.DOCUMENTATION => "docs_"
  | Tasks.TESTING => "test_"
  | Tasks.OPTIMIZATION => "opt_"
  | Tasks.SECURITY => "security_"
  | Tasks.DEPLOYMENT => "deploy_"
  end.

(** The estimated complexity of a task of kind [k] for a request of
    complexity [c]. *)
Definition kindComplexity (c : Q) (k : Tasks.TaskType) : Q :=
  match k with
  | Tasks.CODE_GENERATION => c
  | Tasks.DOCUMENTATION => Qmax (c - 2) 1
  | Tasks.TESTING => c
  | Tasks.OPTIMIZATION => c + 1
  | Tasks.SECURITY => c + 2
  | Tasks.DEPLOYMENT => Qmax (c - 1) 1
  end.

(** The clock reads [z] whenever it is read. *)
Definition frozenAt (s : Clock.State) (z : Z) : Prop :=
  forall n, Clock.readings s n = z.

(** The next reading of the clock is not read again later. *)
Definition movesOn (s : Clock.State) : Prop :=
  forall n, Clock.reads s < n ->
            Clock.readings s n <> Clock.readings s (Clock.reads s).

(** ** ai-base-client.ts and openai-client.ts *)

Module AI.

(** [if (s)] on a string: the empty string is falsy. *)
Definition truthy (s : string) : bool := negb (String.eqb s EmptyString).

(** [o || d] on an optional string. *)
Definition orDefault (o : option string) (d : string) : string :=
  match o with
  | Some s => if truthy s then s else d
  | None => d
  end.

Record AIResponse := mkAIResponse {
  code : string;
  explanation : option string;
  error : option string;
  suggestions : option (list string)
}.

(** What the client reads of an [AxiosError]: [error.response?.status],
    [error.response?.data?.error?.message] and [error.message] (the field
    [message0]; [message] names the text that [handleError] builds). *)
Record AxiosError := mkAxiosError {
  status : option Z;
  dataErrorMessage : option string;
  message0 : string
}.

Definition MAX_RETRIES : nat := 3.

Definition RETRY_DELAY : Z := 1000.

Definition statusIs (error : AxiosError) (n : Z) : bool :=
  match status error with
  | Some s => Z.eqb s n
  | None => false
  end.

Definition shouldRetry (error : AxiosError) (retryCount : nat) : bool :=
  if MAX_RETRIES <=? retryCount then false
  else statusIs error 429 || statusIs error 503
       || statusIs error 502 || statusIs error 504.

(** The message [handleError] returns (it also shows a notification for
    status 401 and writes to the log). *)
Definition handleError (error : AxiosError) : string :=
  let message := "An error occurred while generating code. " in
  if statusIs error 401 then
    message ++ "Invalid API key. Please check your authentication settings."
  else if statusIs error 429 then
    message ++ "Rate limit exceeded. Please try again later."
  else if statusIs error 400 then
    message ++ "Bad request: " ++ orDefault (dataErrorMessage error) "Invalid input"
  else if statusIs error 500 then
    message ++ "Server error. Please try again later."
  else
    message ++ orDefault (Some (message0 error)) "Unknown error occurred.".

(** The two abstract methods of [BaseAIClient], over the type of request
    bodies and the type of response bodies.  Both are taken to return: an
    exception thrown by either is not modelled ([generateCode] would catch
    it like a rejected POST). *)
Record BaseAIClient (Request Data : Type) := mkBaseAIClient {
  formatPrompt : string -> Request;
  parseResponse : Data -> AIResponse
}.

Arguments formatPrompt {Request Data} _ _.
Arguments parseResponse {Request Data} _ _.

(** [generateCode(prompt, retryCount)].  [post n body] is what the [n]-th
    POST of the call answers: a response body, or the error it is rejected
    with.  The result comes with the number of POSTs made so far; [fuel]
    bounds the depth of the recursion. *)
Fixpoint generateCodeFrom {Request Data : Type} (fuel : nat)
         (client : BaseAIClient Request Data)
         (post : nat -> Request -> AxiosError + Data)
         (posts : nat) (prompt : string) (retryCount : nat)
  : option (AIResponse * nat) :=
  match fuel with
  | 0 => None
  | S fuel' =>
      let formattedPrompt := formatPrompt client prompt in
      match post posts formattedPrompt with
      | inr data => Some (parseResponse client data, S posts)
      | inl error =>
          if shouldRetry error retryCount
          then generateCodeFrom fuel' client post (S posts) prompt (retryCount + 1)
          else
            let errorMessage := handleError error in
            Some ({| code := EmptyString;
                     explanation := None;
                     error := Some errorMessage;
                     suggestions := None |},
                  S posts)
      end
  end.

(** [generateCode(prompt)], with [retryCount = 0]. *)
Definition generateCode {Request Data : Type}
           (client : BaseAIClient Request Data)
           (post : nat -> Request -> AxiosError + Data) (prompt : string)
  : option (AIResponse * nat) :=
  generateCodeFrom (S MAX_RETRIES) client post 0 prompt 0.

(** The line feed. *)
Definition nl : string := String (ascii_of_nat 10) EmptyString.

(** The markdown code fence. *)
Definition fence : string :=
  String (ascii_of_nat 96) (String (ascii_of_nat 96)
    (String (ascii_of_nat 96) EmptyString)).

(** [s.split(sep)] for a non-empty [sep]: [skip] characters of a separator
    just found are still to be passed over, [cur] is the segment read so
    far. *)
Fixpoint splitFrom (sep : string) (skip : nat) (cur : string) (s : string)
  : list string :=
  match s with
  | EmptyString => [cur]
  | String c s' =>
      match skip with
      | S skip' => splitFrom sep skip' cur s'
      | 0 =>
          if String.prefix sep s
          then cur :: splitFrom sep (String.length sep - 1) EmptyString s'
          else splitFrom sep 0 (cur ++ String c EmptyString) s'
      end
  end.

Definition split (sep s : string) : list string :=
  splitFrom sep 0 EmptyString s.

Record OpenAIChoice := mkOpenAIChoice {
  text : string;
  finish_reason : string;
  index : Z
}.

(** [usage] is only written to the log. *)
Record OpenAIResponse := mkOpenAIResponse {
  choices : option (list OpenAIChoice)
}.

Record OpenAIRequest := mkOpenAIRequest {
  model : string;
  prompt : string;
  max_tokens : Z;
  temperature : Q;
  n : Z
}.

Record AIModelConfig := mkAIModelConfig {
  modelName : string;
  maxTokens : Z;
  configTemperature : Q
}.

Definition openAIFormatPrompt (config : AIModelConfig) (prompt : string)
  : OpenAIRequest :=
  {| model := modelName config;
     prompt := "Generate code for the following request:" ++ nl ++ prompt
               ++ nl ++ nl ++ "Provide the code along with a brief explanation:";
     max_tokens := maxTokens config;
     temperature := configTemperature config;
     n := 1 |}.

Definition todoSuggestion : string :=
  "Consider implementing TODOs before production use".

Definition longCodeSuggestion : string :=
  "Consider breaking down this code into smaller functions or modules".

Definition consoleLogSuggestion : string :=
  "Remember to remove or replace console.log statements with proper logging".

Definition generateSuggestions (code : string) : list string :=
  let suggestions : list string := [] in
  let suggestions :=
    if JS.includes code "TODO" then (suggestions ++ [todoSuggestion])%list
    else suggestions in
  let suggestions :=
    if 1000 <? String.length code then suggestions ++ [longCodeSuggestion]
    else suggestions in
  let suggestions :=
    if JS.includes code "console.log" then suggestions ++ [consoleLogSuggestion]
    else suggestions in
  suggestions.

Definition openAIParseResponse (response : OpenAIResponse) : AIResponse :=
  match choices response with
  | None | Some [] =>
      {| code := EmptyString;
         explanation := None;
         error := Some "No completion was generated";
         suggestions := None |}
  | Some (choice :: _) =>
      let completion := JS.trim (text choice) in
      let segments := split fence completion in
      let '(code, explanation) :=
        if 3 <=? List.length segments
        then (JS.trim (nth 1 segments EmptyString),
              JS.trim (nth 2 segments EmptyString))
        else (completion, EmptyString) in
      {| code := code;
         explanation := Some explanation;
         error := None;
         suggestions := Some (generateSuggestions code) |}
  end.

Definition OpenAIClient (config : AIModelConfig)
  : BaseAIClient OpenAIRequest OpenAIResponse :=
  {| formatPrompt := openAIFormatPrompt config;
     parseResponse := openAIParseResponse |}.

End AI.

(** ** codeGenerator.ts *)

Module CodeGen.

Local Open Scope string_scope.

Record CodeGenerationResult (GeneratedCode : Type) := mkCodeGenerationResult {
  success : bool;
  result : option GeneratedCode;
  error : option string;
  suggestions : option (list string)
}.

Arguments success {GeneratedCode} _.
Arguments result {GeneratedCode} _.
Arguments error {GeneratedCode} _.
Arguments suggestions {GeneratedCode} _.

(** [task.context.language], [.framework] and [.dependencies] for the
    context objects the task constructors build; a field an object does not
    have reads as [undefined]. *)
Definition contextLanguage (c : Tasks.TaskContext) : option string :=
  match c with
  | Tasks.CodeGenerationContext language _ _ => language
  | Tasks.LanguageContext language _ => language
  | Tasks.SecurityContext language _ _ => language
  | Tasks.DeploymentContext _ _ => None
  end.

Definition contextFramework (c : Tasks.TaskContext) : option string :=
  match c with
  | Tasks.CodeGenerationContext _ framework _ => framework
  | Tasks.LanguageContext _ framework => framework
  | Tasks.SecurityContext _ framework _ => framework
  | Tasks.DeploymentContext _ framework => framework
  end.

Definition contextDependencies (c : Tasks.TaskContext) : option (list string) :=
  match c with
  | Tasks.CodeGenerationContext _ _ dependencies => dependencies
  | _ => None
  end.

(** [task.context.securityRequired] and [task.context.performance]: no
    task constructor sets them. *)
Definition contextSecurityRequired (c : Tasks.TaskContext) : bool := false.

Definition contextPerformance (c : Tasks.TaskContext) : bool := false.

Definition createPrompt (task : Tasks.Task) : string :=
  let language := contextLanguage (Tasks.context task) in
  let framework := contextFramework (Tasks.context task) in
  let dependencies := contextDependencies (Tasks.context task) in
  let prompt : string := "Generate " ++ JS.optionalToString language ++ " code" in
  let prompt : string :=
    match framework with
    | Some f => if AI.truthy f then (prompt ++ " using " ++ f)%string else prompt
    | None => prompt
    end in
  let prompt : string :=
    prompt ++ " for the following requirement:" ++ AI.nl
    ++ Tasks.description task ++ AI.nl ++ AI.nl in
  let prompt : string := prompt ++ "Requirements:" ++ AI.nl in
  let prompt : string :=
    prompt ++ "- Code should be well-documented and follow best practices"
    ++ AI.nl in
  let prompt : string :=
    prompt ++ "- Include error handling and input validation" ++ AI.nl in
  let prompt : string :=
    prompt ++ "- Use modern language features and idioms" ++ AI.nl in
  let prompt : string :=
    match dependencies with
    | Some deps =>
        if (0 <? List.length deps)%nat
        then (prompt ++ "- Utilize the following dependencies: "
              ++ JS.join ", " deps ++ AI.nl)%string
        else prompt
    | None => prompt
    end in
  let prompt : string :=
    if contextSecurityRequired (Tasks.context task)
    then (prompt ++ "- Implement secure coding practices and data validation"
          ++ AI.nl)%string
    else prompt in
  let prompt : string :=
    if contextPerformance (Tasks.context task)
    then (prompt ++ "- Optimize for performance and efficiency" ++ AI.nl)%string
    else prompt in
  let prompt : string := prompt ++ AI.nl ++ "Please provide:" ++ AI.nl in
  let prompt : string := prompt ++ "1. The complete code implementation" ++ AI.nl in
  let prompt : string := prompt ++ "2. Brief explanation of the implementation" ++ AI.nl in
  let prompt : string :=
    prompt ++ "3. Any important usage notes or considerations" ++ AI.nl in
  prompt.

(** [processAIResponse]: the check of the code, then the extraction of
    dependencies, documentation and tests and the formatting, which are
    taken as the function [build]; either may throw, [inl] carries the
    message. *)
Definition processAIResponse {GeneratedCode : Type}
           (build : AI.AIResponse -> Tasks.Task -> string + GeneratedCode)
           (response : AI.AIResponse) (task : Tasks.Task)
  : string + GeneratedCode :=
  if negb (AI.truthy (AI.code response))
     || (String.length (JS.trim (AI.code response)) =? 0)%nat
  then inl "Generated code is empty"
  else build response task.

(** [generateCode(task)]: [aiGenerateCode] is [this.aiClient.generateCode].
    Every [throw] of the [try] block ends in the [catch] branch. *)
Definition generateCode {GeneratedCode : Type}
           (aiGenerateCode : string -> AI.AIResponse)
           (build : AI.AIResponse -> Tasks.Task -> string + GeneratedCode)
           (task : Tasks.Task)
  : CodeGenerationResult GeneratedCode :=
  let failure (message : string) :=
    {| success := false; result := None;
       error := Some message; suggestions := None |} in
  if negb (Tasks.TaskType_eqb (Tasks.type task) Tasks.CODE_GENERATION)
  then failure "Invalid task type for code generation"
  else
    let prompt := createPrompt task in
    let response := aiGenerateCode prompt in
    match AI.error response with
    | Some e =>
        if AI.truthy e then failure e
        else
          match processAIResponse build response task with
          | inl message => failure message
          | inr result =>
              {| success := true; result := Some result;
                 error := None; suggestions := AI.suggestions response |}
          end
    | None =>
        match processAIResponse build response task with
        | inl message => failure message
        | inr result =>
            {| success := true; result := Some result;
               error := None; suggestions := AI.suggestions response |}
        end
    end.

End CodeGen.

(** ** Reference notions for the client and the generator *)

(** The statuses after which the client tries again. *)
Definition retryable (error : AI.AxiosError) : bool :=
  AI.statusIs error 429 || AI.statusIs error 503
  || AI.statusIs error 502 || AI.statusIs error 504.

(** The response the client gives up with. *)
Definition errorResponse (error : AI.AxiosError) : AI.AIResponse :=
  {| AI.code := EmptyString;
     AI.explanation := None;
     AI.error := Some (AI.handleError error);
     AI.suggestions := None |}.

(** The failure result of the generator. *)
Definition failure {GeneratedCode : Type} (message : string)
  : CodeGen.CodeGenerationResult GeneratedCode :=
  {| CodeGen.success := false; CodeGen.result := None;
     CodeGen.error := Some message; CodeGen.suggestions := None |}.

(** [this.aiClient.generateCode] as the generator calls it: the response of
    the exchange with the service. *)
Definition askService {Request Data : Type}
           (client : AI.BaseAIClient Request Data)
           (post : nat -> Request -> AI.AxiosError + Data) (prompt : string)
  : AI.AIResponse :=
  match AI.generateCode client post prompt with
  | Some (response, _) => response
  | None => errorResponse (AI.mkAxiosError None None EmptyString)
  end.

(** A service that is always unavailable. *)
Definition unavailable {Request Data : Type} (n : nat) (body : Request)
  : AI.AxiosError + Data :=
  inl (AI.mkAxiosError (Some 503%Z) None "Service Unavailable").

(** A client with the configuration of the default OpenAI model. *)
Definition sampleClient : AI.BaseAIClient AI.OpenAIRequest AI.OpenAIResponse :=
  AI.OpenAIClient (AI.mkAIModelConfig "gpt-4" 2048 (7 # 10)).

(** An analyzer that answers with the tokens and entities of a tokenized
    prompt. *)
Definition fixedAnalysis (tokenized : NLP.TokenizedPrompt) : NLP.NLPProcessor :=
  {| NLP.tokenize := fun _ => NLP.tokens tokenized;
     NLP.tagWords := fun _ => NLP.tags tokenized;
     NLP.matchTechnology := fun _ => NLP.technologies (NLP.entities tokenized);
     NLP.matchVerbs := fun _ => NLP.actions (NLP.entities tokenized);
     NLP.matchNouns := fun _ => NLP.nouns (NLP.entities tokenized);
     NLP.matchNumbers := fun _ => NLP.numbers (NLP.entities tokenized) |}.

(** The request for a Django service on Redis, interpreted. *)
Definition djangoOnRedisRequest : Prompt.ProcessedPrompt :=
  Prompt.processPrompt (fixedAnalysis djangoOnRedis)
                       "Build a Django service on Redis".

(** The numbers of the list grow strictly from left to right. *)
Fixpoint increasing (l : list nat) : bool :=
  match l with
  | [] => true
  | x :: rest =>
      match rest with
      | [] => true
      | y :: _ => (x <? y) && increasing rest
      end
  end.

(* ================================================================== *)
(** * Properties *)
(* ================================================================== *)

(** ** The embedding at work *)

Example extractCodeContext_sample :
  NLP.extractCodeContext
    {| NLP.tokens := ["The"; "API"; "must"; "be"; "fast"; "."; "Thanks"];
       NLP.tags := [];
       NLP.entities :=
         {| NLP.technologies := ["TypeScript"; "Express"; "Redis"; "Node"];
            NLP.actions := []; NLP.nouns := []; NLP.numbers := [] |} |}
  = {| NLP.language := Some "typescript";
       NLP.framework := Some "express";
       NLP.platform := Some "node";
       NLP.dependencies := Some ["Redis"];
       NLP.constraints := Some ["fast"] |}.
Proof. reflexivity. Qed.

Example validatePrompt_sample :
  Prompt.validatePrompt (fixedTokens ["create"]) "create"
  = {| Prompt.isValid := false;
       Prompt.errors := [Prompt.tooShortMessage];
       Prompt.warnings := [Prompt.noStructureMessage];
       Prompt.suggestions := [Prompt.noLanguageMessage] |}.
Proof. reflexivity. Qed.

Example extractTasks_sample :
  map (fun t => (Tasks.id t, Tasks.dependencies t)) secureLoginTasks
  = [("code_gen_1700000000000", []);
     ("security_1700000000000",
      ["code_gen_1700000000000"; "opt_1700000000000"])].
Proof. vm_compute. reflexivity. Qed.

(** ** Arrays of strings *)

Lemma arrIncludes_In (arr : list string) (x : string) :
  JS.arrIncludes arr x = true <-> In x arr.
Proof.
  unfold JS.arrIncludes. rewrite existsb_exists. split.
  - intros [y [Hy Heq]]. apply String.eqb_eq in Heq. now subst.
  - intros H. exists x. split; [assumption | apply String.eqb_refl].
Qed.

Lemma arrIncludes_map_lower (arr : list string) (x : string) :
  JS.arrIncludes (map JS.toLowerCase arr) x = true
  <-> exists e, In e arr /\ JS.toLowerCase e = x.
Proof.
  rewrite arrIncludes_In, in_map_iff. split.
  - intros [e [He Hin]]. now exists e.
  - intros [e [Hin He]]. now exists e.
Qed.

(** [find] returns the first element that passes the test. *)
Lemma find_first {A} (f : A -> bool) (l : list A) (x : A) :
  find f l = Some x ->
  exists pre post,
    l = pre ++ x :: post /\ f x = true /\ forall y, In y pre -> f y = false.
Proof.
  induction l as [| a l IH]; simpl; [discriminate |].
  destruct (f a) eqn:Ha.
  - intros [= <-]. exists [], l. repeat split; [assumption | intros y []].
  - intros Hfind. destruct (IH Hfind) as (pre & post & -> & Hx & Hpre).
    exists (a :: pre), post. repeat split; [assumption |].
    intros y [<- | Hy]; [assumption | now apply Hpre].
Qed.

(** ** Prompt validation *)

Section Validation.
Import Prompt.

Variable nlp : NLP.NLPProcessor.
Variable prompt : string.

Lemma validatePrompt_isValid :
  isValid (validatePrompt nlp prompt) = negb (String.length prompt <? 10).
Proof.
  unfold validatePrompt.
  destruct (String.length prompt <? 10);
    repeat match goal with |- context [if ?c then _ else _] => destruct c end;
    reflexivity.
Qed.

Lemma validatePrompt_errors :
  errors (validatePrompt nlp prompt)
  = if String.length prompt <? 10 then [tooShortMessage] else [].
Proof.
  unfold validatePrompt.
  destruct (String.length prompt <? 10);
    repeat match goal with |- context [if ?c then _ else _] => destruct c end;
    reflexivity.
Qed.

Lemma validatePrompt_long_warning :
  In tooLongMessage (warnings (validatePrompt nlp prompt))
  <-> (1000 <? String.length prompt) = true.
Proof.
  unfold validatePrompt.
  destruct (1000 <? String.length prompt);
    repeat match goal with |- context [if ?c then _ else _] => destruct c end;
    simpl; split; intros H; try reflexivity; try discriminate; auto;
    repeat match goal with
           | H : _ \/ _ |- _ => destruct H
           | H : noStructureMessage = tooLongMessage |- _ => discriminate H
           | H : False |- _ => destruct H
           end.
Qed.

End Validation.

(** C7.  [validatePrompt] always returns a result record (it is a total
    function: nothing is raised).  The record has [isValid = false] exactly
    when the prompt has fewer than 10 characters, and exactly then its
    [errors] list holds the too-short message (otherwise it is empty).  A
    prompt of more than 1000 characters gets the too-long message among its
    [warnings], exactly then, and its [isValid] and [errors] are what the
    length-10 test alone decides. *)
Theorem validatePrompt_length_rules :
  forall (nlp : NLP.NLPProcessor) (prompt : string),
    let result := Prompt.validatePrompt nlp prompt in
    (Prompt.isValid result = false <-> String.length prompt < 10)
    /\ (Prompt.isValid result = true <-> 10 <= String.length prompt)
    /\ Prompt.errors result
       = (if String.length prompt <? 10 then [Prompt.tooShortMessage] else [])
    /\ (In Prompt.tooLongMessage (Prompt.warnings result)
        <-> 1000 < String.length prompt).
Proof.
  intros nlp prompt result. subst result.
  rewrite validatePrompt_isValid, validatePrompt_errors,
    validatePrompt_long_warning.
  rewrite Nat.ltb_lt.
  destruct (String.length prompt <? 10) eqn:Hs; simpl.
  - apply Nat.ltb_lt in Hs. repeat split; auto; try discriminate; lia.
  - apply Nat.ltb_ge in Hs. repeat split; auto; try discriminate; lia.
Qed.

(** ** Complexity and priority *)

Section Scores.
Import NLP Prompt.

Variable tokenized : TokenizedPrompt.

Lemma clamp_bounds (x : Q) : (1 <= Qmin (Qmax x 1) 10 /\ Qmin (Qmax x 1) 10 <= 10)%Q.
Proof.
  split.
  - apply Q.min_glb; [apply Q.le_max_r | discriminate].
  - apply Q.le_min_r.
Qed.

Lemma clamp_cases (x : Q) :
  (Qmin (Qmax x 1) 10 == x \/ Qmin (Qmax x 1) 10 == 1 \/ Qmin (Qmax x 1) 10 == 10)%Q.
Proof.
  destruct (Q.min_dec (Qmax x 1) 10) as [H | H].
  - destruct (Q.max_dec x 1) as [H' | H'].
    + left. now rewrite H, H'.
    + right; left. now rewrite H, H'.
  - right; right. exact H.
Qed.

Lemma calculateComplexity_bounds :
  (1 <= calculateComplexity tokenized /\ calculateComplexity tokenized <= 10)%Q.
Proof. unfold calculateComplexity. apply clamp_bounds. Qed.

Lemma calculateComplexity_halves :
  exists n : Z, (calculateComplexity tokenized == n # 2)%Q.
Proof.
  unfold calculateComplexity.
  set (e := fold_left _ _ _). set (k := List.length _).
  destruct (clamp_cases
              (0 + inject_Z (Z.of_nat e) * (1 # 2) + inject_Z (Z.of_nat k) * 2)%Q)
    as [H | [H | H]].
  - exists (Z.of_nat e + 4 * Z.of_nat k)%Z.
    etransitivity; [exact H |].
    unfold Qeq, Qplus, Qmult, inject_Z; cbn -[Z.mul Z.add Z.of_nat]. lia.
  - exists 2%Z. etransitivity; [exact H | reflexivity].
  - exists 20%Z. etransitivity; [exact H | reflexivity].
Qed.

Lemma rawPriority_cases (urgent low : list string) :
  (rawPriorityWith urgent low tokenized = 3
   \/ rawPriorityWith urgent low tokenized = 5
   \/ rawPriorityWith urgent low tokenized = 7)%Z.
Proof.
  unfold rawPriorityWith.
  destruct (JS.some _ _); destruct (JS.some _ _); simpl; auto.
Qed.

Lemma calculatePriority_unclamped (urgent low : list string) :
  calculatePriorityWith urgent low tokenized = rawPriorityWith urgent low tokenized.
Proof.
  unfold calculatePriorityWith.
  destruct (rawPriority_cases urgent low) as [H | [H | H]]; rewrite H; reflexivity.
Qed.

End Scores.

(** C5, as stated, fails: with three entities and no complexity keyword the
    complexity is [3 * 0.5 = 1.5], which is not an integer. *)
Lemma calculateComplexity_not_integer :
  (Prompt.calculateComplexity threeEntities == 3 # 2)%Q
  /\ ~ exists z : Z, (Prompt.calculateComplexity threeEntities == inject_Z z)%Q.
Proof.
  split; [reflexivity |].
  intros [z Hz].
  change (Prompt.calculateComplexity threeEntities) with (3 # 2)%Q in Hz.
  unfold Qeq, inject_Z in Hz. cbn -[Z.mul] in Hz. lia.
Qed.

(** C5, amended.  The complexity is a rational in [[1,10]] that is an
    integer multiple of [0.5]; the priority is an integer in [[1,10]]. *)
Theorem scores_within_bounds :
  forall tokenized : NLP.TokenizedPrompt,
    (1 <= Prompt.calculateComplexity tokenized)%Q
    /\ (Prompt.calculateComplexity tokenized <= 10)%Q
    /\ (exists n : Z, (Prompt.calculateComplexity tokenized == n # 2)%Q)
    /\ (1 <= Prompt.calculatePriority tokenized <= 10)%Z.
Proof.
  intros tokenized.
  destruct (calculateComplexity_bounds tokenized) as [Hlo Hhi].
  repeat split; try assumption.
  - apply calculateComplexity_halves.
  - unfold Prompt.calculatePriority, Prompt.calculatePriorityWith. lia.
  - unfold Prompt.calculatePriority, Prompt.calculatePriorityWith. lia.
Qed.

(** ** Strings *)

Lemma append_assoc (a b c : string) : ((a ++ b) ++ c = a ++ (b ++ c))%string.
Proof. induction a as [| x a IH]; simpl; [reflexivity | now rewrite IH]. Qed.

Lemma append_nil_r (a : string) : (a ++ EmptyString)%string = a.
Proof. induction a as [| x a IH]; simpl; [reflexivity | now rewrite IH]. Qed.

Lemma substring_prefix (p post : string) :
  String.substring 0 (String.length p) (p ++ post)%string = p.
Proof.
  induction p as [| x p IH]; simpl.
  - now destruct post.
  - now rewrite IH.
Qed.

Lemma substring_skip (pre s : string) (m : nat) :
  String.substring (String.length pre) m (pre ++ s)%string = String.substring 0 m s.
Proof. induction pre as [| x pre IH]; simpl; [reflexivity | exact IH]. Qed.

Lemma occursIn_substring (p pre post : string) :
  String.substring (String.length pre) (String.length p) (pre ++ p ++ post)%string = p.
Proof. rewrite substring_skip. apply substring_prefix. Qed.

(** A string that occurs in [s] is found by [s.includes]. *)
Lemma occursIn_includes (p s : string) :
  occursIn p s -> JS.includes s p = true.
Proof.
  intros (pre & post & ->).
  unfold JS.includes, JS.indexOf, JS.indexOfFrom.
  destruct (String.index 0 p (pre ++ p ++ post)%string) eqn:Hidx; [reflexivity |].
  exfalso. destruct p as [| c p].
  - apply index_correct4 in Hidx. lia.
  - apply (index_correct3 0 (String.length pre)) in Hidx; [| discriminate | lia].
    apply Hidx, occursIn_substring.
Qed.

Lemma occursIn_refl (s : string) : occursIn s s.
Proof. exists EmptyString, EmptyString. simpl. now rewrite append_nil_r. Qed.

Lemma occursIn_trans (a b c : string) :
  occursIn a b -> occursIn b c -> occursIn a c.
Proof.
  intros (p1 & q1 & ->) (p2 & q2 & ->).
  exists (p2 ++ p1)%string, (q1 ++ q2)%string.
  now rewrite !append_assoc.
Qed.

Lemma occursIn_join (sep t : string) (arr : list string) :
  In t arr -> occursIn t (JS.join sep arr).
Proof.
  unfold JS.join.
  induction arr as [| x arr IH]; [intros [] |].
  intros [-> | Hin].
  - destruct arr as [| y arr]; simpl.
    + apply occursIn_refl.
    + exists EmptyString, (sep ++ String.concat sep (y :: arr))%string. reflexivity.
  - destruct arr as [| y arr]; [destruct Hin |].
    destruct (IH Hin) as (pre & post & Heq).
    exists (x ++ sep ++ pre)%string, post.
    change (String.concat sep (x :: y :: arr))
      with (x ++ sep ++ String.concat sep (y :: arr))%string.
    now rewrite Heq, !append_assoc.
Qed.

Lemma toLowerCase_app (a b : string) :
  JS.toLowerCase (a ++ b) = (JS.toLowerCase a ++ JS.toLowerCase b)%string.
Proof. induction a as [| x a IH]; simpl; [reflexivity | now rewrite IH]. Qed.

(** Lower-casing the joined text is joining the lower-cased tokens. *)
Lemma toLowerCase_join (arr : list string) :
  JS.toLowerCase (JS.join " " arr) = JS.join " " (map JS.toLowerCase arr).
Proof.
  unfold JS.join.
  induction arr as [| x arr IH]; [reflexivity |].
  destruct arr as [| y arr]; [reflexivity |].
  change (String.concat " " (x :: y :: arr))
    with (x ++ " " ++ String.concat " " (y :: arr))%string.
  rewrite !toLowerCase_app, IH. reflexivity.
Qed.

(** Only the space lower-cases to a space. *)
Lemma lowerChar_space (c : ascii) : JS.lowerChar c = " "%char -> c = " "%char.
Proof.
  destruct c as [[] [] [] [] [] [] [] []]; vm_compute; intros H;
    solve [reflexivity | discriminate H].
Qed.

Lemma toLowerCase_space (a b t : string) :
  JS.toLowerCase t = (a ++ " " ++ b)%string -> occursIn " " t.
Proof.
  revert t. induction a as [| x a IH]; intros [| c t]; simpl; try discriminate.
  - intros [= Hc _]. apply lowerChar_space in Hc. subst c.
    exists EmptyString, t. reflexivity.
  - intros [= _ Ht]. destruct (IH _ Ht) as (pre & post & ->).
    exists (String c pre), post. reflexivity.
Qed.

Lemma singleWord_not_nice_to_have (t : string) :
  singleWord t -> JS.toLowerCase t <> "nice to have".
Proof.
  unfold singleWord. intros Hw Heq.
  apply (toLowerCase_space "nice" "to have") in Heq.
  apply occursIn_includes in Heq. congruence.
Qed.

(** ** The low-priority table and single-word tokens *)

Lemma lowPriority_single_word (toks : list string) :
  Forall singleWord toks ->
  JS.some (fun token =>
             JS.arrIncludes Prompt.lowPriorityKeywords (JS.toLowerCase token)) toks
  = JS.some (fun token =>
               JS.arrIncludes singleWordLowPriorityKeywords (JS.toLowerCase token)) toks.
Proof.
  unfold JS.some.
  induction 1 as [| t toks Ht _ IH]; [reflexivity |].
  cbn [existsb]. rewrite IH. f_equal.
  unfold JS.arrIncludes, Prompt.lowPriorityKeywords, singleWordLowPriorityKeywords.
  cbn [existsb].
  apply singleWord_not_nice_to_have, String.eqb_neq in Ht.
  rewrite Ht. reflexivity.
Qed.

Lemma lowPriority_without_nice_to_have (toks : list string) :
  (forall token, In token toks -> JS.toLowerCase token <> "nice to have") ->
  JS.some (fun token =>
             JS.arrIncludes Prompt.lowPriorityKeywords (JS.toLowerCase token)) toks
  = JS.some (fun token =>
               JS.arrIncludes singleWordLowPriorityKeywords (JS.toLowerCase token)) toks.
Proof.
  unfold JS.some.
  induction toks as [| t toks IH]; intros Hno; [reflexivity |].
  cbn [existsb]. rewrite IH by (intros token Hin; apply Hno; now right).
  f_equal.
  unfold JS.arrIncludes, Prompt.lowPriorityKeywords, singleWordLowPriorityKeywords.
  cbn [existsb].
  assert (Ht : JS.toLowerCase t <> "nice to have") by (apply Hno; now left).
  apply String.eqb_neq in Ht. rewrite Ht. reflexivity.
Qed.

Lemma lowPriority_nice_to_have (toks : list string) :
  (exists token, In token toks /\ JS.toLowerCase token = "nice to have") ->
  JS.some (fun token =>
             JS.arrIncludes Prompt.lowPriorityKeywords (JS.toLowerCase token)) toks
  = true.
Proof.
  intros (token & Hin & Hlow). unfold JS.some. apply existsb_exists.
  exists token. split; [exact Hin |].
  apply arrIncludes_In. rewrite Hlow.
  unfold Prompt.lowPriorityKeywords. simpl. auto.
Qed.

Lemma lowPriority_no_single_word_keyword (toks : list string) :
  (forall token, In token toks ->
                 ~ In (JS.toLowerCase token) singleWordLowPriorityKeywords) ->
  JS.some (fun token =>
             JS.arrIncludes singleWordLowPriorityKeywords (JS.toLowerCase token)) toks
  = false.
Proof.
  intros Hno. unfold JS.some.
  destruct (existsb _ toks) eqn:He; [| reflexivity].
  apply existsb_exists in He. destruct He as (token & Hin & Hinc).
  apply arrIncludes_In in Hinc. now destruct (Hno token Hin).
Qed.

(** C10, as stated, fails: the keywords are compared with whole tokens, but
    a token may hold spaces.  For the one token 'Nice To Have' the
    low-priority test fires on 'nice to have' and the priority is 3, where
    the table without that keyword gives 5. *)
Lemma nice_to_have_token_lowers_priority :
  Prompt.calculatePriority niceToHaveToken = 3%Z
  /\ Prompt.calculatePriorityWith Prompt.urgentKeywords
       singleWordLowPriorityKeywords niceToHaveToken = 5%Z
  /\ ~ (forall tokenized : NLP.TokenizedPrompt,
          Prompt.calculatePriority tokenized
          = Prompt.calculatePriorityWith Prompt.urgentKeywords
              singleWordLowPriorityKeywords tokenized).
Proof.
  split; [reflexivity | split; [reflexivity |]].
  intros Hall. specialize (Hall niceToHaveToken). vm_compute in Hall.
  discriminate Hall.
Qed.

(** C10, amended.  For every tokenized prompt [calculatePriority] returns
    3, 5 or 7 and the clamp to [[1,10]] leaves the value unchanged.  The
    multi-word keyword 'nice to have' fires only through a token that
    lower-cases to it: when no token does, and so when every token is a
    single word (holds no space), the result is the one computed with the
    table ['experimental'; 'optional']; when some token does and no token
    lower-cases to 'experimental' or 'optional', the result is 2 below that
    one.  For the tokens 'nice', 'to', 'have' it is 5. *)
Theorem calculatePriority_three_values :
  forall tokenized : NLP.TokenizedPrompt,
    (Prompt.calculatePriority tokenized = 3
     \/ Prompt.calculatePriority tokenized = 5
     \/ Prompt.calculatePriority tokenized = 7)%Z
    /\ Prompt.calculatePriority tokenized
       = Prompt.rawPriorityWith Prompt.urgentKeywords Prompt.lowPriorityKeywords
                                tokenized
    /\ ((forall token, In token (NLP.tokens tokenized) ->
                       JS.toLowerCase token <> "nice to have") ->
        Prompt.calculatePriority tokenized
        = Prompt.calculatePriorityWith Prompt.urgentKeywords
            singleWordLowPriorityKeywords tokenized)
    /\ (Forall singleWord (NLP.tokens tokenized) ->
        Prompt.calculatePriority tokenized
        = Prompt.calculatePriorityWith Prompt.urgentKeywords
            singleWordLowPriorityKeywords tokenized)
    /\ ((exists token, In token (NLP.tokens tokenized)
                       /\ JS.toLowerCase token = "nice to have") ->
        (forall token, In token (NLP.tokens tokenized) ->
                       ~ In (JS.toLowerCase token) singleWordLowPriorityKeywords) ->
        Prompt.calculatePriority tokenized
        = (Prompt.calculatePriorityWith Prompt.urgentKeywords
             singleWordLowPriorityKeywords tokenized - 2)%Z)
    /\ Prompt.calculatePriority niceToHave = 5%Z.
Proof.
  intros tokenized. unfold Prompt.calculatePriority.
  rewrite !calculatePriority_unclamped.
  split; [apply rawPriority_cases |].
  split; [reflexivity |].
  split; [| split; [| split; [| reflexivity]]].
  - intros Hno. unfold Prompt.rawPriorityWith.
    now rewrite (lowPriority_without_nice_to_have _ Hno).
  - intros Hw. unfold Prompt.rawPriorityWith.
    now rewrite (lowPriority_single_word _ Hw).
  - intros Hnice Hno. unfold Prompt.rawPriorityWith.
    rewrite (lowPriority_nice_to_have _ Hnice).
    rewrite (lowPriority_no_single_word_keyword _ Hno).
    reflexivity.
Qed.

Lemma calculatePriority_three_values_witness :
  (Forall singleWord (NLP.tokens niceToHave)
   /\ Prompt.calculatePriority niceToHave
      = Prompt.calculatePriorityWith Prompt.urgentKeywords
          singleWordLowPriorityKeywords niceToHave)
  /\ ((exists token, In token (NLP.tokens niceToHaveToken)
                     /\ JS.toLowerCase token = "nice to have")
      /\ Prompt.calculatePriority niceToHaveToken
         = (Prompt.calculatePriorityWith Prompt.urgentKeywords
              singleWordLowPriorityKeywords niceToHaveToken - 2)%Z).
Proof.
  assert (Hw : Forall singleWord (NLP.tokens niceToHave))
    by (repeat constructor).
  assert (Hnice : exists token, In token (NLP.tokens niceToHaveToken)
                                /\ JS.toLowerCase token = "nice to have")
    by (exists "Nice To Have"; split; [now left | reflexivity]).
  assert (Hno : forall token, In token (NLP.tokens niceToHaveToken) ->
                  ~ In (JS.toLowerCase token) singleWordLowPriorityKeywords).
  { intros token [<- | []] Hin. vm_compute in Hin.
    destruct Hin as [H | [H | []]]; discriminate H. }
  split; [split; [exact Hw |] | split; [exact Hnice |]].
  - exact (proj1 (proj2 (proj2 (proj2
             (calculatePriority_three_values niceToHave)))) Hw).
  - exact (proj1 (proj2 (proj2 (proj2 (proj2
             (calculatePriority_three_values niceToHaveToken))))) Hnice Hno).
Defined.

(** ** Language, framework and platform lookup *)

Lemma find_firstOfTable (table : list string) (f : string -> bool)
      (P : string -> Prop) :
  (forall x, f x = true <-> P x) ->
  firstOfTable table P (find f table).
Proof.
  intros Hf. unfold firstOfTable.
  destruct (find f table) as [x |] eqn:Hfind.
  - destruct (find_first f table x Hfind) as (pre & post & Heq & Hx & Hpre).
    exists pre, post. repeat split; [assumption | now apply Hf |].
    intros y Hy HP. apply Hf in HP. rewrite (Hpre y Hy) in HP. discriminate.
  - intros y Hy HP. apply Hf in HP.
    rewrite (find_none f table Hfind y Hy) in HP. discriminate.
Qed.

(** C4, as stated, fails: when the entities are Python then JavaScript the
    code chooses 'javascript' (first in the lookup table) although the
    entity that comes first is Python. *)
Lemma language_not_first_entity :
  NLP.language (NLP.extractCodeContext pythonThenJavascript) = Some "javascript"
  /\ firstEntityIn NLP.languages pythonThenJavascript = Some "python"
  /\ NLP.language (NLP.extractCodeContext pythonThenJavascript)
     <> firstEntityIn NLP.languages pythonThenJavascript.
Proof. split; [reflexivity | split; [reflexivity | discriminate]]. Qed.

(** C4, amended.  [extractCodeContext] sets [language] to the first entry,
    in lookup-table order, of the languages table that some technology
    entity lower-cases to (or lower-cases to that entry followed by
    'programming'), and nothing when no entry is mentioned; [framework] and
    [platform] are the first entries of their tables that some technology
    entity lower-cases to.  The order of the entities plays no role. *)
Theorem extractCodeContext_first_in_table :
  forall tokenized : NLP.TokenizedPrompt,
    let context := NLP.extractCodeContext tokenized in
    firstOfTable NLP.languages
      (fun lang => mentioned tokenized lang
                   \/ mentioned tokenized (lang ++ "programming"))
      (NLP.language context)
    /\ firstOfTable NLP.frameworks (mentioned tokenized) (NLP.framework context)
    /\ firstOfTable NLP.platforms (mentioned tokenized) (NLP.platform context).
Proof.
  intros tokenized context. subst context.
  unfold NLP.extractCodeContext.
  cbn [NLP.language NLP.framework NLP.platform]. repeat split.
  - apply find_firstOfTable. intros x.
    rewrite orb_true_iff, !arrIncludes_map_lower. reflexivity.
  - apply find_firstOfTable. intros x. apply arrIncludes_map_lower.
  - apply find_firstOfTable. intros x. apply arrIncludes_map_lower.
Qed.

(** ** Keyword triggers *)

Section Triggers.
Import Tasks.

Variable tokenized : NLP.TokenizedPrompt.

Lemma containsKeywords_substring (keywords : list string) (kw : string) :
  In kw keywords ->
  JS.toLowerCase kw = kw ->
  occursIn kw (JS.toLowerCase (JS.join " " (NLP.tokens tokenized))) ->
  containsKeywords tokenized keywords = true.
Proof.
  intros Hin Hlow Hocc. unfold containsKeywords, JS.some.
  apply existsb_exists. exists kw. split; [assumption |].
  apply orb_true_iff. right.
  rewrite Hlow, <- toLowerCase_join. now apply occursIn_includes.
Qed.

Lemma keywords_lower_case (kw : string) :
  In kw (docKeywords ++ testKeywords ++ optKeywords ++ securityKeywords
         ++ sensitiveKeywords ++ deployKeywords) ->
  JS.toLowerCase kw = kw.
Proof.
  simpl. intros H.
  repeat (destruct H as [<- | H]; [reflexivity |]). destruct H.
Qed.

Lemma latest_in_text (token : string) :
  In token (NLP.tokens tokenized) ->
  JS.toLowerCase token = "latest" ->
  occursIn "test" (JS.toLowerCase (JS.join " " (NLP.tokens tokenized))).
Proof.
  intros Hin Hlow. rewrite toLowerCase_join.
  apply occursIn_trans with (b := "latest").
  - exists "la", EmptyString. reflexivity.
  - rewrite <- Hlow. apply occursIn_join, in_map, Hin.
Qed.

End Triggers.

(** C9.  Whenever a keyword of a trigger predicate occurs as a contiguous
    substring of the lower-cased, space-joined token text, the predicate
    fires (for [requiresSecurity] the keywords are the security keywords
    and the sensitive-operation keywords).  In particular a prompt with a
    token that reads 'latest' requires testing. *)
Theorem keyword_substring_triggers :
  forall tokenized : NLP.TokenizedPrompt,
    let text := JS.toLowerCase (JS.join " " (NLP.tokens tokenized)) in
    (forall kw, occursIn kw text ->
       (In kw Tasks.docKeywords -> Tasks.requiresDocumentation tokenized = true)
       /\ (In kw Tasks.testKeywords -> Tasks.requiresTesting tokenized = true)
       /\ (In kw Tasks.optKeywords -> Tasks.requiresOptimization tokenized = true)
       /\ (In kw Tasks.securityKeywords \/ In kw Tasks.sensitiveKeywords ->
           Tasks.requiresSecurity tokenized = true)
       /\ (In kw Tasks.deployKeywords -> Tasks.requiresDeployment tokenized = true))
    /\ (forall token,
          In token (NLP.tokens tokenized) ->
          JS.toLowerCase token = "latest" ->
          Tasks.requiresTesting tokenized = true).
Proof.
  intros tokenized text.
  assert (Hfire : forall keywords kw,
             In kw keywords ->
             incl keywords
               (Tasks.docKeywords ++ Tasks.testKeywords ++ Tasks.optKeywords
                ++ Tasks.securityKeywords ++ Tasks.sensitiveKeywords
                ++ Tasks.deployKeywords) ->
             occursIn kw text ->
             Tasks.containsKeywords tokenized keywords = true).
  { intros keywords kw Hin Hincl Hocc.
    apply containsKeywords_substring with (kw := kw); try assumption.
    apply keywords_lower_case, Hincl, Hin. }
  assert (Htest : forall kw, occursIn kw text -> In kw Tasks.testKeywords ->
                             Tasks.requiresTesting tokenized = true).
  { intros kw Hocc Hin. unfold Tasks.requiresTesting.
    rewrite (Hfire _ kw Hin); [reflexivity | | assumption].
    intros x Hx. simpl in Hx |- *. tauto. }
  split.
  - intros kw Hocc. repeat split.
    + intros Hin. unfold Tasks.requiresDocumentation.
      rewrite (Hfire _ kw Hin); [reflexivity | | assumption].
      intros x Hx. simpl in Hx |- *. tauto.
    + now apply Htest.
    + intros Hin. unfold Tasks.requiresOptimization.
      apply (Hfire _ kw Hin); [| assumption].
      intros x Hx. simpl in Hx |- *. tauto.
    + intros [Hin | Hin]; unfold Tasks.requiresSecurity,
        Tasks.containsSensitiveOperations.
      * rewrite (Hfire _ kw Hin); [reflexivity | | assumption].
        intros x Hx. simpl in Hx |- *. tauto.
      * rewrite (Hfire Tasks.sensitiveKeywords kw Hin); [apply orb_true_r | | assumption].
        intros x Hx. simpl in Hx |- *. tauto.
    + intros Hin. unfold Tasks.requiresDeployment.
      apply (Hfire _ kw Hin); [| assumption].
      intros x Hx. simpl in Hx |- *. tauto.
  - intros token Hin Hlow. apply (Htest "test").
    + now apply (latest_in_text tokenized token).
    + simpl. auto.
Qed.

Lemma keyword_substring_triggers_witness :
  In "latest" (NLP.tokens latestVersion)
  /\ JS.toLowerCase "latest" = "latest"
  /\ Tasks.requiresTesting latestVersion = true.
Proof.
  assert (Hin : In "latest" (NLP.tokens latestVersion)) by (simpl; auto).
  assert (Hlow : JS.toLowerCase "latest" = "latest") by reflexivity.
  split; [exact Hin | split; [exact Hlow |]].
  exact (proj2 (keyword_substring_triggers latestVersion) "latest" Hin Hlow).
Defined.

(** ** Constraint extraction *)

Lemma index_ge (p s : string) (n m : nat) :
  String.index n p s = Some m -> n <= m.
Proof.
  revert n m. induction s as [| c s IH]; intros [| n] m; simpl;
    try discriminate; try (intros _; lia).
  destruct (String.index n p s) as [k |] eqn:Hk; [| discriminate].
  intros [= <-]. apply IH in Hk. lia.
Qed.

Lemma substring_one_get (s : string) (e : nat) (c : ascii) :
  String.substring e 1 s = String c EmptyString <-> String.get e s = Some c.
Proof.
  revert e. induction s as [| x s IH]; intros [| e]; simpl.
  - split; discriminate.
  - split; discriminate.
  - destruct s; simpl; split; intros [= ->]; reflexivity.
  - apply IH.
Qed.

Lemma get_lt_length (s : string) (e : nat) (c : ascii) :
  String.get e s = Some c -> e < String.length s.
Proof.
  revert e. induction s as [| x s IH]; intros [| e]; simpl;
    try discriminate; try (intros _; lia).
  intros H. apply IH in H. lia.
Qed.

(** Inside an occurrence of [p] the text reads as [p] does. *)
Lemma occursAt_get (p s : string) (i j : nat) :
  occursAt p s i -> j < String.length p ->
  String.get (i + j) s = String.get j p.
Proof.
  unfold occursAt. intros Hocc Hj.
  transitivity (String.get j (String.substring i (String.length p) s)).
  - rewrite (substring_correct1 s i (String.length p) j Hj).
    f_equal. lia.
  - now rewrite Hocc.
Qed.

Lemma no_dot_get (p : string) (j : nat) :
  JS.includes p "." = false -> String.get j p <> Some "."%char.
Proof.
  unfold JS.includes, JS.indexOf, JS.indexOfFrom.
  destruct (String.index 0 "." p) eqn:Hidx; [discriminate |].
  intros _ Hget. apply substring_one_get in Hget.
  apply (index_correct3 0 j) in Hidx; [| discriminate | lia].
  now apply Hidx.
Qed.

(** Within the bounds of the text, [substring(a, b)] is the span of the
    [b - a] characters from position [a]. *)
Lemma JS_substring_span (s : string) (a b : nat) :
  a <= b -> b <= String.length s ->
  JS.substring a b s = String.substring a (b - a) s.
Proof.
  intros Hab Hb. unfold JS.substring.
  now rewrite (Nat.min_l a), (Nat.min_l b), Nat.min_l, Nat.max_r by lia.
Qed.

Lemma pushConstraint_contribution (text phrase : string) (acc : list string) :
  phrase <> EmptyString ->
  JS.includes phrase "." = false ->
  exists c,
    contribution text phrase c
    /\ NLP.pushConstraint text acc phrase = acc ++ c.
Proof.
  intros Hne Hnodot. unfold NLP.pushConstraint, JS.indexOf, JS.indexOfFrom.
  destruct (String.index 0 phrase text) as [i |] eqn:Hi.
  - assert (Hfirst : firstOccurrence phrase text i).
    { split.
      - exact (index_correct1 _ _ _ _ Hi).
      - intros j Hj. apply (index_correct2 _ _ _ _ Hi); lia. }
    assert (Hinside : forall j, i <= j -> j < i + String.length phrase ->
                                ~ dotAt text j).
    { intros j Hij Hj Hdot. unfold dotAt in Hdot.
      replace j with (i + (j - i)) in Hdot by lia.
      rewrite (occursAt_get phrase text i (j - i) (proj1 Hfirst)) in Hdot by lia.
      now apply (no_dot_get phrase (j - i)). }
    destruct (String.index i "." text) as [e |] eqn:He.
    + assert (Hdot : dotAt text e).
      { apply substring_one_get. exact (index_correct1 _ _ _ _ He). }
      assert (Hie : i <= e) by exact (index_ge _ _ _ _ He).
      assert (Hend : i + String.length phrase <= e).
      { destruct (Nat.le_gt_cases (i + String.length phrase) e) as [H | H];
          [exact H | destruct (Hinside e Hie H Hdot)]. }
      eexists. split.
      * apply (contribution_span text phrase i e Hfirst).
        repeat split; try assumption.
        intros j Hj1 Hj2 Hj. apply substring_one_get in Hj.
        apply (index_correct2 _ _ _ _ He j); [lia | assumption | exact Hj].
      * rewrite JS_substring_span; [reflexivity | assumption |].
        apply get_lt_length in Hdot. lia.
    + exists []. split; [| now rewrite app_nil_r].
      apply (contribution_unterminated text phrase i Hfirst).
      intros j Hj Hdotj. apply substring_one_get in Hdotj.
      apply (index_correct3 _ j _ _ He); [discriminate | lia | exact Hdotj].
  - exists []. split; [| now rewrite app_nil_r].
    apply contribution_absent. intros j Hj.
    apply (index_correct3 _ j _ _ Hi); [assumption | lia | exact Hj].
Qed.

(** C6.  The constraints of [extractCodeContext] are, in the order of the
    phrase list 'must be', 'should be', 'needs to be', 'required to', what
    each phrase contributes to the lower-cased space-joined token text: the
    trimmed span from the end of the first occurrence of the phrase to the
    first full stop after it, one constraint, or nothing when the phrase is
    absent or no full stop follows its first occurrence.  The function is
    total: no case raises. *)
Theorem extractCodeContext_constraints :
  forall tokenized : NLP.TokenizedPrompt,
    let text := JS.toLowerCase (JS.join " " (NLP.tokens tokenized)) in
    exists c1 c2 c3 c4 : list string,
      contribution text "must be" c1
      /\ contribution text "should be" c2
      /\ contribution text "needs to be" c3
      /\ contribution text "required to" c4
      /\ NLP.constraints (NLP.extractCodeContext tokenized)
         = Some (c1 ++ c2 ++ c3 ++ c4).
Proof.
  intros tokenized text.
  unfold NLP.extractCodeContext. cbn [NLP.constraints].
  fold text. unfold NLP.constraintPhrases. cbn [fold_left].
  destruct (pushConstraint_contribution text "must be" [])
    as (c1 & H1 & E1); [discriminate | reflexivity |].
  rewrite E1.
  destruct (pushConstraint_contribution text "should be" ([] ++ c1))
    as (c2 & H2 & E2); [discriminate | reflexivity |].
  rewrite E2.
  destruct (pushConstraint_contribution text "needs to be" (([] ++ c1) ++ c2))
    as (c3 & H3 & E3); [discriminate | reflexivity |].
  rewrite E3.
  destruct (pushConstraint_contribution text "required to"
              ((([] ++ c1) ++ c2) ++ c3))
    as (c4 & H4 & E4); [discriminate | reflexivity |].
  rewrite E4.
  exists c1, c2, c3, c4. repeat (split; [assumption |]).
  simpl. now rewrite <- !app_assoc.
Qed.

(** ** The shared task array *)

Section TaskArray.
Import Tasks.

Lemma nth_error_middle {A} (done todo : list A) (t : A) :
  nth_error (done ++ t :: todo) (List.length done) = Some t.
Proof. induction done as [| x done IH]; simpl; [reflexivity | exact IH]. Qed.

Lemma arraySet_middle {A} (done todo : list A) (t x : A) :
  arraySet (List.length done) x (done ++ t :: todo) = done ++ x :: todo.
Proof.
  induction done as [| y done IH]; simpl; [reflexivity | now rewrite IH].
Qed.

Lemma skeleton_middle (done todo : list Task) (t t' : Task) :
  type t' = type t -> id t' = id t ->
  skeleton (done ++ t' :: todo) = skeleton (done ++ t :: todo).
Proof.
  intros Ht Hi. unfold skeleton. rewrite !map_app. simpl. now rewrite Ht, Hi.
Qed.

Lemma dependencyId_skeleton (a b : list Task) (k : TaskType) :
  skeleton a = skeleton b -> dependencyId a k = dependencyId b k.
Proof.
  unfold dependencyId. revert b.
  induction a as [| x a IH]; intros [| y b]; simpl; try discriminate;
    [reflexivity |].
  intros [= Ht Hi Hs]. rewrite Ht.
  destruct (TaskType_eqb (type y) k); simpl; [now rewrite Hi | now apply IH].
Qed.

Lemma addDependency_skeleton (a b : list Task) (k : TaskType) (t : Task) :
  skeleton a = skeleton b -> addDependency a k t = addDependency b k t.
Proof.
  intros Hs. unfold addDependency. now rewrite (dependencyId_skeleton a b k Hs).
Qed.

Lemma establishOne_skeleton (a b : list Task) (t : Task) :
  skeleton a = skeleton b -> establishOne a t = establishOne b t.
Proof.
  intros Hs. unfold establishOne.
  generalize (impliedKinds (type t)) as ks. intros ks. revert t.
  induction ks as [| k ks IH]; intros t; simpl; [reflexivity |].
  now rewrite (addDependency_skeleton a b k t Hs), IH.
Qed.

Lemma addDependency_type (ts : list Task) (k : TaskType) (t : Task) :
  type (addDependency ts k t) = type t.
Proof.
  unfold addDependency. destruct (dependencyId ts k); [| reflexivity].
  now destruct (negb _).
Qed.

Lemma addDependency_id (ts : list Task) (k : TaskType) (t : Task) :
  id (addDependency ts k t) = id t.
Proof.
  unfold addDependency. destruct (dependencyId ts k); [| reflexivity].
  now destruct (negb _).
Qed.

Lemma addDependency_payload (ts : list Task) (k : TaskType) (t : Task) :
  payload (addDependency ts k t) = payload t.
Proof.
  unfold addDependency. destruct (dependencyId ts k); [| reflexivity].
  now destruct (negb _).
Qed.

(** One call of [addDependencyIfExists] on the task stored at the index
    [length done] rewrites that cell only. *)
Lemma addDependencyIfExists_middle (done todo : list Task) (t : Task) (k : TaskType) :
  addDependencyIfExists (List.length done) (done ++ t :: todo) k
  = done ++ addDependency (done ++ t :: todo) k t :: todo.
Proof.
  unfold addDependencyIfExists, addDependency, dependencyId.
  rewrite nth_error_middle.
  destruct (find _ (done ++ t :: todo)) as [d |]; simpl; [| reflexivity].
  destruct (negb _); [apply arraySet_middle | reflexivity].
Qed.

(** The same, for a second or third call on the same cell. *)
Lemma addDependencyIfExists_again (done todo : list Task) (t t' : Task) (k : TaskType) :
  type t' = type t -> id t' = id t ->
  addDependencyIfExists (List.length done) (done ++ t' :: todo) k
  = done ++ addDependency (done ++ t :: todo) k t' :: todo.
Proof.
  intros Ht Hi. rewrite addDependencyIfExists_middle.
  now rewrite (addDependency_skeleton _ (done ++ t :: todo) k t'
                 (skeleton_middle done todo t t' Ht Hi)).
Qed.

Lemma establishAt_middle (done todo : list Task) (t : Task) :
  establishAt (List.length done) (done ++ t :: todo)
  = done ++ establishOne (done ++ t :: todo) t :: todo.
Proof.
  unfold establishAt, establishOne. rewrite nth_error_middle.
  destruct (type t) eqn:Hty; cbn [impliedKinds fold_left].
  - reflexivity.
  - apply addDependencyIfExists_middle.
  - apply addDependencyIfExists_middle.
  - rewrite addDependencyIfExists_middle.
    apply (addDependencyIfExists_again done todo t);
      [apply addDependency_type | apply addDependency_id].
  - rewrite addDependencyIfExists_middle.
    apply (addDependencyIfExists_again done todo t);
      [apply addDependency_type | apply addDependency_id].
  - rewrite addDependencyIfExists_middle.
    rewrite (addDependencyIfExists_again done todo t);
      [| apply addDependency_type | apply addDependency_id].
    apply (addDependencyIfExists_again done todo t);
      [now rewrite !addDependency_type | now rewrite !addDependency_id].
Qed.

Lemma establishOne_type (ts : list Task) (t : Task) :
  type (establishOne ts t) = type t.
Proof.
  unfold establishOne. generalize (impliedKinds (type t)) as ks.
  intros ks. revert t.
  induction ks as [| k ks IH]; intros t; simpl; [reflexivity |].
  now rewrite IH, addDependency_type.
Qed.

Lemma establishOne_id (ts : list Task) (t : Task) :
  id (establishOne ts t) = id t.
Proof.
  unfold establishOne. generalize (impliedKinds (type t)) as ks.
  intros ks. revert t.
  induction ks as [| k ks IH]; intros t; simpl; [reflexivity |].
  now rewrite IH, addDependency_id.
Qed.

Lemma establishOne_payload (ts : list Task) (t : Task) :
  payload (establishOne ts t) = payload t.
Proof.
  unfold establishOne. generalize (impliedKinds (type t)) as ks.
  intros ks. revert t.
  induction ks as [| k ks IH]; intros t; simpl; [reflexivity |].
  now rewrite IH, addDependency_payload.
Qed.

Lemma forEach_establish (todo done ts0 : list Task) :
  skeleton (done ++ todo) = skeleton ts0 ->
  fold_left (fun tasks i => establishAt i tasks)
            (seq (List.length done) (List.length todo)) (done ++ todo)
  = done ++ map (establishOne ts0) todo.
Proof.
  revert done. induction todo as [| t todo IH]; intros done Hs; [reflexivity |].
  cbn [List.length seq fold_left map].
  rewrite establishAt_middle.
  rewrite (establishOne_skeleton _ ts0 t Hs).
  replace (done ++ establishOne ts0 t :: todo)
    with ((done ++ [establishOne ts0 t]) ++ todo)
    by (now rewrite <- app_assoc).
  replace (S (List.length done))
    with (List.length (done ++ [establishOne ts0 t]))
    by (rewrite length_app; simpl; lia).
  rewrite IH.
  - now rewrite <- app_assoc.
  - rewrite <- Hs, <- app_assoc. simpl.
    apply skeleton_middle; [apply establishOne_type | apply establishOne_id].
Qed.

(** The in-place pass computes, for every task, what the callback makes of
    it against the list as it was before the pass. *)
Lemma establishTaskDependencies_map (tasks : list Task) :
  establishTaskDependencies tasks = map (establishOne tasks) tasks.
Proof.
  unfold establishTaskDependencies.
  exact (forEach_establish tasks [] tasks eq_refl).
Qed.

End TaskArray.

(** ** The tasks as created *)

Section Creation.
Import Tasks.

Variable processedPrompt : Prompt.ProcessedPrompt.
Variable s : Clock.State.

Ltac by_trigger_cases :=
  unfold createTasks, extractTasks, emittedKinds, Clock.run;
  destruct (requiresDocumentation (Prompt.tokenized processedPrompt));
  destruct (requiresTesting (Prompt.tokenized processedPrompt));
  destruct (requiresOptimization (Prompt.tokenized processedPrompt));
  destruct (requiresSecurity (Prompt.tokenized processedPrompt));
  destruct (requiresDeployment (Prompt.tokenized processedPrompt)).

Lemma extractTasks_createTasks :
  Clock.run (extractTasks processedPrompt) s
  = establishTaskDependencies (Clock.run (createTasks processedPrompt) s).
Proof. by_trigger_cases; reflexivity. Qed.

Lemma createTasks_kinds :
  map type (Clock.run (createTasks processedPrompt) s)
  = emittedKinds (Prompt.tokenized processedPrompt).
Proof. by_trigger_cases; reflexivity. Qed.

Lemma createTasks_root :
  exists root rest,
    Clock.run (createTasks processedPrompt) s = root :: rest
    /\ type root = CODE_GENERATION
    /\ dependencies root = []
    /\ Forall (fun t => type t <> CODE_GENERATION) rest.
Proof.
  by_trigger_cases;
    cbn [fst Clock.bind Clock.ret Clock.Date_now pushWhen
         createCodeGenerationTask createDocumentationTask createTestingTask
         createOptimizationTask createSecurityTask createDeploymentTask app
         Clock.readings Clock.reads];
    (eexists; eexists; split; [reflexivity |]);
    (split; [reflexivity |]); (split; [reflexivity |]);
    repeat first [ apply Forall_nil
                 | apply Forall_cons; [cbn [type]; discriminate |] ].
Qed.

Lemma idKind_stamp (z : Z) :
  idKind (stamp "code_gen_" z) = Some CODE_GENERATION
  /\ idKind (stamp "docs_" z) = Some DOCUMENTATION
  /\ idKind (stamp "test_" z) = Some TESTING
  /\ idKind (stamp "opt_" z) = Some OPTIMIZATION
  /\ idKind (stamp "security_" z) = Some SECURITY
  /\ idKind (stamp "deploy_" z) = Some DEPLOYMENT.
Proof. repeat match goal with |- _ /\ _ => split end; reflexivity. Qed.

Lemma createTasks_wellPrefixed :
  Forall wellPrefixed (Clock.run (createTasks processedPrompt) s).
Proof.
  by_trigger_cases; cbn [fst Clock.bind Clock.ret Clock.Date_now pushWhen
    createCodeGenerationTask createDocumentationTask createTestingTask
    createOptimizationTask createSecurityTask createDeploymentTask app
    Clock.readings Clock.reads];
    repeat (apply Forall_cons; [split; [reflexivity |] |]);
    repeat first [ apply Forall_nil
                 | apply Forall_cons;
                   [eexists; split; [reflexivity | simpl; tauto] |] ].
Qed.

(** Every task is created with an identifier of each kind its own kind is
    made to depend on, whether or not a task of that kind exists. *)
Lemma createTasks_namesImplied :
  Forall (fun t => namesImplied t = true)
         (Clock.run (createTasks processedPrompt) s).
Proof.
  by_trigger_cases;
    cbn [fst Clock.bind Clock.ret Clock.Date_now pushWhen
         createCodeGenerationTask createDocumentationTask createTestingTask
         createOptimizationTask createSecurityTask createDeploymentTask app
         Clock.readings Clock.reads];
    repeat first [ apply Forall_nil | apply Forall_cons; [reflexivity |] ].
Qed.

End Creation.


(** ** The dependency pass *)

Section DependencyPass.
Import Tasks.

Lemma TaskType_eqb_eq (a b : TaskType) : TaskType_eqb a b = true <-> a = b.
Proof. destruct a, b; simpl; split; intros H; try reflexivity; discriminate. Qed.

Lemma dependencyId_found (ts : list Task) (k : TaskType) (d : string) :
  dependencyId ts k = Some d ->
  exists f, In f ts /\ type f = k /\ id f = d.
Proof.
  unfold dependencyId.
  destruct (find _ ts) as [f |] eqn:Hfind; simpl; [| discriminate].
  intros [= <-]. apply find_some in Hfind. destruct Hfind as [Hin Hty].
  exists f. repeat split; [assumption | now apply TaskType_eqb_eq].
Qed.

Lemma dependencyId_present (ts : list Task) (k : TaskType) :
  In k (map type ts) ->
  exists f, In f ts /\ type f = k /\ dependencyId ts k = Some (id f).
Proof.
  unfold dependencyId. induction ts as [| t ts IH]; simpl; [intros [] |].
  destruct (TaskType_eqb (type t) k) eqn:Hty.
  - intros _. exists t. apply TaskType_eqb_eq in Hty. auto.
  - intros [Heq | Hin].
    + apply TaskType_eqb_eq in Heq. congruence.
    + destruct (IH Hin) as (f & Hf & Hk & Hd). exists f. auto.
Qed.

Lemma addDependency_deps (ts : list Task) (k : TaskType) (t : Task) (x : string) :
  In x (dependencies (addDependency ts k t))
  <-> In x (dependencies t) \/ dependencyId ts k = Some x.
Proof.
  unfold addDependency. destruct (dependencyId ts k) as [d |].
  - destruct (JS.arrIncludes (dependencies t) d) eqn:Hinc; simpl.
    + apply arrIncludes_In in Hinc. split; [auto |].
      intros [H | [= <-]]; assumption.
    + rewrite in_app_iff. simpl. split.
      * intros [H | [<- | []]]; auto.
      * intros [H | [= <-]]; auto.
  - split; [auto | intros [H | H]; [assumption | discriminate]].
Qed.

Lemma addDependencies_deps (ts : list Task) (ks : list TaskType) (t : Task)
      (x : string) :
  In x (dependencies (fold_left (fun t k => addDependency ts k t) ks t))
  <-> In x (dependencies t)
      \/ exists k, In k ks /\ dependencyId ts k = Some x.
Proof.
  revert t. induction ks as [| k ks IH]; intros t; simpl.
  - split; [auto | intros [H | (k & [] & _)]; assumption].
  - rewrite IH, addDependency_deps. split.
    + intros [[H | H] | (k' & Hk' & H)]; eauto.
    + intros [H | (k' & [<- | Hk'] & H)]; eauto.
Qed.

Lemma establishOne_deps (ts : list Task) (t : Task) (x : string) :
  In x (dependencies (establishOne ts t))
  <-> In x (dependencies t)
      \/ exists k, In k (impliedKinds (type t)) /\ dependencyId ts k = Some x.
Proof. apply addDependencies_deps. Qed.

Lemma establishOne_root (ts : list Task) (t : Task) :
  type t = CODE_GENERATION -> establishOne ts t = t.
Proof. intros Hty. unfold establishOne. now rewrite Hty. Qed.

Lemma establishOne_wellPrefixed (ts : list Task) (t : Task) :
  Forall wellPrefixed ts -> wellPrefixed t -> wellPrefixed (establishOne ts t).
Proof.
  intros Hts [Hid Hdeps]. split.
  - now rewrite establishOne_id, establishOne_type.
  - rewrite establishOne_type. apply Forall_forall. intros x Hx.
    apply establishOne_deps in Hx. destruct Hx as [Hx | (k & Hk & Hd)].
    + rewrite Forall_forall in Hdeps. now apply Hdeps.
    + exists k. split; [| assumption].
      apply dependencyId_found in Hd. destruct Hd as (f & Hf & Hty & <-).
      rewrite Forall_forall in Hts. destruct (Hts f Hf) as [Hfid _].
      now rewrite Hfid, Hty.
Qed.

Lemma namesImplied_spec (t : Task) (k : TaskType) :
  namesImplied t = true ->
  In k (impliedKinds (type t)) ->
  exists d, In d (dependencies t) /\ idKind d = Some k.
Proof.
  unfold namesImplied. rewrite forallb_forall. intros Hall Hk.
  apply Hall, existsb_exists in Hk. destruct Hk as (d & Hd & Hkind).
  exists d. split; [assumption |].
  destruct (idKind d) as [k' |]; [| discriminate].
  apply TaskType_eqb_eq in Hkind. now subst.
Qed.

Lemma impliedKinds_rank (k1 k2 : TaskType) :
  In k2 (impliedKinds k1) -> rank k2 < rank k1.
Proof.
  destruct k1; simpl; intros H;
    repeat (destruct H as [<- | H]; [simpl; lia |]); destruct H.
Qed.

Lemma impliedKinds_root (k : TaskType) :
  k <> CODE_GENERATION -> In CODE_GENERATION (impliedKinds k).
Proof. destruct k; simpl; intros H; auto. Qed.

Variable processedPrompt : Prompt.ProcessedPrompt.
Variable s : Clock.State.

Local Abbreviation created := (Clock.run (createTasks processedPrompt) s).
Local Abbreviation result := (Clock.run (extractTasks processedPrompt) s).

Lemma result_map : result = map (establishOne created) created.
Proof.
  rewrite extractTasks_createTasks. apply establishTaskDependencies_map.
Qed.

Lemma result_kinds :
  map type result = emittedKinds (Prompt.tokenized processedPrompt).
Proof.
  rewrite result_map, map_map.
  rewrite (map_ext _ type (establishOne_type created)).
  apply createTasks_kinds.
Qed.

Lemma result_wellPrefixed : Forall wellPrefixed result.
Proof.
  rewrite result_map. apply Forall_forall. intros t Ht.
  apply in_map_iff in Ht. destruct Ht as (t0 & <- & Ht0).
  pose proof (createTasks_wellPrefixed processedPrompt s) as Hc.
  apply establishOne_wellPrefixed; [exact Hc |].
  rewrite Forall_forall in Hc. now apply Hc.
Qed.

(** An edge of the result follows the table of implied kinds. *)
Lemma dependsOn_implied (a b : Task) :
  dependsOn result a b -> In (type b) (impliedKinds (type a)).
Proof.
  intros (Ha & Hb & Hdep).
  pose proof result_wellPrefixed as Hwp. rewrite Forall_forall in Hwp.
  destruct (Hwp a Ha) as [_ Hdeps]. destruct (Hwp b Hb) as [Hid _].
  rewrite Forall_forall in Hdeps.
  destruct (Hdeps _ Hdep) as (k & Hk & Hin).
  rewrite Hid in Hk. now injection Hk as ->.
Qed.

Lemma dependsOn_rank (a b : Task) :
  clos_trans Task (dependsOn result) a b -> rank (type b) < rank (type a).
Proof.
  induction 1 as [a b H | a b c _ IH1 _ IH2].
  - now apply impliedKinds_rank, dependsOn_implied.
  - lia.
Qed.

(** A task of the result depends on a task of each implied kind that was
    emitted. *)
Lemma implied_dependsOn (a : Task) (k : TaskType) :
  In a result ->
  In k (impliedKinds (type a)) ->
  In k (map type result) ->
  exists b, dependsOn result a b /\ type b = k.
Proof.
  intros Ha Hk Hemitted.
  assert (Hcreated : In k (map type created)).
  { rewrite result_map, map_map in Hemitted.
    now rewrite (map_ext _ type (establishOne_type created)) in Hemitted. }
  destruct (dependencyId_present created k Hcreated) as (f & Hf & Hty & Hd).
  exists (establishOne created f).
  assert (Hb : In (establishOne created f) result).
  { rewrite result_map. now apply in_map. }
  split; [| now rewrite establishOne_type].
  split; [assumption | split; [assumption |]].
  rewrite establishOne_id.
  rewrite result_map in Ha. apply in_map_iff in Ha.
  destruct Ha as (a0 & <- & Ha0).
  apply establishOne_deps. right. exists k.
  rewrite establishOne_type in Hk. auto.
Qed.




Lemma result_root :
  exists root rest,
    result = root :: rest
    /\ type root = CODE_GENERATION
    /\ dependencies root = []
    /\ Forall (fun t => type t <> CODE_GENERATION) rest.
Proof.
  destruct (createTasks_root processedPrompt s)
    as (root & rest & Hc & Hty & Hdeps & Hrest).
  exists root, (map (establishOne created) rest).
  rewrite result_map. rewrite Hc at 2.
  cbn [map]. rewrite (establishOne_root created root Hty).
  repeat split; try assumption.
  apply Forall_forall. intros t Ht. apply in_map_iff in Ht.
  destruct Ht as (t0 & <- & Ht0). rewrite establishOne_type.
  rewrite Forall_forall in Hrest. now apply Hrest.
Qed.

End DependencyPass.

(** ** The task graph *)

(** C2.  For every processed prompt and every clock, the task list that
    [extractTasks] returns holds exactly one task of kind code_generation,
    and the dependencies list of that task is empty. *)
Theorem extractTasks_single_root :
  forall (processedPrompt : Prompt.ProcessedPrompt) (s : Clock.State),
    let tasks := Clock.run (Tasks.extractTasks processedPrompt) s in
    exists root,
      filter (fun t => Tasks.TaskType_eqb (Tasks.type t) Tasks.CODE_GENERATION)
             tasks = [root]
      /\ Tasks.dependencies root = [].
Proof.
  intros processedPrompt s tasks. subst tasks.
  destruct (result_root processedPrompt s)
    as (root & rest & -> & Hty & Hdeps & Hrest).
  exists root. split; [| assumption].
  cbn [filter]. rewrite Hty. cbn [Tasks.TaskType_eqb]. f_equal.
  induction Hrest as [| t rest Ht _ IH]; [reflexivity |].
  cbn [filter].
  destruct (Tasks.TaskType_eqb (Tasks.type t) Tasks.CODE_GENERATION) eqn:E;
    [| exact IH].
  apply TaskType_eqb_eq in E. contradiction.
Qed.

(** C3.  For every processed prompt and every clock, the dependency
    relation on the returned tasks is acyclic (no task depends on itself
    directly or transitively), and every returned task other than the
    code_generation root depends on a returned code_generation task. *)
Theorem dependency_graph_acyclic_rooted :
  forall (processedPrompt : Prompt.ProcessedPrompt) (s : Clock.State),
    let tasks := Clock.run (Tasks.extractTasks processedPrompt) s in
    (forall t, ~ clos_trans Tasks.Task (dependsOn tasks) t t)
    /\ (forall t,
          In t tasks ->
          Tasks.type t <> Tasks.CODE_GENERATION ->
          exists root,
            In root tasks
            /\ Tasks.type root = Tasks.CODE_GENERATION
            /\ clos_trans Tasks.Task (dependsOn tasks) t root).
Proof.
  intros processedPrompt s tasks. subst tasks. split.
  - intros t Hcycle. apply dependsOn_rank in Hcycle. lia.
  - intros t Ht Hty.
    destruct (implied_dependsOn processedPrompt s t Tasks.CODE_GENERATION Ht)
      as (root & Hdep & Hroot).
    + now apply impliedKinds_root.
    + rewrite result_kinds. left. reflexivity.
    + exists root. destruct Hdep as (Ha & Hb & Hd).
      repeat split; try assumption.
      apply t_step. repeat split; assumption.
Qed.

Lemma dependency_graph_acyclic_rooted_witness :
  In secureLoginSecurity secureLoginTasks
  /\ Tasks.type secureLoginSecurity <> Tasks.CODE_GENERATION
  /\ exists root,
       In root secureLoginTasks
       /\ Tasks.type root = Tasks.CODE_GENERATION
       /\ clos_trans Tasks.Task (dependsOn secureLoginTasks)
                     secureLoginSecurity root.
Proof.
  assert (Hin : In secureLoginSecurity secureLoginTasks)
    by (vm_compute; auto).
  assert (Hty : Tasks.type secureLoginSecurity <> Tasks.CODE_GENERATION)
    by discriminate.
  split; [exact Hin | split; [exact Hty |]].
  exact (proj2 (dependency_graph_acyclic_rooted secureLogin frozenClock)
               secureLoginSecurity Hin Hty).
Defined.

(** ** Determinism *)

Lemma decompose_run (nlp : NLP.NLPProcessor) (prompt : string) (s : Clock.State) :
  Clock.run (decompose nlp prompt) s
  = (Prompt.processPrompt nlp prompt,
     Clock.run (Tasks.extractTasks (Prompt.processPrompt nlp prompt)) s).
Proof.
  unfold decompose, Clock.run, Clock.bind, Clock.ret.
  now destruct (Tasks.extractTasks (Prompt.processPrompt nlp prompt) s).
Qed.


(** ** Dependencies on tasks that were not emitted *)

(** C1, evaluated where it fails.  For the prompt 'Add a secure login' no
    performance keyword fires, so no optimization task is emitted; the
    security task nevertheless lists the identifier 'opt_1700000000000',
    which no returned task carries. *)
Theorem security_dependency_dangles :
  Tasks.requiresOptimization (Prompt.tokenized secureLogin) = false
  /\ map Tasks.type secureLoginTasks = [Tasks.CODE_GENERATION; Tasks.SECURITY]
  /\ In secureLoginSecurity secureLoginTasks
  /\ Tasks.dependencies secureLoginSecurity
     = ["code_gen_1700000000000"; "opt_1700000000000"]
  /\ dangling secureLoginTasks "opt_1700000000000".
Proof.
  split; [vm_compute; reflexivity |]. split; [vm_compute; reflexivity |].
  split; [vm_compute; auto |]. split; [reflexivity |].
  intros t Ht. vm_compute in Ht.
  destruct Ht as [<- | [<- | []]]; discriminate.
Qed.

(** When the clock moves on between two readings, a task created after the
    code_generation task keeps, next to the identifier of that task, a
    code_generation identifier that no returned task carries. *)
Lemma stale_root_dependency :
  map (fun t => (Tasks.id t, Tasks.dependencies t))
      (Clock.run (Tasks.extractTasks documentedParser) tickingClock)
  = [("code_gen_1700000000000", []);
     ("docs_1700000000001",
      ["code_gen_1700000000002"; "code_gen_1700000000000"])].
Proof. vm_compute. reflexivity. Qed.

(** The same for every prompt and every clock: whenever a security task is
    emitted and no optimization task is, the security task lists an
    identifier that no returned task carries. *)
Lemma security_without_optimization_dangles
      (processedPrompt : Prompt.ProcessedPrompt) (s : Clock.State) :
  Tasks.requiresSecurity (Prompt.tokenized processedPrompt) = true ->
  Tasks.requiresOptimization (Prompt.tokenized processedPrompt) = false ->
  exists t d,
    In t (Clock.run (Tasks.extractTasks processedPrompt) s)
    /\ Tasks.type t = Tasks.SECURITY
    /\ In d (Tasks.dependencies t)
    /\ dangling (Clock.run (Tasks.extractTasks processedPrompt) s) d.
Proof.
  intros Hsec Hopt.
  assert (Hemit : In Tasks.SECURITY
                     (map Tasks.type
                          (Clock.run (Tasks.extractTasks processedPrompt) s))).
  { rewrite result_kinds. unfold emittedKinds. rewrite Hsec.
    right. rewrite !in_app_iff. simpl. tauto. }
  apply in_map_iff in Hemit. destruct Hemit as (t & Hty & Ht).
  pose proof Ht as Ht'. rewrite result_map in Ht'.
  apply in_map_iff in Ht'. destruct Ht' as (t0 & <- & Ht0).
  rewrite establishOne_type in Hty.
  pose proof (createTasks_namesImplied processedPrompt s) as Hnames.
  rewrite Forall_forall in Hnames.
  destruct (namesImplied_spec t0 Tasks.OPTIMIZATION (Hnames t0 Ht0))
    as (d & Hd & Hkind); [rewrite Hty; simpl; auto |].
  exists (establishOne (Clock.run (createTasks processedPrompt) s) t0), d.
  split; [assumption |]. split; [now rewrite establishOne_type |].
  split; [apply establishOne_deps; now left |].
  intros t' Ht' Hid.
  pose proof (result_wellPrefixed processedPrompt s) as Hwp.
  rewrite Forall_forall in Hwp. destruct (Hwp t' Ht') as [Hpre _].
  rewrite Hid, Hkind in Hpre. injection Hpre as Hpre.
  assert (Hin : In Tasks.OPTIMIZATION
                   (emittedKinds (Prompt.tokenized processedPrompt))).
  { rewrite <- (result_kinds processedPrompt s), Hpre. now apply in_map. }
  unfold emittedKinds in Hin. rewrite Hopt in Hin.
  destruct Hin as [Hin | Hin]; [discriminate |].
  rewrite !in_app_iff in Hin.
  destruct (Tasks.requiresDocumentation _), (Tasks.requiresTesting _),
    (Tasks.requiresSecurity _), (Tasks.requiresDeployment _);
    simpl in Hin; intuition discriminate.
Qed.

(* ================================================================== *)
(** * Further properties *)
(* ================================================================== *)

(** ** Dependencies of the code context *)

Lemma filter_twice {A} (f g : A -> bool) (l : list A) :
  filter f (filter g l) = filter (fun x => g x && f x) l.
Proof.
  induction l as [| x l IH]; simpl; [reflexivity |].
  destruct (g x); simpl.
  - destruct (f x); [f_equal |]; exact IH.
  - exact IH.
Qed.

Lemma find_in_table (f : string -> bool) (table : list string) (x : string) :
  find f table = Some x -> JS.arrIncludes table x = true.
Proof. intros H. apply find_some in H. now apply arrIncludes_In. Qed.

(** X1.  The dependencies of the code context are the technology entities,
    in their original order and spelling, whose lower-cased text is in none
    of the three lookup tables; no dependency lower-cases to the language,
    the framework or the platform that was detected. *)
Theorem extractCodeContext_dependencies :
  forall tokenized : NLP.TokenizedPrompt,
    let context := NLP.extractCodeContext tokenized in
    let deps := filter (fun tech => negb (knownTechnology tech))
                       (NLP.technologies (NLP.entities tokenized)) in
    NLP.dependencies context = Some deps
    /\ Forall (fun d =>
                 NLP.language context <> Some (JS.toLowerCase d)
                 /\ NLP.framework context <> Some (JS.toLowerCase d)
                 /\ NLP.platform context <> Some (JS.toLowerCase d))
              deps.
Proof.
  intros tokenized context deps. subst context deps. split.
  - unfold NLP.extractCodeContext. cbn [NLP.dependencies].
    rewrite !filter_twice. f_equal. apply filter_ext. intros tech.
    unfold knownTechnology. cbv beta.
    destruct (JS.arrIncludes NLP.languages _),
      (JS.arrIncludes NLP.frameworks _),
      (JS.arrIncludes NLP.platforms _); reflexivity.
  - apply Forall_forall. intros d Hd. apply filter_In in Hd.
    destruct Hd as [_ Hd]. unfold knownTechnology in Hd.
    rewrite !negb_orb, !andb_true_iff, !negb_true_iff in Hd.
    destruct Hd as [[Hl Hf] Hp].
    unfold NLP.extractCodeContext.
    cbn [NLP.language NLP.framework NLP.platform].
    repeat split; intros H; apply find_in_table in H; congruence.
Qed.

(** ** Full stops and white space in constraints *)

Lemma get_toLowerCase (s : string) (j : nat) :
  String.get j (JS.toLowerCase s) = option_map JS.lowerChar (String.get j s).
Proof.
  revert j. induction s as [| c s IH]; intros [| j]; simpl; auto.
Qed.

(** Only the full stop lower-cases to a full stop. *)
Lemma lowerChar_dot (c : ascii) : JS.lowerChar c = "."%char -> c = "."%char.
Proof.
  destruct c as [[] [] [] [] [] [] [] []]; vm_compute; intros H;
    solve [reflexivity | discriminate H].
Qed.

Lemma dotFree_toLowerCase (s : string) : dotFree s -> dotFree (JS.toLowerCase s).
Proof.
  intros Hs j Hj. unfold dotAt in Hj. rewrite get_toLowerCase in Hj.
  destruct (String.get j s) as [c |] eqn:Hc; [| discriminate].
  injection Hj as Hj. apply lowerChar_dot in Hj. subst c. exact (Hs j Hc).
Qed.

Lemma dotFree_append (a b : string) :
  dotFree (a ++ b) <-> dotFree a /\ dotFree b.
Proof.
  split.
  - intros H. split; intros j Hj; unfold dotAt in Hj.
    + assert (Hlt : j < String.length a) by exact (get_lt_length a j _ Hj).
      rewrite (append_correct1 a b j Hlt) in Hj. exact (H j Hj).
    + rewrite (append_correct2 a b j) in Hj. exact (H _ Hj).
  - intros [Ha Hb] j Hj. unfold dotAt in Hj.
    destruct (Nat.lt_ge_cases j (String.length a)) as [Hlt | Hge].
    + rewrite <- (append_correct1 a b j Hlt) in Hj. exact (Ha j Hj).
    + replace j with ((j - String.length a) + String.length a) in Hj by lia.
      rewrite <- (append_correct2 a b) in Hj. exact (Hb _ Hj).
Qed.

Lemma dotFree_join (arr : list string) :
  Forall dotFree arr -> dotFree (JS.join " " arr).
Proof.
  unfold JS.join. induction 1 as [| x arr Hx Harr IH]; simpl.
  - intros [| j] Hj; discriminate Hj.
  - destruct arr as [| y arr]; [exact Hx |].
    apply dotFree_append. split; [exact Hx |].
    intros [| j] Hj; [discriminate Hj | exact (IH j Hj)].
Qed.

Lemma includes_dotFree (s : string) : JS.includes s "." = false -> dotFree s.
Proof. intros H j Hj. exact (no_dot_get s j H Hj). Qed.

Lemma dotFree_index (s : string) (n : nat) :
  dotFree s -> String.index n "." s = None.
Proof.
  intros Hs. destruct (String.index n "." s) as [e |] eqn:He; [| reflexivity].
  apply index_correct1 in He. simpl in He.
  apply substring_one_get in He. destruct (Hs e He).
Qed.

Lemma pushConstraint_dotFree (text phrase : string) (acc : list string) :
  dotFree text -> NLP.pushConstraint text acc phrase = acc.
Proof.
  intros Hs. unfold NLP.pushConstraint, JS.indexOfFrom.
  destruct (JS.indexOf phrase text); [| reflexivity].
  now rewrite dotFree_index.
Qed.

(** X2.  When no token holds a full stop (as with tokens made of word
    characters only), no constraint is extracted, whichever trigger phrases
    the text holds. *)
Theorem constraints_need_full_stop :
  forall tokenized : NLP.TokenizedPrompt,
    Forall (fun token => JS.includes token "." = false) (NLP.tokens tokenized) ->
    NLP.constraints (NLP.extractCodeContext tokenized) = Some [].
Proof.
  intros tokenized Htok.
  assert (Htext : dotFree (JS.toLowerCase (JS.join " " (NLP.tokens tokenized)))).
  { apply dotFree_toLowerCase, dotFree_join.
    apply Forall_forall. intros t Ht. rewrite Forall_forall in Htok.
    now apply includes_dotFree, Htok. }
  unfold NLP.extractCodeContext. cbn [NLP.constraints].
  unfold NLP.constraintPhrases. cbn [fold_left].
  now rewrite !(pushConstraint_dotFree _ _ _ Htext).
Qed.

Lemma constraints_need_full_stop_witness :
  Forall (fun token => JS.includes token "." = false) (NLP.tokens mustBeFast)
  /\ NLP.constraints (NLP.extractCodeContext mustBeFast) = Some [].
Proof.
  assert (H : Forall (fun token => JS.includes token "." = false)
                     (NLP.tokens mustBeFast)) by (repeat constructor).
  split; [exact H | exact (constraints_need_full_stop mustBeFast H)].
Defined.

Lemma trimStart_suffix (s : string) :
  exists pre, s = (pre ++ JS.trimStart s)%string.
Proof.
  induction s as [| c s [pre IH]]; simpl.
  - now exists EmptyString.
  - destruct (JS.isWhiteSpace c).
    + exists (String c pre). simpl. now rewrite <- IH.
    + now exists EmptyString.
Qed.

Lemma trimEnd_prefix (s : string) :
  exists post, s = (JS.trimEnd s ++ post)%string.
Proof.
  induction s as [| c s [post IH]]; simpl.
  - now exists EmptyString.
  - destruct (JS.trimEnd s) as [| d r] eqn:Hr.
    + destruct (JS.isWhiteSpace c).
      * exists (String c s). reflexivity.
      * exists s. reflexivity.
    + exists post. simpl. now rewrite IH.
Qed.

Lemma dotFree_trim (s : string) : dotFree s -> dotFree (JS.trim s).
Proof.
  intros Hs. unfold JS.trim.
  destruct (trimStart_suffix s) as [pre Hpre].
  destruct (trimEnd_prefix (JS.trimStart s)) as [post Hpost].
  rewrite Hpre in Hs. apply dotFree_append in Hs. destruct Hs as [_ Hs].
  rewrite Hpost in Hs. now apply dotFree_append in Hs.
Qed.

Lemma trimEnd_idempotent (s : string) : JS.trimEnd (JS.trimEnd s) = JS.trimEnd s.
Proof.
  induction s as [| c s IH]; simpl; [reflexivity |].
  destruct (JS.trimEnd s) as [| d r] eqn:Hr.
  - destruct (JS.isWhiteSpace c) eqn:Hc; simpl; [reflexivity |].
    now rewrite Hc.
  - change (JS.trimEnd (String c (String d r)))
      with (match JS.trimEnd (String d r) with
            | EmptyString =>
                if JS.isWhiteSpace c then EmptyString else String c EmptyString
            | r' => String c r'
            end).
    now rewrite IH.
Qed.

Lemma trimStart_startsBlack (s : string) : startsBlack (JS.trimStart s).
Proof.
  induction s as [| c s IH]; simpl; [exact I |].
  destruct (JS.isWhiteSpace c) eqn:Hc; [exact IH | exact Hc].
Qed.

Lemma startsBlack_trimStart (s : string) : startsBlack s -> JS.trimStart s = s.
Proof. destruct s as [| c s]; simpl; [reflexivity | now intros ->]. Qed.

Lemma trimEnd_startsBlack (s : string) : startsBlack s -> startsBlack (JS.trimEnd s).
Proof.
  destruct s as [| c s]; simpl; [exact (fun H => H) |].
  intros Hc. destruct (JS.trimEnd s); [rewrite Hc |]; exact Hc.
Qed.

(** Trimming twice is trimming once. *)
Lemma trim_idempotent (s : string) : JS.trim (JS.trim s) = JS.trim s.
Proof.
  unfold JS.trim.
  rewrite (startsBlack_trimStart (JS.trimEnd (JS.trimStart s))).
  - apply trimEnd_idempotent.
  - apply trimEnd_startsBlack, trimStart_startsBlack.
Qed.

Lemma dotFree_span (text : string) (a e : nat) :
  firstDotFrom text a e -> dotFree (String.substring a (e - a) text).
Proof.
  intros (Hae & _ & Hnone) j Hj. unfold dotAt in Hj.
  destruct (Nat.lt_ge_cases j (e - a)) as [Hlt | Hge].
  - rewrite (substring_correct1 text a (e - a) j Hlt) in Hj.
    apply (Hnone (j + a)); [lia | lia | exact Hj].
  - rewrite (substring_correct2 text a (e - a) j Hge) in Hj. discriminate.
Qed.

Lemma pushConstraint_shape (text phrase : string) (acc : list string) :
  phrase <> EmptyString ->
  JS.includes phrase "." = false ->
  exists c,
    NLP.pushConstraint text acc phrase = acc ++ c
    /\ List.length c <= 1
    /\ Forall (fun x => dotFree x /\ JS.trim x = x) c.
Proof.
  intros Hne Hnodot.
  destruct (pushConstraint_contribution text phrase acc Hne Hnodot)
    as (c & Hc & Heq).
  exists c. split; [exact Heq |].
  destruct Hc as [i e Hfirst Hdot | Habs | i Hfirst Hno]; simpl;
    split; try lia; try constructor; try constructor.
  - now apply dotFree_trim, dotFree_span.
  - apply trim_idempotent.
Qed.

(** X3.  [extractCodeContext] yields at most four constraints, one per
    trigger phrase at most; each of them holds no full stop and has no
    white space at either end (trimming it changes nothing). *)
Theorem constraints_trimmed_sentences :
  forall tokenized : NLP.TokenizedPrompt,
    exists cs,
      NLP.constraints (NLP.extractCodeContext tokenized) = Some cs
      /\ List.length cs <= 4
      /\ Forall (fun c => dotFree c /\ JS.trim c = c) cs.
Proof.
  intros tokenized.
  unfold NLP.extractCodeContext. cbn [NLP.constraints].
  set (text := JS.toLowerCase _).
  unfold NLP.constraintPhrases. cbn [fold_left].
  destruct (pushConstraint_shape text "must be" [])
    as (c1 & -> & L1 & F1); [discriminate | reflexivity |].
  destruct (pushConstraint_shape text "should be" ([] ++ c1))
    as (c2 & -> & L2 & F2); [discriminate | reflexivity |].
  destruct (pushConstraint_shape text "needs to be" (([] ++ c1) ++ c2))
    as (c3 & -> & L3 & F3); [discriminate | reflexivity |].
  destruct (pushConstraint_shape text "required to" ((([] ++ c1) ++ c2) ++ c3))
    as (c4 & -> & L4 & F4); [discriminate | reflexivity |].
  eexists. split; [reflexivity |]. split.
  - rewrite !length_app. simpl. lia.
  - repeat (apply Forall_app; split); try assumption. constructor.
Qed.

(** ** Completion suggestions *)

Lemma suggestCompletion_few_tokens (nlp : NLP.NLPProcessor) (partial : string) :
  List.length (NLP.tokenize nlp partial) < 2 ->
  NLP.suggestCompletion nlp partial = [].
Proof.
  intros H. unfold NLP.suggestCompletion.
  apply Nat.ltb_lt in H. now rewrite H.
Qed.

Lemma In_firstn_list {A} (n : nat) (l : list A) (x : A) :
  In x (firstn n l) -> In x l.
Proof.
  intros H. rewrite <- (firstn_skipn n l). apply in_or_app. now left.
Qed.

Lemma suggestCompletion_sound (nlp : NLP.NLPProcessor) (partial c : string) :
  In c (NLP.suggestCompletion nlp partial) ->
  2 <= List.length (NLP.tokenize nlp partial)
  /\ In c NLP.commonPhrases
  /\ JS.startsWith c partial = true.
Proof.
  unfold NLP.suggestCompletion.
  destruct (List.length (NLP.tokenize nlp partial) <? 2) eqn:Hlen;
    [intros [] |].
  apply Nat.ltb_ge in Hlen. intros Hc.
  unfold JS.slice0 in Hc. apply In_firstn_list, filter_In in Hc.
  destruct Hc as [Hin Hpre]. auto.
Qed.

(** The common phrases start with six different characters. *)
Lemma commonPhrases_one_match (a : ascii) (p : string) :
  List.length
    (filter (fun phrase => JS.startsWith phrase (String a p)) NLP.commonPhrases)
  <= 1.
Proof.
  unfold NLP.commonPhrases, JS.startsWith.
  destruct a as [[] [] [] [] [] [] [] []]; cbn;
    repeat match goal with
           | |- context [if ?c then _ else _] => destruct c
           end; simpl; lia.
Qed.

(** X4.  [suggestCompletion] answers nothing when the partial text has
    fewer than two tokens.  Otherwise every suggestion is one of the six
    common phrases and starts with the partial text; there are at most five
    suggestions, and at most one when the partial text is not empty. *)
Theorem suggestCompletion_results :
  forall (nlp : NLP.NLPProcessor) (partial : string),
    let suggestions := NLP.suggestCompletion nlp partial in
    (List.length (NLP.tokenize nlp partial) < 2 -> suggestions = [])
    /\ Forall (fun c => In c NLP.commonPhrases
                        /\ JS.startsWith c partial = true) suggestions
    /\ List.length suggestions <= 5
    /\ (partial <> EmptyString -> List.length suggestions <= 1).
Proof.
  intros nlp partial suggestions. subst suggestions.
  split; [apply suggestCompletion_few_tokens |].
  split; [| split].
  - apply Forall_forall. intros c Hc.
    now apply suggestCompletion_sound in Hc.
  - unfold NLP.suggestCompletion, JS.slice0.
    destruct (_ <? 2); [simpl; lia |].
    rewrite length_firstn. lia.
  - intros Hne. destruct partial as [| a p]; [now destruct Hne |].
    unfold NLP.suggestCompletion, JS.slice0.
    destruct (_ <? 2); [simpl; lia |].
    rewrite length_firstn.
    pose proof (commonPhrases_one_match a p). lia.
Qed.

Lemma suggestCompletion_results_witness :
  List.length (NLP.tokenize (fixedTokens ["build"]) "build") < 2
  /\ NLP.suggestCompletion (fixedTokens ["build"]) "build" = []
  /\ "build a" <> EmptyString
  /\ List.length (NLP.suggestCompletion (fixedTokens ["build"; "a"]) "build a") <= 1.
Proof.
  assert (H1 : List.length (NLP.tokenize (fixedTokens ["build"]) "build") < 2)
    by (simpl; lia).
  assert (H2 : "build a" <> EmptyString) by discriminate.
  split; [exact H1 |].
  split;
    [exact (proj1 (suggestCompletion_results (fixedTokens ["build"]) "build") H1) |].
  split; [exact H2 |].
  exact (proj2 (proj2 (proj2
           (suggestCompletion_results (fixedTokens ["build"; "a"]) "build a"))) H2).
Defined.

Lemma prefix_in_prefixes (p s : string) :
  String.prefix p s = true -> In p (prefixes s).
Proof.
  revert p. induction s as [| c s IH]; intros [| a p]; simpl;
    try (intros _; now left); try discriminate.
  destruct (ascii_dec a c) as [-> |]; [| discriminate].
  intros H. right. apply in_map, IH, H.
Qed.

(** The endings that make [validatePrompt] ask for completions. *)
Lemma completion_endings :
  forallb
    (fun phrase =>
       forallb
         (fun p =>
            negb (JS.endsWith p "..." || JS.endsWith p "create"
                  || JS.endsWith p "generate")
            || (String.eqb p "create" && String.eqb phrase "create a function")
            || (String.eqb p "generate"
                && String.eqb phrase "generate an interface"))
         (prefixes phrase))
    NLP.commonPhrases
  = true.
Proof. vm_compute. reflexivity. Qed.

Lemma validatePrompt_suggestions (nlp : NLP.NLPProcessor) (prompt : string) :
  Prompt.suggestions (Prompt.validatePrompt nlp prompt)
  = (if negb (JS.some (fun lang => JS.includes (JS.toLowerCase prompt) lang)
                      Prompt.commonLanguages)
     then [Prompt.noLanguageMessage] else [])
    ++ (if JS.endsWith prompt "..." || JS.endsWith prompt "create"
           || JS.endsWith prompt "generate"
        then map Prompt.didYouMean (NLP.suggestCompletion nlp prompt)
        else []).
Proof.
  unfold Prompt.validatePrompt.
  repeat match goal with
         | |- context [if ?c then _ else _] => destruct c
         end; simpl; rewrite ?app_nil_r; reflexivity.
Qed.

(** X5.  Besides the language hint, [validatePrompt] only ever suggests
    'create a function' for the prompt 'create' and 'generate an interface'
    for the prompt 'generate', and only when the tokenizer finds at least two
    tokens in that prompt; such a prompt is always reported as too short. *)
Theorem validatePrompt_completions :
  forall (nlp : NLP.NLPProcessor) (prompt sug : string),
    In sug (Prompt.suggestions (Prompt.validatePrompt nlp prompt)) ->
    sug = Prompt.noLanguageMessage
    \/ (((prompt = "create" /\ sug = Prompt.didYouMean "create a function")
         \/ (prompt = "generate"
             /\ sug = Prompt.didYouMean "generate an interface"))
        /\ 2 <= List.length (NLP.tokenize nlp prompt)
        /\ Prompt.isValid (Prompt.validatePrompt nlp prompt) = false).
Proof.
  intros nlp prompt sug. rewrite validatePrompt_suggestions, in_app_iff.
  intros [H | H].
  - destruct (negb _); [| destruct H]. destruct H as [<- | []]. now left.
  - right.
    destruct (JS.endsWith prompt "..." || JS.endsWith prompt "create"
              || JS.endsWith prompt "generate") eqn:Hend; [| destruct H].
    apply in_map_iff in H. destruct H as (c & <- & Hc).
    apply suggestCompletion_sound in Hc. destruct Hc as (Hlen & Hin & Hpre).
    pose proof completion_endings as Hall.
    rewrite forallb_forall in Hall. specialize (Hall c Hin).
    rewrite forallb_forall in Hall.
    specialize (Hall prompt (prefix_in_prefixes prompt c Hpre)).
    rewrite Hend in Hall. simpl in Hall.
    assert (Hcase : (prompt = "create" /\ c = "create a function")
                    \/ (prompt = "generate" /\ c = "generate an interface")).
    { apply orb_true_iff in Hall. destruct Hall as [Hall | Hall];
        apply andb_true_iff in Hall; destruct Hall as [Hp Hc];
        apply String.eqb_eq in Hp, Hc; auto. }
    split; [| split; [exact Hlen |]].
    + destruct Hcase as [[-> ->] | [-> ->]]; auto.
    + rewrite validatePrompt_isValid.
      destruct Hcase as [[-> _] | [-> _]]; reflexivity.
Qed.

Lemma validatePrompt_completions_witness :
  In (Prompt.didYouMean "create a function")
     (Prompt.suggestions
        (Prompt.validatePrompt (fixedTokens ["create"; "a"]) "create"))
  /\ Prompt.isValid (Prompt.validatePrompt (fixedTokens ["create"; "a"]) "create")
     = false.
Proof.
  assert (H : In (Prompt.didYouMean "create a function")
                 (Prompt.suggestions
                    (Prompt.validatePrompt (fixedTokens ["create"; "a"]) "create")))
    by (vm_compute; auto).
  split; [exact H |].
  destruct (validatePrompt_completions _ _ _ H) as [Habs | (_ & _ & Hv)];
    [discriminate Habs | exact Hv].
Defined.

(** ** Complexity and work estimate as functions of counts *)

Lemma entityValues_count (tokenized : NLP.TokenizedPrompt) :
  fold_left (fun sum arr => sum + List.length arr)
            (Prompt.entityValues (NLP.entities tokenized)) 0
  = entityCount tokenized.
Proof. unfold Prompt.entityValues, entityCount. simpl. lia. Qed.

Lemma calculateComplexity_formula (tokenized : NLP.TokenizedPrompt) :
  Prompt.calculateComplexity tokenized
  = Qmin (Qmax (0 + inject_Z (Z.of_nat (entityCount tokenized)) * (1 # 2)
                + inject_Z (Z.of_nat (tokenCount Prompt.complexityKeywords tokenized))
                  * 2) 1) 10.
Proof.
  unfold Prompt.calculateComplexity. now rewrite entityValues_count.
Qed.

Lemma rawComplexity_le (e k e' k' : nat) :
  e <= e' -> k <= k' ->
  (0 + inject_Z (Z.of_nat e) * (1 # 2) + inject_Z (Z.of_nat k) * 2
   <= 0 + inject_Z (Z.of_nat e') * (1 # 2) + inject_Z (Z.of_nat k') * 2)%Q.
Proof.
  intros He Hk. unfold Qle, Qplus, Qmult, inject_Z.
  cbn -[Z.mul Z.add Z.of_nat]. lia.
Qed.

(** X6.  The complexity never decreases when the number of entities and the
    number of complexity-keyword tokens do not decrease; it is 10 as soon as
    five tokens are complexity keywords or twenty entities were found, and
    1 when there are at most two entities and no complexity keyword. *)
Theorem calculateComplexity_monotone :
  forall a b : NLP.TokenizedPrompt,
    (entityCount a <= entityCount b ->
     tokenCount Prompt.complexityKeywords a
     <= tokenCount Prompt.complexityKeywords b ->
     (Prompt.calculateComplexity a <= Prompt.calculateComplexity b)%Q)
    /\ (5 <= tokenCount Prompt.complexityKeywords a \/ 20 <= entityCount a ->
        (Prompt.calculateComplexity a == 10)%Q)
    /\ (entityCount a <= 2 ->
        tokenCount Prompt.complexityKeywords a = 0 ->
        (Prompt.calculateComplexity a == 1)%Q).
Proof.
  intros a b. rewrite !calculateComplexity_formula. repeat split.
  - intros He Hk.
    apply Q.min_le_compat_r, Q.max_le_compat_r, rawComplexity_le; assumption.
  - intros H. apply Q.min_r. apply Q.max_le_iff. left.
    unfold Qle, Qplus, Qmult, inject_Z. cbn -[Z.mul Z.add Z.of_nat]. lia.
  - intros He Hk. rewrite Hk.
    rewrite Q.max_r.
    + now apply Q.min_l.
    + unfold Qle, Qplus, Qmult, inject_Z. cbn -[Z.mul Z.add Z.of_nat]. lia.
Qed.

Lemma calculateComplexity_monotone_witness :
  entityCount niceToHave <= entityCount djangoOnRedis
  /\ tokenCount Prompt.complexityKeywords niceToHave
     <= tokenCount Prompt.complexityKeywords djangoOnRedis
  /\ (Prompt.calculateComplexity niceToHave
      <= Prompt.calculateComplexity djangoOnRedis)%Q.
Proof.
  assert (H1 : entityCount niceToHave <= entityCount djangoOnRedis)
    by (vm_compute; lia).
  assert (H2 : tokenCount Prompt.complexityKeywords niceToHave
               <= tokenCount Prompt.complexityKeywords djangoOnRedis)
    by (vm_compute; lia).
  split; [exact H1 | split; [exact H2 |]].
  exact (proj1 (calculateComplexity_monotone niceToHave djangoOnRedis) H1 H2).
Defined.

(** X7.  The work estimate is 500 plus 300 for every technology entity, 100
    for every other entity and 150 for every token that is a complexity
    indicator: a technology entity is counted once with the entities and
    once more, with weight 200, on its own.  It is never below 500. *)
Theorem estimateRequiredTokens_weights :
  forall tokenized : NLP.TokenizedPrompt,
    Prompt.estimateRequiredTokens tokenized
    = (500
       + 300 * Z.of_nat (List.length (NLP.technologies (NLP.entities tokenized)))
       + 100 * Z.of_nat (List.length (NLP.actions (NLP.entities tokenized))
                         + List.length (NLP.nouns (NLP.entities tokenized))
                         + List.length (NLP.numbers (NLP.entities tokenized)))
       + 150 * Z.of_nat (tokenCount Prompt.complexityIndicators tokenized))%Z
    /\ (500 <= Prompt.estimateRequiredTokens tokenized)%Z.
Proof.
  intros tokenized.
  assert (H : Prompt.estimateRequiredTokens tokenized
              = (500
                 + 300 * Z.of_nat (List.length (NLP.technologies (NLP.entities tokenized)))
                 + 100 * Z.of_nat (List.length (NLP.actions (NLP.entities tokenized))
                                   + List.length (NLP.nouns (NLP.entities tokenized))
                                   + List.length (NLP.numbers (NLP.entities tokenized)))
                 + 150 * Z.of_nat (tokenCount Prompt.complexityIndicators tokenized))%Z).
  { unfold Prompt.estimateRequiredTokens, Prompt.entityValues, tokenCount.
    cbn [fold_left]. lia. }
  split; [exact H | rewrite H; lia].
Qed.

(** ** Keyword tests on the joined text *)

Lemma substring_at_start (p s : string) :
  String.substring 0 (String.length p) s = p ->
  exists post, s = (p ++ post)%string.
Proof.
  revert s. induction p as [| a p IH]; intros s H.
  - exists s. reflexivity.
  - destruct s as [| c s]; simpl in H; [discriminate |].
    injection H as -> H. destruct (IH s H) as [post ->].
    exists post. reflexivity.
Qed.

Lemma substring_occursIn (s p : string) (m : nat) :
  String.substring m (String.length p) s = p -> occursIn p s.
Proof.
  revert s. induction m as [| m IH]; intros s H.
  - destruct (substring_at_start p s H) as [post ->].
    exists EmptyString, post. reflexivity.
  - destruct s as [| c s]; simpl in H.
    + rewrite <- H. exists EmptyString, EmptyString. reflexivity.
    + destruct (IH s H) as (pre & post & ->).
      exists (String c pre), post. reflexivity.
Qed.

(** What [s.includes] finds occurs in [s]. *)
Lemma includes_occursIn (s p : string) :
  JS.includes s p = true -> occursIn p s.
Proof.
  unfold JS.includes, JS.indexOf, JS.indexOfFrom.
  destruct (String.index 0 p s) as [m |] eqn:Hidx; [| discriminate].
  intros _. apply index_correct1 in Hidx. now apply substring_occursIn in Hidx.
Qed.

Lemma includes_iff (s p : string) :
  JS.includes s p = true <-> occursIn p s.
Proof. split; [apply includes_occursIn | apply occursIn_includes]. Qed.

(** X8.  The whole-token test of [containsKeywords] never decides: the
    function answers exactly whether some keyword, lower-cased, occurs as a
    substring of the lower-cased space-joined token text. *)
Theorem containsKeywords_substring_only :
  forall (tokenized : NLP.TokenizedPrompt) (keywords : list string),
    Tasks.containsKeywords tokenized keywords
    = JS.some (fun keyword =>
                 JS.includes (JS.toLowerCase (JS.join " " (NLP.tokens tokenized)))
                             (JS.toLowerCase keyword))
              keywords.
Proof.
  intros tokenized keywords. unfold Tasks.containsKeywords, JS.some.
  rewrite toLowerCase_join.
  induction keywords as [| kw keywords IH]; [reflexivity |].
  cbn [existsb]. rewrite IH. f_equal.
  destruct (JS.arrIncludes _ _) eqn:Htok; [| reflexivity].
  apply arrIncludes_In in Htok. simpl. symmetry.
  now apply occursIn_includes, occursIn_join.
Qed.

Lemma containsKeywords_iff (tokenized : NLP.TokenizedPrompt)
      (keywords : list string) :
  Tasks.containsKeywords tokenized keywords = true
  <-> exists kw,
        In kw keywords
        /\ occursIn (JS.toLowerCase kw)
                    (JS.join " " (map JS.toLowerCase (NLP.tokens tokenized))).
Proof.
  unfold Tasks.containsKeywords, JS.some. rewrite existsb_exists.
  split; intros (kw & Hin & H); exists kw; (split; [assumption |]).
  - apply orb_true_iff in H. destruct H as [H | H].
    + apply arrIncludes_In in H. now apply occursIn_join.
    + now apply includes_occursIn.
  - apply orb_true_iff. right. now apply occursIn_includes.
Qed.

Lemma join_prefix (sep : string) (a b : list string) :
  exists post, JS.join sep (a ++ b) = (JS.join sep a ++ post)%string.
Proof.
  unfold JS.join. induction a as [| x a IH].
  - exists (String.concat sep b). reflexivity.
  - destruct a as [| y a].
    + destruct b as [| z b]; simpl.
      * exists EmptyString. now rewrite append_nil_r.
      * eexists. reflexivity.
    + destruct IH as [post IH].
      exists post.
      change (String.concat sep ((x :: y :: a) ++ b))
        with (x ++ sep ++ String.concat sep ((y :: a) ++ b))%string.
      rewrite IH.
      change (String.concat sep (x :: y :: a))
        with (x ++ sep ++ String.concat sep (y :: a))%string.
      now rewrite !append_assoc.
Qed.

Lemma join_suffix (sep : string) (a b : list string) :
  exists pre, JS.join sep (a ++ b) = (pre ++ JS.join sep b)%string.
Proof.
  unfold JS.join. induction a as [| x a [pre IH]].
  - exists EmptyString. reflexivity.
  - destruct (a ++ b) as [| y l] eqn:Hab.
    + apply app_eq_nil in Hab. destruct Hab as [-> ->].
      exists x. simpl. now rewrite append_nil_r.
    + exists (x ++ sep ++ pre)%string.
      change (String.concat sep ((x :: a) ++ b))
        with (String.concat sep (x :: a ++ b)).
      rewrite Hab.
      change (String.concat sep (x :: y :: l))
        with (x ++ sep ++ String.concat sep (y :: l))%string.
      now rewrite IH, !append_assoc.
Qed.

Lemma occursIn_join_middle (sep : string) (before toks after : list string) :
  occursIn (JS.join sep toks) (JS.join sep (before ++ toks ++ after)).
Proof.
  destruct (join_suffix sep before (toks ++ after)) as [pre ->].
  destruct (join_prefix sep toks after) as [post ->].
  now exists pre, post.
Qed.

Section MoreTokens.
Import Tasks.

Variables a b : NLP.TokenizedPrompt.
Variables before after : list string.
Hypothesis Htokens : NLP.tokens b = before ++ NLP.tokens a ++ after.

Lemma containsKeywords_more (keywords : list string) :
  containsKeywords a keywords = true -> containsKeywords b keywords = true.
Proof.
  rewrite !containsKeywords_iff. intros (kw & Hin & Hocc). exists kw.
  split; [assumption |].
  apply occursIn_trans with (1 := Hocc).
  rewrite Htokens, !map_app. apply occursIn_join_middle.
Qed.

Lemma isComplexEnough_more :
  isComplexEnough a = true -> isComplexEnough b = true.
Proof.
  unfold isComplexEnough. rewrite !Nat.leb_le, Htokens.
  rewrite !filter_app, !length_app. lia.
Qed.

End MoreTokens.

(** ** Which tasks are emitted *)

Lemma In_emittedKinds (tokenized : NLP.TokenizedPrompt) (k : Tasks.TaskType) :
  In k (emittedKinds tokenized)
  <-> match k with
      | Tasks.CODE_GENERATION => True
      | Tasks.DOCUMENTATION => Tasks.requiresDocumentation tokenized = true
      | Tasks.TESTING => Tasks.requiresTesting tokenized = true
      | Tasks.OPTIMIZATION => Tasks.requiresOptimization tokenized = true
      | Tasks.SECURITY => Tasks.requiresSecurity tokenized = true
      | Tasks.DEPLOYMENT => Tasks.requiresDeployment tokenized = true
      end.
Proof.
  unfold emittedKinds.
  destruct (Tasks.requiresDocumentation tokenized),
    (Tasks.requiresTesting tokenized),
    (Tasks.requiresOptimization tokenized),
    (Tasks.requiresSecurity tokenized),
    (Tasks.requiresDeployment tokenized);
    destruct k; simpl; intuition (auto; discriminate).
Qed.

Lemma emittedKinds_NoDup (tokenized : NLP.TokenizedPrompt) :
  NoDup (emittedKinds tokenized).
Proof.
  unfold emittedKinds.
  destruct (Tasks.requiresDocumentation tokenized),
    (Tasks.requiresTesting tokenized),
    (Tasks.requiresOptimization tokenized),
    (Tasks.requiresSecurity tokenized),
    (Tasks.requiresDeployment tokenized); simpl;
    repeat (constructor; [simpl; intuition discriminate |]); constructor.
Qed.

(** X9.  For every processed prompt and clock, the returned list holds the
    code_generation task and, for each other kind, a task of that kind
    exactly when the trigger predicate of the kind holds for the tokens; no
    kind occurs twice, so there are at most six tasks. *)
Theorem extractTasks_kinds :
  forall (processedPrompt : Prompt.ProcessedPrompt) (s : Clock.State),
    let tokenized := Prompt.tokenized processedPrompt in
    let kinds := map Tasks.type (Clock.run (Tasks.extractTasks processedPrompt) s) in
    In Tasks.CODE_GENERATION kinds
    /\ (In Tasks.DOCUMENTATION kinds <-> Tasks.requiresDocumentation tokenized = true)
    /\ (In Tasks.TESTING kinds <-> Tasks.requiresTesting tokenized = true)
    /\ (In Tasks.OPTIMIZATION kinds <-> Tasks.requiresOptimization tokenized = true)
    /\ (In Tasks.SECURITY kinds <-> Tasks.requiresSecurity tokenized = true)
    /\ (In Tasks.DEPLOYMENT kinds <-> Tasks.requiresDeployment tokenized = true)
    /\ NoDup kinds
    /\ List.length kinds <= 6.
Proof.
  intros processedPrompt s tokenized kinds. subst kinds tokenized.
  rewrite result_kinds.
  repeat (split; [apply In_emittedKinds; exact I || reflexivity |]).
  repeat (split; [apply (In_emittedKinds _ _) |]).
  split; [apply emittedKinds_NoDup |].
  unfold emittedKinds.
  destruct (Tasks.requiresDocumentation _), (Tasks.requiresTesting _),
    (Tasks.requiresOptimization _), (Tasks.requiresSecurity _),
    (Tasks.requiresDeployment _); simpl; lia.
Qed.

Section MoreTokensTasks.
Import Tasks.

Variables a b : NLP.TokenizedPrompt.
Variables before after : list string.
Hypothesis Htokens : NLP.tokens b = before ++ NLP.tokens a ++ after.

Lemma emittedKinds_more (k : TaskType) :
  In k (emittedKinds a) -> In k (emittedKinds b).
Proof.
  rewrite !In_emittedKinds.
  pose proof (containsKeywords_more a b before after Htokens) as Hkw.
  pose proof (isComplexEnough_more a b before after Htokens) as Hce.
  destruct k; auto;
    unfold requiresDocumentation, requiresTesting, requiresOptimization,
      requiresSecurity, requiresDeployment, containsSensitiveOperations;
    rewrite ?orb_true_iff; intuition auto.
Qed.

End MoreTokensTasks.

(** X10.  Words added before or after the tokens of a prompt never remove a
    task: every kind emitted for the shorter token list is emitted for the
    longer one, whatever else the two processed prompts hold and whatever
    the clocks read. *)
Theorem more_words_keep_tasks :
  forall (p q : Prompt.ProcessedPrompt) (s s' : Clock.State)
         (before after : list string) (k : Tasks.TaskType),
    NLP.tokens (Prompt.tokenized q)
    = before ++ NLP.tokens (Prompt.tokenized p) ++ after ->
    In k (map Tasks.type (Clock.run (Tasks.extractTasks p) s)) ->
    In k (map Tasks.type (Clock.run (Tasks.extractTasks q) s')).
Proof.
  intros p q s s' before after k Htokens. rewrite !result_kinds.
  now apply (emittedKinds_more _ _ before after).
Qed.

Lemma more_words_keep_tasks_witness :
  NLP.tokens (Prompt.tokenized secureLoginPlease)
  = ["Please"] ++ NLP.tokens (Prompt.tokenized secureLogin) ++ ["today"]
  /\ In Tasks.SECURITY
        (map Tasks.type (Clock.run (Tasks.extractTasks secureLogin) frozenClock))
  /\ In Tasks.SECURITY
        (map Tasks.type
             (Clock.run (Tasks.extractTasks secureLoginPlease) tickingClock)).
Proof.
  assert (H1 : NLP.tokens (Prompt.tokenized secureLoginPlease)
               = ["Please"] ++ NLP.tokens (Prompt.tokenized secureLogin)
                 ++ ["today"]) by reflexivity.
  assert (H2 : In Tasks.SECURITY
                  (map Tasks.type
                       (Clock.run (Tasks.extractTasks secureLogin) frozenClock)))
    by (vm_compute; auto).
  split; [exact H1 | split; [exact H2 |]].
  exact (more_words_keep_tasks secureLogin secureLoginPlease frozenClock
           tickingClock ["Please"] ["today"] Tasks.SECURITY H1 H2).
Defined.

(** ** Identifiers *)

Lemma wellPrefixed_ids_NoDup (tasks : list Tasks.Task) :
  Forall wellPrefixed tasks ->
  NoDup (map Tasks.type tasks) ->
  NoDup (map Tasks.id tasks).
Proof.
  induction tasks as [| t tasks IH]; intros Hwp Hnd; simpl; [constructor |].
  inversion Hwp as [| ? ? [Ht _] Hwp']; subst.
  inversion Hnd as [| ? ? Hnotin Hnd']; subst.
  constructor; [| now apply IH].
  intros Hin. apply Hnotin.
  apply in_map_iff in Hin. destruct Hin as (u & Hid & Hu).
  rewrite Forall_forall in Hwp'. destruct (Hwp' u Hu) as [Hu' _].
  rewrite Hid, Ht in Hu'. injection Hu' as Hu'.
  rewrite Hu'. now apply in_map.
Qed.

(** X11.  Whatever the clock reads, even when it does not move at all, no
    two tasks of one returned list carry the same identifier: the
    identifiers of different kinds start with different prefixes. *)
Theorem extractTasks_ids_unique :
  forall (processedPrompt : Prompt.ProcessedPrompt) (s : Clock.State),
    NoDup (map Tasks.id (Clock.run (Tasks.extractTasks processedPrompt) s)).
Proof.
  intros processedPrompt s. apply wellPrefixed_ids_NoDup.
  - apply result_wellPrefixed.
  - rewrite result_kinds. apply emittedKinds_NoDup.
Qed.

(** ** The dependency pass on any task list *)

Section PassOnAnyList.
Import Tasks.

Variable tasks : list Task.

Lemma skeleton_established :
  skeleton (map (establishOne tasks) tasks) = skeleton tasks.
Proof.
  unfold skeleton. rewrite map_map. apply map_ext. intros t.
  now rewrite establishOne_type, establishOne_id.
Qed.

Lemma addDependency_settled (k : TaskType) (t : Task) :
  (forall d, dependencyId tasks k = Some d -> In d (dependencies t)) ->
  addDependency tasks k t = t.
Proof.
  intros H. unfold addDependency.
  destruct (dependencyId tasks k) as [d |]; [| reflexivity].
  assert (Hin : JS.arrIncludes (dependencies t) d = true)
    by (apply arrIncludes_In, H; reflexivity).
  now rewrite Hin.
Qed.

Lemma addDependencies_settled (ks : list TaskType) (t : Task) :
  (forall k d, In k ks -> dependencyId tasks k = Some d ->
               In d (dependencies t)) ->
  fold_left (fun t k => addDependency tasks k t) ks t = t.
Proof.
  induction ks as [| k ks IH]; intros H; simpl; [reflexivity |].
  rewrite addDependency_settled.
  - apply IH. intros k' d Hk'. apply H. now right.
  - intros d. apply H. now left.
Qed.

Lemma establishOne_settled (t : Task) :
  establishOne tasks (establishOne tasks t) = establishOne tasks t.
Proof.
  unfold establishOne at 1. rewrite establishOne_type.
  apply addDependencies_settled. intros k d Hk Hd.
  apply establishOne_deps. right. now exists k.
Qed.

Lemma addDependency_appends (k : TaskType) (t : Task) :
  exists added,
    dependencies (addDependency tasks k t) = dependencies t ++ added
    /\ Forall (fun d => ~ In d (dependencies t)
                        /\ exists f, In f tasks /\ type f = k /\ id f = d)
              added
    /\ List.length added <= 1.
Proof.
  unfold addDependency.
  destruct (dependencyId tasks k) as [d |] eqn:Hd.
  - destruct (JS.arrIncludes (dependencies t) d) eqn:Hinc; simpl.
    + exists []. rewrite app_nil_r.
      split; [reflexivity | split; [apply Forall_nil | simpl; lia]].
    + exists [d]. split; [reflexivity | split; [| simpl; lia]].
      constructor; [| constructor]. split.
      * intros Hin. apply arrIncludes_In in Hin. congruence.
      * now apply dependencyId_found.
  - exists []. rewrite app_nil_r.
    split; [reflexivity | split; [apply Forall_nil | simpl; lia]].
Qed.

Lemma addDependencies_append (ks : list TaskType) (t : Task) :
  exists added,
    dependencies (fold_left (fun t k => addDependency tasks k t) ks t)
    = dependencies t ++ added
    /\ Forall (fun d => exists f, In f tasks /\ In (type f) ks /\ id f = d) added
    /\ List.length added <= List.length ks.
Proof.
  revert t. induction ks as [| k ks IH]; intros t; simpl.
  - exists []. rewrite app_nil_r.
    split; [reflexivity | split; [apply Forall_nil | simpl; lia]].
  - destruct (IH (addDependency tasks k t)) as (more & Hmore & Hall & Hlen).
    destruct (addDependency_appends k t) as (one & Hone & Hall1 & Hlen1).
    exists (one ++ more). rewrite Hmore, Hone, app_assoc.
    split; [reflexivity | split].
    + apply Forall_app. split.
      * apply Forall_forall. intros d Hd. rewrite Forall_forall in Hall1.
        destruct (Hall1 d Hd) as [_ (f & Hf & Hk & Hid)].
        exists f. auto.
      * apply Forall_forall. intros d Hd. rewrite Forall_forall in Hall.
        destruct (Hall d Hd) as (f & Hf & Hk & Hid). exists f. auto.
    + rewrite length_app. simpl. lia.
Qed.

Lemma addDependency_NoDup (k : TaskType) (t : Task) :
  NoDup (dependencies t) -> NoDup (dependencies (addDependency tasks k t)).
Proof.
  intros Hnd. destruct (addDependency_appends k t) as (added & -> & Hall & Hlen).
  apply NoDup_app; [assumption | |].
  - destruct added as [| d [| e added]]; simpl in Hlen; try lia;
      repeat constructor. intros [].
  - intros a Ha Hadded. rewrite Forall_forall in Hall.
    destruct (Hall a Hadded) as [Hnot _]. contradiction.
Qed.

Lemma establishOne_NoDup (t : Task) :
  NoDup (dependencies t) -> NoDup (dependencies (establishOne tasks t)).
Proof.
  unfold establishOne. generalize (impliedKinds (type t)) as ks.
  intros ks. revert t.
  induction ks as [| k ks IH]; intros t Hnd; simpl; [assumption |].
  now apply IH, addDependency_NoDup.
Qed.

End PassOnAnyList.

(** X12.  Running the dependency pass a second time changes nothing: on
    every task list, [establishTaskDependencies] is idempotent. *)
Theorem establishTaskDependencies_idempotent :
  forall tasks : list Tasks.Task,
    Tasks.establishTaskDependencies (Tasks.establishTaskDependencies tasks)
    = Tasks.establishTaskDependencies tasks.
Proof.
  intros tasks. rewrite !establishTaskDependencies_map, map_map.
  apply map_ext. intros t.
  rewrite (establishOne_skeleton _ tasks _ (skeleton_established tasks)).
  apply establishOne_settled.
Qed.

Lemma Forall2_map_self {A B} (P : A -> B -> Prop) (f : A -> B) (l : list A) :
  (forall a, In a l -> P a (f a)) -> Forall2 P l (map f l).
Proof.
  induction l as [| a l IH]; intros H; simpl; constructor.
  - apply H. now left.
  - apply IH. intros b Hb. apply H. now right.
Qed.

(** X13.  On every task list the dependency pass keeps the tasks in place
    and only appends to their dependencies: identifier, kind, description,
    estimated complexity and context are untouched, the dependencies a task
    had stay at the front, and what is appended, at most one identifier per
    implied kind, is the identifier of a task of the list whose kind the
    task is made to depend on. *)
Theorem establishTaskDependencies_appends :
  forall tasks : list Tasks.Task,
    Forall2
      (fun before after =>
         Tasks.id after = Tasks.id before
         /\ payload after = payload before
         /\ exists added,
              Tasks.dependencies after = Tasks.dependencies before ++ added
              /\ List.length added
                 <= List.length (impliedKinds (Tasks.type before))
              /\ Forall (fun d =>
                           exists f,
                             In f tasks
                             /\ In (Tasks.type f)
                                   (impliedKinds (Tasks.type before))
                             /\ Tasks.id f = d)
                        added)
      tasks (Tasks.establishTaskDependencies tasks).
Proof.
  intros tasks. rewrite establishTaskDependencies_map.
  apply Forall2_map_self. intros t _.
  split; [apply establishOne_id |]. split; [apply establishOne_payload |].
  destruct (addDependencies_append tasks (impliedKinds (Tasks.type t)) t)
    as (added & Heq & Hall & Hlen).
  exists added. auto.
Qed.

(** ** Dependency lists of the returned tasks *)

Lemma NoDup_by_kind (l : list string) : NoDup (map idKind l) -> NoDup l.
Proof. apply NoDup_map_inv. Qed.

Lemma createTasks_deps_NoDup (processedPrompt : Prompt.ProcessedPrompt)
      (s : Clock.State) :
  Forall (fun t => NoDup (Tasks.dependencies t))
         (Clock.run (createTasks processedPrompt) s).
Proof.
  unfold createTasks, Clock.run.
  destruct (Tasks.requiresDocumentation (Prompt.tokenized processedPrompt));
  destruct (Tasks.requiresTesting (Prompt.tokenized processedPrompt));
  destruct (Tasks.requiresOptimization (Prompt.tokenized processedPrompt));
  destruct (Tasks.requiresSecurity (Prompt.tokenized processedPrompt));
  destruct (Tasks.requiresDeployment (Prompt.tokenized processedPrompt));
    cbn [fst Clock.bind Clock.ret Clock.Date_now Tasks.pushWhen
         Tasks.createCodeGenerationTask Tasks.createDocumentationTask
         Tasks.createTestingTask Tasks.createOptimizationTask
         Tasks.createSecurityTask Tasks.createDeploymentTask app
         Clock.readings Clock.reads];
    repeat first
      [ apply Forall_nil
      | apply Forall_cons;
        [ apply NoDup_by_kind; cbn [Tasks.dependencies map];
          repeat (constructor; [simpl; intuition discriminate |]);
          constructor
        | ] ].
Qed.

(** X14.  For every processed prompt and clock, no returned task lists the
    same dependency identifier twice. *)
Theorem extractTasks_dependencies_NoDup :
  forall (processedPrompt : Prompt.ProcessedPrompt) (s : Clock.State),
    Forall (fun t => NoDup (Tasks.dependencies t))
           (Clock.run (Tasks.extractTasks processedPrompt) s).
Proof.
  intros processedPrompt s. rewrite result_map.
  apply Forall_forall. intros t Ht. apply in_map_iff in Ht.
  destruct Ht as (t0 & <- & Ht0).
  apply establishOne_NoDup.
  pose proof (createTasks_deps_NoDup processedPrompt s) as H.
  rewrite Forall_forall in H. now apply H.
Qed.

(** ** Identifiers and the clock *)

Lemma to_int_not_nil (z : Z) :
  Z.to_int z <> Decimal.Pos Decimal.Nil /\ Z.to_int z <> Decimal.Neg Decimal.Nil.
Proof.
  pose proof (DecimalZ.to_of (Z.to_int z)) as H.
  rewrite DecimalZ.of_to in H.
  split; intros E; rewrite E in H; discriminate H.
Qed.

Lemma numberToString_inj (z z' : Z) :
  JS.numberToString z = JS.numberToString z' -> z = z'.
Proof.
  unfold JS.numberToString. intros H.
  apply DecimalZ.to_int_inj.
  destruct (to_int_not_nil z) as [Hp Hn].
  destruct (to_int_not_nil z') as [Hp' Hn'].
  pose proof (NilZero.isi _ Hp Hn) as E.
  pose proof (NilZero.isi _ Hp' Hn') as E'.
  rewrite H in E. rewrite E' in E. now injection E as ->.
Qed.

Lemma append_inj_l (p a b : string) : (p ++ a = p ++ b)%string -> a = b.
Proof.
  induction p as [| c p IH]; simpl; [auto |]. intros [= H]. now apply IH.
Qed.

(** The clock reading can be read back from an identifier. *)
Lemma stamp_inj (prefix : string) (z z' : Z) :
  Tasks.stamp prefix z = Tasks.stamp prefix z' -> z = z'.
Proof.
  unfold Tasks.stamp. intros H. now apply append_inj_l, numberToString_inj in H.
Qed.

Lemma idKind_idPrefix (k : Tasks.TaskType) (z : Z) :
  idKind (Tasks.stamp (idPrefix k) z) = Some k.
Proof. destruct k; reflexivity. Qed.

Section CreationAndClock.
Import Tasks.

Variable processedPrompt : Prompt.ProcessedPrompt.
Variable s : Clock.State.

Ltac by_triggers :=
  unfold createTasks, Clock.run;
  destruct (requiresDocumentation (Prompt.tokenized processedPrompt));
  destruct (requiresTesting (Prompt.tokenized processedPrompt));
  destruct (requiresOptimization (Prompt.tokenized processedPrompt));
  destruct (requiresSecurity (Prompt.tokenized processedPrompt));
  destruct (requiresDeployment (Prompt.tokenized processedPrompt));
  cbn [fst Clock.bind Clock.ret Clock.Date_now pushWhen
       createCodeGenerationTask createDocumentationTask createTestingTask
       createOptimizationTask createSecurityTask createDeploymentTask app
       Clock.readings Clock.reads].

(** Every task is created with the identifier and the dependency
    identifiers its kind prescribes, each stamped with a clock reading. *)
Lemma createTasks_stamped :
  Forall (fun t =>
            (exists n, id t = stamp (idPrefix (type t)) (Clock.readings s n))
            /\ Forall2 (fun k d =>
                          exists n, d = stamp (idPrefix k) (Clock.readings s n))
                       (impliedKinds (type t)) (dependencies t))
         (Clock.run (createTasks processedPrompt) s).
Proof.
  by_triggers;
    repeat first
      [ apply Forall_nil
      | apply Forall_cons;
        [ split;
          [ eexists; reflexivity
          | cbn [type dependencies impliedKinds];
            repeat first [ apply Forall2_nil
                         | apply Forall2_cons; [eexists; reflexivity |] ] ]
        | ] ].
Qed.

Lemma createTasks_frozen (z : Z) :
  frozenAt s z ->
  Forall (fun t =>
            id t = stamp (idPrefix (type t)) z
            /\ dependencies t
               = map (fun k => stamp (idPrefix k) z) (impliedKinds (type t)))
         (Clock.run (createTasks processedPrompt) s).
Proof.
  intros Hz. eapply Forall_impl; [| apply createTasks_stamped].
  intros t [[n Hid] Hdeps]. split; [now rewrite Hid, Hz |].
  induction Hdeps as [| k d ks ds [m ->] _ IH]; simpl; [reflexivity |].
  now rewrite Hz, IH.
Qed.

(** The root is stamped with the next reading, and every other task names
    a code_generation identifier stamped with a later reading. *)
Lemma createTasks_readings :
  Forall (fun t =>
            (type t = CODE_GENERATION
             /\ id t = stamp "code_gen_" (Clock.readings s (Clock.reads s)))
            \/ (type t <> CODE_GENERATION
                /\ exists n, Clock.reads s < n
                             /\ In (stamp "code_gen_" (Clock.readings s n))
                                   (dependencies t)))
         (Clock.run (createTasks processedPrompt) s).
Proof.
  by_triggers;
    repeat first
      [ apply Forall_nil
      | apply Forall_cons;
        [ first [ left; split; reflexivity
                | right; split;
                  [ discriminate
                  | eexists; split; [| left; reflexivity]; lia ] ]
        | ] ].
Qed.

Lemma createTasks_estimatedComplexity :
  Forall (fun t =>
            estimatedComplexity t
            = kindComplexity (Prompt.complexity processedPrompt) (type t))
         (Clock.run (createTasks processedPrompt) s).
Proof.
  by_triggers;
    repeat first [ apply Forall_nil | apply Forall_cons; [reflexivity |] ].
Qed.

End CreationAndClock.

(** X15.  When the clock does not move during the call, every returned
    task has exactly the identifier and the dependency identifiers its kind
    prescribes, all stamped with the one reading; the dependency pass adds
    nothing, and a dependency identifier is carried by a returned task
    exactly when a task of the kind it names was emitted. *)
Theorem frozen_clock_dependencies :
  forall (processedPrompt : Prompt.ProcessedPrompt) (s : Clock.State) (z : Z),
    frozenAt s z ->
    let tasks := Clock.run (Tasks.extractTasks processedPrompt) s in
    Forall (fun t =>
              Tasks.id t = Tasks.stamp (idPrefix (Tasks.type t)) z
              /\ Tasks.dependencies t
                 = map (fun k => Tasks.stamp (idPrefix k) z)
                       (impliedKinds (Tasks.type t))
              /\ forall d, In d (Tasks.dependencies t) ->
                   ((exists u, In u tasks /\ Tasks.id u = d)
                    <-> exists k, idKind d = Some k
                                  /\ In k (map Tasks.type tasks)))
           tasks.
Proof.
  intros processedPrompt s z Hz tasks.
  pose proof (createTasks_frozen processedPrompt s z Hz) as Hc.
  rewrite Forall_forall in Hc.
  assert (Hsame : tasks = Clock.run (createTasks processedPrompt) s).
  { subst tasks. rewrite result_map.
    rewrite <- (map_id (Clock.run (createTasks processedPrompt) s)) at 3.
    apply map_ext_in. intros t Ht. unfold establishOne.
    apply addDependencies_settled. intros k d Hk Hd.
    apply dependencyId_found in Hd. destruct Hd as (f & Hf & Hty & <-).
    destruct (Hc f Hf) as [-> _]. destruct (Hc t Ht) as [_ ->].
    rewrite Hty. now apply (in_map (fun k => Tasks.stamp (idPrefix k) z)). }
  apply Forall_forall. intros t Ht.
  assert (Ht0 : In t (Clock.run (createTasks processedPrompt) s))
    by (now rewrite <- Hsame).
  destruct (Hc t Ht0) as [Hid Hdeps].
  split; [exact Hid | split; [exact Hdeps |]].
  intros d Hd. split.
  - intros (u & Hu & <-). exists (Tasks.type u). split; [| now apply in_map].
    rewrite Hsame in Hu. destruct (Hc u Hu) as [-> _]. apply idKind_idPrefix.
  - intros (k & Hk & Hin).
    rewrite Hdeps in Hd. apply in_map_iff in Hd. destruct Hd as (k' & <- & _).
    rewrite idKind_idPrefix in Hk. injection Hk as ->.
    apply in_map_iff in Hin. destruct Hin as (u & Hty & Hu).
    exists u. split; [assumption |].
    rewrite Hsame in Hu. destruct (Hc u Hu) as [-> _]. now rewrite Hty.
Qed.

Lemma frozen_clock_dependencies_witness :
  frozenAt frozenClock 1700000000000
  /\ Forall (fun t =>
               Tasks.id t = Tasks.stamp (idPrefix (Tasks.type t)) 1700000000000)
            secureLoginTasks.
Proof.
  assert (H : frozenAt frozenClock 1700000000000) by (intros n; reflexivity).
  split; [exact H |].
  pose proof (frozen_clock_dependencies secureLogin frozenClock _ H) as Hall.
  cbv zeta in Hall. rewrite Forall_forall in Hall.
  apply Forall_forall. intros t Ht. exact (proj1 (Hall t Ht)).
Defined.

(** X16.  When the reading that stamps the code_generation task is never
    read again later in the call (as with any clock that moves on between
    two readings), every other returned task lists a code_generation
    identifier that no returned task carries. *)
Theorem moving_clock_dangling_root :
  forall (processedPrompt : Prompt.ProcessedPrompt) (s : Clock.State),
    movesOn s ->
    let tasks := Clock.run (Tasks.extractTasks processedPrompt) s in
    forall t,
      In t tasks ->
      Tasks.type t <> Tasks.CODE_GENERATION ->
      exists d,
        In d (Tasks.dependencies t)
        /\ idKind d = Some Tasks.CODE_GENERATION
        /\ dangling tasks d.
Proof.
  intros processedPrompt s Hmoves tasks t Ht Hty. subst tasks.
  pose proof (createTasks_readings processedPrompt s) as Hc.
  rewrite Forall_forall in Hc.
  rewrite result_map in Ht. apply in_map_iff in Ht.
  destruct Ht as (t0 & <- & Ht0). rewrite establishOne_type in Hty.
  destruct (Hc t0 Ht0) as [[Habs _] | [_ (n & Hn & Hin)]]; [contradiction |].
  exists (Tasks.stamp "code_gen_" (Clock.readings s n)).
  split; [apply establishOne_deps; now left |].
  split; [exact (idKind_idPrefix Tasks.CODE_GENERATION _) |].
  intros u Hu Hid.
  rewrite result_map in Hu. apply in_map_iff in Hu.
  destruct Hu as (u0 & <- & Hu0). rewrite establishOne_id in Hid.
  pose proof (createTasks_wellPrefixed processedPrompt s) as Hwp.
  rewrite Forall_forall in Hwp. destruct (Hwp u0 Hu0) as [Hkind _].
  rewrite Hid in Hkind.
  rewrite (idKind_idPrefix Tasks.CODE_GENERATION) in Hkind.
  injection Hkind as Hkind.
  destruct (Hc u0 Hu0) as [[_ Hroot] | [Hno _]]; [| now destruct Hno].
  rewrite Hroot in Hid. apply stamp_inj in Hid.
  exact (Hmoves n Hn (eq_sym Hid)).
Qed.

Lemma moving_clock_dangling_root_witness :
  movesOn tickingClock
  /\ forall t,
       In t (Clock.run (Tasks.extractTasks documentedParser) tickingClock) ->
       Tasks.type t <> Tasks.CODE_GENERATION ->
       exists d,
         In d (Tasks.dependencies t)
         /\ idKind d = Some Tasks.CODE_GENERATION
         /\ dangling
              (Clock.run (Tasks.extractTasks documentedParser) tickingClock) d.
Proof.
  assert (H : movesOn tickingClock).
  { intros n Hn. unfold tickingClock, Clock.start in *.
    cbn [Clock.readings Clock.reads] in *. lia. }
  split; [exact H |].
  exact (moving_clock_dangling_root documentedParser tickingClock H).
Defined.

(** ** Estimated complexity of the tasks *)

(** X17.  Every task returned for an interpreted prompt has the estimated
    complexity its kind prescribes from the complexity [c] of the request:
    [c] for code_generation and testing, [max (c - 2) 1] for documentation,
    [c + 1] for optimization, [c + 2] for security, [max (c - 1) 1] for
    deployment; it lies between 1 and 12. *)
Theorem extractTasks_estimatedComplexity :
  forall (nlp : NLP.NLPProcessor) (prompt : string) (s : Clock.State),
    let run := Clock.run (decompose nlp prompt) s in
    Forall (fun t =>
              Tasks.estimatedComplexity t
              = kindComplexity (Prompt.complexity (fst run)) (Tasks.type t)
              /\ (1 <= Tasks.estimatedComplexity t)%Q
              /\ (Tasks.estimatedComplexity t <= 12)%Q)
           (snd run).
Proof.
  intros nlp prompt s run. subst run. rewrite decompose_run. cbn [fst snd].
  set (pp := Prompt.processPrompt nlp prompt).
  assert (Hc : (1 <= Prompt.complexity pp /\ Prompt.complexity pp <= 10)%Q)
    by apply calculateComplexity_bounds.
  destruct Hc as [Hlo Hhi].
  pose proof (createTasks_estimatedComplexity pp s) as Hest.
  rewrite Forall_forall in Hest.
  apply Forall_forall. intros t Ht.
  rewrite result_map in Ht. apply in_map_iff in Ht.
  destruct Ht as (t0 & <- & Ht0).
  pose proof (establishOne_payload (Clock.run (createTasks pp) s) t0) as Hp.
  unfold payload in Hp. injection Hp as _ _ Hp _.
  rewrite Hp, establishOne_type, (Hest t0 Ht0).
  split; [reflexivity |].
  generalize dependent (Prompt.complexity pp). intros c Hlo Hhi.
  destruct (Tasks.type t0); unfold kindComplexity.
  - split; [assumption | lra].
  - split; [apply Q.le_max_r | apply Q.max_lub; lra].
  - split; [assumption | lra].
  - split; lra.
  - split; lra.
  - split; [apply Q.le_max_r | apply Q.max_lub; lra].
Qed.

(** ** The retry loop of the client *)

Section Retry.
Import AI.

Context {Request Data : Type}.
Variable client : BaseAIClient Request Data.
Variable post : nat -> Request -> AxiosError + Data.
Variable prompt : string.

Lemma shouldRetry_spec (e : AxiosError) (retryCount : nat) :
  shouldRetry e retryCount = (retryCount <? MAX_RETRIES) && retryable e.
Proof.
  unfold shouldRetry, retryable.
  destruct (MAX_RETRIES <=? retryCount) eqn:H.
  - apply Nat.leb_le in H. apply Nat.ltb_ge in H. now rewrite H.
  - apply Nat.leb_gt in H. apply Nat.ltb_lt in H. now rewrite H.
Qed.

(** What the loop does from a state with [posts] POSTs made and
    [retryCount] retries used, given fuel for every retry left. *)
Lemma generateCodeFrom_spec (fuel posts retryCount : nat) :
  MAX_RETRIES - retryCount < fuel ->
  exists response n,
    generateCodeFrom fuel client post posts prompt retryCount
    = Some (response, n)
    /\ posts < n
    /\ n - posts <= S (MAX_RETRIES - retryCount)
    /\ (forall i, posts <= i -> S i < n ->
          exists e, post i (formatPrompt client prompt) = inl e
                    /\ retryable e = true)
    /\ match post (n - 1) (formatPrompt client prompt) with
       | inr data => response = parseResponse client data
       | inl e =>
           response = errorResponse e
           /\ (retryable e = false
               \/ n - posts = S (MAX_RETRIES - retryCount))
       end.
Proof.
  revert posts retryCount. induction fuel as [| fuel IH]; intros posts rc Hf.
  - lia.
  - cbn [generateCodeFrom].
    destruct (post posts (formatPrompt client prompt)) as [e | data] eqn:Hp.
    + rewrite shouldRetry_spec.
      destruct (rc <? MAX_RETRIES) eqn:Hrc; cbn [andb].
      * apply Nat.ltb_lt in Hrc.
        destruct (retryable e) eqn:He.
        -- destruct (IH (S posts) (rc + 1)) as (r & n & Heq & Hn & Hb & Hpre & Hlast);
             [lia |].
           exists r, n. split; [exact Heq |]. split; [lia |]. split; [lia |].
           split.
           ++ intros i Hi Hin.
              destruct (Nat.eq_dec i posts) as [-> | Hne]; [now exists e |].
              apply Hpre; lia.
           ++ destruct (post (n - 1) (formatPrompt client prompt));
                [| exact Hlast].
              destruct Hlast as [Hr Hor]. split; [exact Hr |].
              destruct Hor; [now left | right; lia].
        -- exists (errorResponse e), (S posts).
           split; [reflexivity |]. split; [lia |]. split; [lia |].
           split; [intros i Hi Hin; lia |].
           replace (S posts - 1) with posts by lia. rewrite Hp. auto.
      * apply Nat.ltb_ge in Hrc.
        exists (errorResponse e), (S posts).
        split; [reflexivity |]. split; [lia |]. split; [lia |].
        split; [intros i Hi Hin; lia |].
        replace (S posts - 1) with posts by lia. rewrite Hp.
        split; [reflexivity |]. right. lia.
    + exists (parseResponse client data), (S posts).
      split; [reflexivity |]. split; [lia |]. split; [lia |].
      split; [intros i Hi Hin; lia |].
      replace (S posts - 1) with posts by lia. now rewrite Hp.
Qed.

Lemma generateCodeFrom_more_fuel (fuel fuel' posts retryCount : nat) :
  MAX_RETRIES - retryCount < fuel -> fuel <= fuel' ->
  generateCodeFrom fuel' client post posts prompt retryCount
  = generateCodeFrom fuel client post posts prompt retryCount.
Proof.
  revert fuel' posts retryCount.
  induction fuel as [| fuel IH]; intros fuel' posts rc Hf Hle; [lia |].
  destruct fuel' as [| fuel']; [lia |]. cbn [generateCodeFrom].
  destruct (post posts (formatPrompt client prompt)) as [e | data];
    [| reflexivity].
  rewrite shouldRetry_spec.
  destruct (rc <? MAX_RETRIES) eqn:Hrc; cbn [andb]; [| reflexivity].
  apply Nat.ltb_lt in Hrc.
  destruct (retryable e); [| reflexivity].
  apply IH; lia.
Qed.

End Retry.

(** X18.  [generateCode] of the client always returns a response, after at
    least one and at most four POSTs (more fuel changes nothing).  Every
    POST before the last was rejected with status 429, 502, 503 or 504.
    When the last POST is answered, the response is the parsed answer; when
    it is rejected, the response has empty code and the message of
    [handleError], and either the status is not one of these four or it
    was the fourth POST. *)
Theorem generateCode_retries :
  forall (Request Data : Type) (client : AI.BaseAIClient Request Data)
         (post : nat -> Request -> AI.AxiosError + Data) (prompt : string),
    exists response posts,
      AI.generateCode client post prompt = Some (response, posts)
      /\ (forall fuel, 4 <= fuel ->
            AI.generateCodeFrom fuel client post 0 prompt 0
            = Some (response, posts))
      /\ 1 <= posts <= 4
      /\ (forall i, S i < posts ->
            exists e, post i (AI.formatPrompt client prompt) = inl e
                      /\ retryable e = true)
      /\ match post (posts - 1) (AI.formatPrompt client prompt) with
         | inr data => response = AI.parseResponse client data
         | inl e =>
             response = errorResponse e
             /\ (retryable e = false \/ posts = 4)
         end.
Proof.
  intros Request Data client post prompt. unfold AI.generateCode.
  destruct (generateCodeFrom_spec client post prompt (S AI.MAX_RETRIES) 0 0)
    as (r & n & Heq & Hn & Hb & Hpre & Hlast); [unfold AI.MAX_RETRIES; lia |].
  exists r, n. split; [exact Heq |]. unfold AI.MAX_RETRIES in *.
  split.
  - intros fuel Hfuel. rewrite <- Heq.
    apply generateCodeFrom_more_fuel; unfold AI.MAX_RETRIES; lia.
  - split; [lia |]. split.
    + intros i Hi. apply Hpre; lia.
    + destruct (post (n - 1) (AI.formatPrompt client prompt)); [| exact Hlast].
      destruct Hlast as [Hr Hor]. split; [exact Hr |].
      destruct Hor; [now left | right; lia].
Qed.

Lemma generateCode_retries_witness :
  4 <= 7
  /\ AI.generateCodeFrom 7 sampleClient unavailable 0 "sort a list" 0
     = AI.generateCode sampleClient unavailable "sort a list".
Proof.
  assert (H : 4 <= 7) by lia.
  split; [exact H |].
  destruct (generateCode_retries _ _ sampleClient unavailable "sort a list")
    as (r & n & Heq & Hfuel & _).
  rewrite Heq. exact (Hfuel 7 H).
Defined.

(** ** Splitting on a separator *)

Lemma string_length_append (a b : string) :
  String.length (a ++ b) = String.length a + String.length b.
Proof. induction a as [| c a IH]; simpl; [reflexivity | now rewrite IH]. Qed.

Lemma splitFrom_skip (sep t rest cur : string) :
  AI.splitFrom sep (String.length t) cur (t ++ rest)
  = AI.splitFrom sep 0 cur rest.
Proof. induction t as [| c t IH]; simpl; [reflexivity | exact IH]. Qed.

Lemma splitFrom_not_nil (sep : string) (skip : nat) (cur s : string) :
  AI.splitFrom sep skip cur s <> [].
Proof.
  revert skip cur.
  induction s as [| c s IH]; intros skip cur; cbn [AI.splitFrom];
    [discriminate |].
  destruct skip; [| apply IH].
  destruct (String.prefix sep (String c s)); [discriminate | apply IH].
Qed.

Lemma concat_cons (sep x : string) (l : list string) :
  l <> [] ->
  String.concat sep (x :: l) = (x ++ sep ++ String.concat sep l)%string.
Proof. destruct l; [now intros H | reflexivity]. Qed.

Lemma splitFrom_concat (sep : string) (n : nat) :
  sep <> EmptyString ->
  forall s cur,
    String.length s <= n ->
    String.concat sep (AI.splitFrom sep 0 cur s) = (cur ++ s)%string.
Proof.
  intros Hsep. induction n as [| n IH]; intros s cur Hlen.
  - destruct s; simpl in *; [now rewrite append_nil_r | lia].
  - destruct s as [| c s]; [simpl; now rewrite append_nil_r |].
    cbn [AI.splitFrom].
    destruct (String.prefix sep (String c s)) eqn:Hpre.
    + apply prefix_correct in Hpre. apply substring_at_start in Hpre.
      destruct Hpre as [rest Hrest].
      destruct sep as [| a sep']; [now destruct Hsep |].
      cbn [append] in Hrest. injection Hrest as Hc Hs. subst c s.
      replace (String.length (String a sep') - 1) with (String.length sep')
        by (simpl; lia).
      rewrite splitFrom_skip, concat_cons by apply splitFrom_not_nil.
      rewrite IH.
      * reflexivity.
      * simpl in Hlen. rewrite string_length_append in Hlen. lia.
    + rewrite IH by (simpl in Hlen; lia).
      now rewrite append_assoc.
Qed.

(** Joining the segments of [s.split(sep)] with [sep] gives [s] back, for
    every non-empty separator; the split always yields at least one
    segment. *)
Theorem split_join :
  forall sep s : string,
    sep <> EmptyString ->
    JS.join sep (AI.split sep s) = s /\ AI.split sep s <> [].
Proof.
  intros sep s Hsep. unfold JS.join, AI.split. split.
  - now rewrite (splitFrom_concat sep (String.length s) Hsep s EmptyString).
  - apply splitFrom_not_nil.
Qed.

Lemma split_join_witness :
  AI.fence <> EmptyString
  /\ JS.join AI.fence (AI.split AI.fence "see: ```x = 1``` done") 
     = "see: ```x = 1``` done".
Proof.
  assert (H : AI.fence <> EmptyString) by discriminate.
  split; [exact H |].
  exact (proj1 (split_join AI.fence "see: ```x = 1``` done" H)).
Defined.

(** ** Parsing the completion *)

Lemma trim_occursIn (s : string) : occursIn (JS.trim s) s.
Proof.
  unfold JS.trim.
  destruct (trimStart_suffix s) as [pre Hpre].
  destruct (trimEnd_prefix (JS.trimStart s)) as [post Hpost].
  exists pre, post. now rewrite <- Hpost.
Qed.

Lemma segment_occursIn (sep s : string) (i : nat) :
  sep <> EmptyString ->
  i < List.length (AI.split sep s) ->
  occursIn (nth i (AI.split sep s) EmptyString) s.
Proof.
  intros Hsep Hi.
  assert (Hjoin : JS.join sep (AI.split sep s) = s).
  { unfold JS.join, AI.split.
    now rewrite (splitFrom_concat sep (String.length s) Hsep s EmptyString). }
  rewrite <- Hjoin at 2. apply occursIn_join, nth_In, Hi.
Qed.

Lemma generateSuggestions_length (code : string) :
  List.length (AI.generateSuggestions code) <= 3.
Proof.
  unfold AI.generateSuggestions.
  destruct (JS.includes code "TODO"), (1000 <? String.length code),
    (JS.includes code "console.log"); simpl; lia.
Qed.

(** X19.  [parseResponse] of the OpenAI client reports 'No completion was
    generated', with empty code, exactly when there is no choice.
    Otherwise there is no error, the code is a substring of the text of the
    first choice and has no white space at either end, the explanation is
    trimmed as well, and at most three suggestions come with it. *)
Theorem openAIParseResponse_shape :
  forall response : AI.OpenAIResponse,
    let parsed := AI.openAIParseResponse response in
    match AI.choices response with
    | None | Some [] =>
        parsed = {| AI.code := EmptyString;
                    AI.explanation := None;
                    AI.error := Some "No completion was generated";
                    AI.suggestions := None |}
    | Some (choice :: _) =>
        AI.error parsed = None
        /\ occursIn (AI.code parsed) (AI.text choice)
        /\ JS.trim (AI.code parsed) = AI.code parsed
        /\ (exists e, AI.explanation parsed = Some e /\ JS.trim e = e)
        /\ (exists l, AI.suggestions parsed = Some l /\ List.length l <= 3)
    end.
Proof.
  intros response parsed. subst parsed. unfold AI.openAIParseResponse.
  destruct (AI.choices response) as [[| choice rest] |];
    [reflexivity | | reflexivity].
  set (completion := JS.trim (AI.text choice)).
  destruct (3 <=? List.length (AI.split AI.fence completion)) eqn:Hlen;
    cbn [AI.error AI.code AI.explanation AI.suggestions].
  - apply Nat.leb_le in Hlen.
    split; [reflexivity |]. split; [| split; [apply trim_idempotent |]].
    + apply occursIn_trans with (b := nth 1 (AI.split AI.fence completion)
                                           EmptyString);
        [apply trim_occursIn |].
      apply occursIn_trans with (b := completion); [| apply trim_occursIn].
      apply segment_occursIn; [discriminate | lia].
    + split.
      * eexists. split; [reflexivity | apply trim_idempotent].
      * eexists. split; [reflexivity | apply generateSuggestions_length].
  - split; [reflexivity |]. split; [apply trim_occursIn |].
    split; [apply trim_idempotent |]. split.
    + exists EmptyString. split; reflexivity.
    + eexists. split; [reflexivity | apply generateSuggestions_length].
Qed.

(** ** The code generator *)

Lemma handleError_message (e : AI.AxiosError) :
  exists rest,
    AI.handleError e
    = ("An error occurred while generating code. " ++ rest)%string.
Proof.
  unfold AI.handleError.
  repeat match goal with
         | |- context [if ?c then _ else _] => destruct c
         end; eexists; reflexivity.
Qed.

Lemma handleError_truthy (e : AI.AxiosError) :
  AI.truthy (AI.handleError e) = true.
Proof. destruct (handleError_message e) as [rest ->]. reflexivity. Qed.

(** X20.  [generateCode] of the generator never throws: it fails with
    'Invalid task type for code generation' for every task that is not of
    kind code_generation, whatever the service would answer; it succeeds
    exactly when the task is of that kind, the response carries no error
    message, its code is not blank and the rest of the processing returns a
    result; and every failure carries a message and no result. *)
Theorem generateCode_outcomes :
  forall (GeneratedCode : Type)
         (aiGenerateCode : string -> AI.AIResponse)
         (build : AI.AIResponse -> Tasks.Task -> string + GeneratedCode)
         (task : Tasks.Task),
    let outcome := CodeGen.generateCode aiGenerateCode build task in
    let response := aiGenerateCode (CodeGen.createPrompt task) in
    (Tasks.type task <> Tasks.CODE_GENERATION ->
     outcome = failure "Invalid task type for code generation")
    /\ (CodeGen.success outcome = true
        <-> Tasks.type task = Tasks.CODE_GENERATION
            /\ AI.orDefault (AI.error response) EmptyString = EmptyString
            /\ JS.trim (AI.code response) <> EmptyString
            /\ exists g, build response task = inr g
                         /\ CodeGen.result outcome = Some g)
    /\ (CodeGen.success outcome = false ->
        CodeGen.result outcome = None
        /\ exists m, CodeGen.error outcome = Some m).
Proof.
  intros G ai build task outcome response. subst outcome response.
  unfold CodeGen.generateCode, CodeGen.processAIResponse, failure.
  destruct (Tasks.TaskType_eqb (Tasks.type task) Tasks.CODE_GENERATION) eqn:Hty.
  - apply TaskType_eqb_eq in Hty. cbn [negb].
    set (response := ai (CodeGen.createPrompt task)).
    assert (Hblank :
              negb (AI.truthy (AI.code response))
              || (String.length (JS.trim (AI.code response)) =? 0) = true
              <-> JS.trim (AI.code response) = EmptyString).
    { split.
      - intros H. apply orb_true_iff in H. destruct H as [H | H].
        + unfold AI.truthy in H. rewrite negb_involutive in H.
          apply String.eqb_eq in H. now rewrite H.
        + apply Nat.eqb_eq in H.
          now destruct (JS.trim (AI.code response)).
      - intros H. rewrite H. apply orb_true_r. }
    split; [intros H; contradiction |].
    destruct (AI.error response) as [e |] eqn:He; cbn [AI.orDefault].
    + destruct (AI.truthy e) eqn:Hte.
      * split; [| intros _; split; [reflexivity | eexists; reflexivity]].
        split; [discriminate |]. intros (_ & Hno & _).
        subst e. discriminate Hte.
      * unfold AI.truthy in Hte. apply negb_false_iff, String.eqb_eq in Hte.
        destruct (negb (AI.truthy (AI.code response)) || _) eqn:Hb.
        -- split; [| intros _; split; [reflexivity | eexists; reflexivity]].
           split; [discriminate |]. intros (_ & _ & Hcode & _).
           exfalso. apply Hcode, Hblank. reflexivity.
        -- assert (Hcode : JS.trim (AI.code response) <> EmptyString).
           { intros H. apply Hblank in H. discriminate H. }
           destruct (build response task) as [m | g]; cbn.
           ++ split; [| intros _; split; [reflexivity | eexists; reflexivity]].
              split; [discriminate |]. intros (_ & _ & _ & g & Hg & _).
              discriminate Hg.
           ++ split; [| discriminate].
              split; [| reflexivity]. intros _.
              repeat split; try assumption. exists g. split; reflexivity.
    + destruct (negb (AI.truthy (AI.code response)) || _) eqn:Hb.
      * split; [| intros _; split; [reflexivity | eexists; reflexivity]].
        split; [discriminate |]. intros (_ & _ & Hcode & _).
        exfalso. apply Hcode, Hblank. reflexivity.
      * assert (Hcode : JS.trim (AI.code response) <> EmptyString).
        { intros H. apply Hblank in H. discriminate H. }
        destruct (build response task) as [m | g]; cbn.
        -- split; [| intros _; split; [reflexivity | eexists; reflexivity]].
           split; [discriminate |]. intros (_ & _ & _ & g & Hg & _).
           discriminate Hg.
        -- split; [| discriminate].
           split; [| reflexivity]. intros _.
           repeat split; try assumption. exists g. split; reflexivity.
  - cbn [negb]. split; [reflexivity |]. split.
    + split; [discriminate |]. intros (H & _).
      apply TaskType_eqb_eq in H. congruence.
    + intros _. split; [reflexivity | eexists; reflexivity].
Qed.

Lemma generateCode_outcomes_witness :
  Tasks.type secureLoginSecurity <> Tasks.CODE_GENERATION
  /\ CodeGen.generateCode (GeneratedCode := string)
       (askService sampleClient unavailable)
       (fun response _ => inr (AI.code response)) secureLoginSecurity
     = failure "Invalid task type for code generation".
Proof.
  assert (H : Tasks.type secureLoginSecurity <> Tasks.CODE_GENERATION)
    by discriminate.
  split; [exact H |].
  exact (proj1 (generateCode_outcomes string
                  (askService sampleClient unavailable)
                  (fun response _ => inr (AI.code response))
                  secureLoginSecurity) H).
Defined.

(** X21.  When every POST is rejected, generating code for a
    code_generation task fails with the message [handleError] builds for
    one of the first four rejections, and that message starts with 'An
    error occurred while generating code. '. *)
Theorem generateCode_service_down :
  forall (GeneratedCode Request Data : Type)
         (client : AI.BaseAIClient Request Data)
         (post : nat -> Request -> AI.AxiosError + Data)
         (build : AI.AIResponse -> Tasks.Task -> string + GeneratedCode)
         (task : Tasks.Task),
    Tasks.type task = Tasks.CODE_GENERATION ->
    (forall i body, exists e, post i body = inl e) ->
    exists i e rest,
      i < 4
      /\ post i (AI.formatPrompt client (CodeGen.createPrompt task)) = inl e
      /\ AI.handleError e
         = ("An error occurred while generating code. " ++ rest)%string
      /\ CodeGen.generateCode (askService client post) build task
         = failure (AI.handleError e).
Proof.
  intros G Request Data client post build task Hty Hdown.
  set (prompt := CodeGen.createPrompt task).
  destruct (generateCodeFrom_spec client post prompt (S AI.MAX_RETRIES) 0 0)
    as (r & n & Heq & Hn & Hb & _ & Hlast); [unfold AI.MAX_RETRIES; lia |].
  unfold AI.MAX_RETRIES in Hb.
  destruct (Hdown (n - 1) (AI.formatPrompt client prompt)) as [e He].
  rewrite He in Hlast. destruct Hlast as [-> _].
  destruct (handleError_message e) as [rest Hrest].
  exists (n - 1), e, rest.
  split; [lia |]. split; [exact He |]. split; [exact Hrest |].
  unfold CodeGen.generateCode. rewrite Hty. cbn [Tasks.TaskType_eqb negb].
  fold prompt. unfold askService, AI.generateCode. rewrite Heq.
  cbn [errorResponse AI.error]. now rewrite handleError_truthy.
Qed.

Lemma generateCode_service_down_witness :
  Tasks.type (hd secureLoginSecurity secureLoginTasks) = Tasks.CODE_GENERATION
  /\ (forall (i : nat) (body : AI.OpenAIRequest),
        exists e, unavailable (Data := AI.OpenAIResponse) i body = inl e)
  /\ exists i e rest,
       i < 4
       /\ unavailable (Data := AI.OpenAIResponse) i
            (AI.formatPrompt sampleClient
               (CodeGen.createPrompt (hd secureLoginSecurity secureLoginTasks)))
          = inl e
       /\ AI.handleError e
          = ("An error occurred while generating code. " ++ rest)%string
       /\ CodeGen.generateCode (GeneratedCode := string)
            (askService sampleClient unavailable)
            (fun response _ => inr (AI.code response))
            (hd secureLoginSecurity secureLoginTasks)
          = failure (AI.handleError e).
Proof.
  assert (H1 : Tasks.type (hd secureLoginSecurity secureLoginTasks)
               = Tasks.CODE_GENERATION) by (vm_compute; reflexivity).
  assert (H2 : forall (i : nat) (body : AI.OpenAIRequest),
             exists e, unavailable (Data := AI.OpenAIResponse) i body = inl e)
    by (intros i body; eexists; reflexivity).
  split; [exact H1 | split; [exact H2 |]].
  exact (generateCode_service_down string _ _ sampleClient unavailable
           (fun response _ => inr (AI.code response)) _ H1 H2).
Defined.

(** ** From the user's prompt to the prompt for the service *)

Lemma occursIn_app_l (p a b : string) : occursIn p a -> occursIn p (a ++ b).
Proof.
  intros (pre & post & ->). exists pre, (post ++ b)%string.
  now rewrite !append_assoc.
Qed.

Lemma occursIn_app_r (p a b : string) : occursIn p b -> occursIn p (a ++ b).
Proof.
  intros (pre & post & ->). exists (a ++ pre)%string, post.
  now rewrite !append_assoc.
Qed.

Lemma createPrompt_description (task : Tasks.Task) :
  occursIn (Tasks.description task) (CodeGen.createPrompt task).
Proof.
  cbv beta iota zeta delta [CodeGen.createPrompt CodeGen.contextSecurityRequired
                            CodeGen.contextPerformance].
  do 4 apply occursIn_app_l.
  assert (H : forall p : string,
             occursIn (Tasks.description task)
               (((((p ++ (" for the following requirement:" ++ AI.nl
                          ++ Tasks.description task ++ AI.nl ++ AI.nl))
                   ++ ("Requirements:" ++ AI.nl))
                  ++ ("- Code should be well-documented and follow best practices"
                      ++ AI.nl))
                 ++ ("- Include error handling and input validation" ++ AI.nl))
                ++ ("- Use modern language features and idioms" ++ AI.nl))%string).
  { intros p. do 4 apply occursIn_app_l.
    do 3 apply occursIn_app_r. apply occursIn_app_l, occursIn_refl. }
  destruct (CodeGen.contextDependencies (Tasks.context task)) as [deps |];
    [destruct (0 <? List.length deps); [apply occursIn_app_l |] |]; apply H.
Qed.

Lemma createPrompt_dependencies (task : Tasks.Task) (deps : list string) :
  CodeGen.contextDependencies (Tasks.context task) = Some deps ->
  deps <> [] ->
  occursIn (JS.join ", " deps) (CodeGen.createPrompt task).
Proof.
  intros Hdeps Hne.
  cbv beta iota zeta delta [CodeGen.createPrompt CodeGen.contextSecurityRequired
                            CodeGen.contextPerformance].
  rewrite Hdeps.
  destruct deps as [| d deps]; [now destruct Hne |].
  cbn [List.length Nat.ltb Nat.leb].
  do 4 apply occursIn_app_l.
  do 2 apply occursIn_app_r. apply occursIn_app_l, occursIn_refl.
Qed.

Lemma createTasks_head (processedPrompt : Prompt.ProcessedPrompt)
      (s : Clock.State) :
  exists rest,
    Clock.run (createTasks processedPrompt) s
    = fst (Tasks.createCodeGenerationTask processedPrompt s) :: rest.
Proof.
  unfold createTasks, Clock.run.
  destruct (Tasks.requiresDocumentation (Prompt.tokenized processedPrompt));
  destruct (Tasks.requiresTesting (Prompt.tokenized processedPrompt));
  destruct (Tasks.requiresOptimization (Prompt.tokenized processedPrompt));
  destruct (Tasks.requiresSecurity (Prompt.tokenized processedPrompt));
  destruct (Tasks.requiresDeployment (Prompt.tokenized processedPrompt));
  eexists; reflexivity.
Qed.

(** X22.  The first task [extractTasks] returns is the code_generation
    task, and the prompt [createPrompt] builds from it for the service
    holds the user's original prompt verbatim and every dependency that was
    detected. *)
Theorem createPrompt_carries_request :
  forall (processedPrompt : Prompt.ProcessedPrompt) (s : Clock.State),
    exists root rest,
      Clock.run (Tasks.extractTasks processedPrompt) s = root :: rest
      /\ Tasks.type root = Tasks.CODE_GENERATION
      /\ occursIn (Prompt.originalPrompt processedPrompt)
                  (CodeGen.createPrompt root)
      /\ forall deps d,
           NLP.dependencies (Prompt.context processedPrompt) = Some deps ->
           In d deps ->
           occursIn d (CodeGen.createPrompt root).
Proof.
  intros processedPrompt s.
  destruct (createTasks_head processedPrompt s) as [rest Hhead].
  set (root := fst (Tasks.createCodeGenerationTask processedPrompt s)) in *.
  exists root, (map (establishOne (Clock.run (createTasks processedPrompt) s)) rest).
  split.
  { rewrite result_map. rewrite Hhead at 2. cbn [map].
    now rewrite establishOne_root. }
  split; [reflexivity |]. split.
  - apply occursIn_trans with (b := Tasks.description root);
      [| apply createPrompt_description].
    assert (Hdesc : Tasks.description root
                    = ("Generate "
                       ++ JS.optionalToString
                            (NLP.language (Prompt.context processedPrompt))
                       ++ " code based on the prompt: "
                       ++ Prompt.originalPrompt processedPrompt)%string)
      by reflexivity.
    rewrite Hdesc. do 3 apply occursIn_app_r. apply occursIn_refl.
  - intros deps d Hdeps Hd.
    apply occursIn_trans with (b := JS.join ", " deps);
      [now apply occursIn_join |].
    apply createPrompt_dependencies; [| intros ->; destruct Hd].
    exact Hdeps.
Qed.

Lemma createPrompt_carries_request_witness :
  exists root rest,
    Clock.run (Tasks.extractTasks djangoOnRedisRequest) frozenClock = root :: rest
    /\ In "Redis" ["Redis"]
    /\ occursIn "Redis" (CodeGen.createPrompt root).
Proof.
  destruct (createPrompt_carries_request djangoOnRedisRequest frozenClock)
    as (root & rest & Heq & _ & _ & Hdeps).
  exists root, rest. split; [exact Heq |].
  assert (Hin : In "Redis" ["Redis"]) by (left; reflexivity).
  split; [exact Hin |].
  exact (Hdeps ["Redis"] "Redis" eq_refl Hin).
Defined.

(** ** Edges and order of the returned list *)

Lemma NoDup_map_same {A B} (f : A -> B) (l : list A) (x y : A) :
  NoDup (map f l) -> In x l -> In y l -> f x = f y -> x = y.
Proof.
  induction l as [| a l IH]; intros Hnd Hx Hy Hf; [destruct Hx |].
  simpl in Hnd. inversion Hnd as [| ? ? Hnot Hnd']; subst.
  destruct Hx as [-> | Hx], Hy as [-> | Hy].
  - reflexivity.
  - exfalso. apply Hnot. rewrite Hf. now apply in_map.
  - exfalso. apply Hnot. rewrite <- Hf. now apply in_map.
  - now apply IH.
Qed.

(** X23.  Between two returned tasks the dependency edges are exactly those
    of the table of the dependency pass: [a] lists the identifier of [b]
    if, and only if, the kind of [a] is made to depend on the kind of
    [b]. *)
Theorem extractTasks_edges :
  forall (processedPrompt : Prompt.ProcessedPrompt) (s : Clock.State)
         (a b : Tasks.Task),
    let tasks := Clock.run (Tasks.extractTasks processedPrompt) s in
    In a tasks ->
    In b tasks ->
    (In (Tasks.id b) (Tasks.dependencies a)
     <-> In (Tasks.type b) (impliedKinds (Tasks.type a))).
Proof.
  intros processedPrompt s a b tasks Ha Hb. subst tasks. split.
  - intros Hdep. apply (dependsOn_implied processedPrompt s).
    repeat split; assumption.
  - intros Himp.
    destruct (implied_dependsOn processedPrompt s a (Tasks.type b) Ha Himp)
      as (b' & (_ & Hb' & Hdep) & Hty); [now apply in_map |].
    assert (Heq : b' = b).
    { apply (NoDup_map_same Tasks.type
               (Clock.run (Tasks.extractTasks processedPrompt) s));
        try assumption.
      rewrite result_kinds. apply emittedKinds_NoDup. }
    now rewrite <- Heq.
Qed.

Lemma extractTasks_edges_witness :
  In secureLoginSecurity secureLoginTasks
  /\ In (hd secureLoginSecurity secureLoginTasks) secureLoginTasks
  /\ In (Tasks.id (hd secureLoginSecurity secureLoginTasks))
        (Tasks.dependencies secureLoginSecurity).
Proof.
  assert (Ha : In secureLoginSecurity secureLoginTasks) by (vm_compute; auto).
  assert (Hb : In (hd secureLoginSecurity secureLoginTasks) secureLoginTasks)
    by (vm_compute; auto).
  split; [exact Ha | split; [exact Hb |]].
  apply (extractTasks_edges secureLogin frozenClock _ _ Ha Hb).
  vm_compute. auto.
Defined.

Lemma increasing_nth (l : list nat) :
  increasing l = true ->
  forall i j x y,
    nth_error l i = Some x -> nth_error l j = Some y -> x < y -> i < j.
Proof.
  induction l as [| a l IH]; intros Hinc i j x y Hi Hj Hxy.
  - destruct i; discriminate Hi.
  - assert (Htail : increasing l = true).
    { destruct l as [| b l]; [reflexivity |].
      cbn [increasing] in Hinc. now apply andb_true_iff in Hinc. }
    assert (Hfirst : forall k z, nth_error l k = Some z -> a < z).
    { clear - Hinc. revert a Hinc.
      induction l as [| b l IHl]; intros a Hinc k z Hk;
        [destruct k; discriminate Hk |].
      cbn [increasing] in Hinc. apply andb_true_iff in Hinc.
      destruct Hinc as [Hab Hrest]. apply Nat.ltb_lt in Hab.
      destruct k as [| k]; simpl in Hk.
      - injection Hk as <-. exact Hab.
      - specialize (IHl b Hrest k z Hk). lia. }
    destruct i as [| i], j as [| j]; simpl in Hi, Hj.
    + injection Hi as <-. injection Hj as <-. lia.
    + lia.
    + injection Hj as <-. specialize (Hfirst i x Hi). lia.
    + specialize (IH Htail i j x y Hi Hj Hxy). lia.
Qed.

Lemma emittedKinds_increasing (tokenized : NLP.TokenizedPrompt) :
  increasing (map rank (emittedKinds tokenized)) = true.
Proof.
  unfold emittedKinds.
  destruct (Tasks.requiresDocumentation tokenized),
    (Tasks.requiresTesting tokenized),
    (Tasks.requiresOptimization tokenized),
    (Tasks.requiresSecurity tokenized),
    (Tasks.requiresDeployment tokenized); reflexivity.
Qed.

(** X24.  The returned list is in an order in which the tasks can be
    carried out: a task that another returned task depends on stands
    earlier in the list. *)
Theorem extractTasks_order_topological :
  forall (processedPrompt : Prompt.ProcessedPrompt) (s : Clock.State)
         (i j : nat) (a b : Tasks.Task),
    let tasks := Clock.run (Tasks.extractTasks processedPrompt) s in
    nth_error tasks i = Some a ->
    nth_error tasks j = Some b ->
    In (Tasks.id b) (Tasks.dependencies a) ->
    j < i.
Proof.
  intros processedPrompt s i j a b tasks Hi Hj Hdep. subst tasks.
  assert (Hrank : rank (Tasks.type b) < rank (Tasks.type a)).
  { apply impliedKinds_rank, (dependsOn_implied processedPrompt s).
    repeat split; [exact (nth_error_In _ _ Hi) | exact (nth_error_In _ _ Hj)
                   | exact Hdep]. }
  apply (increasing_nth
           (map rank (map Tasks.type
                          (Clock.run (Tasks.extractTasks processedPrompt) s))))
    with (x := rank (Tasks.type b)) (y := rank (Tasks.type a)).
  - rewrite result_kinds. apply emittedKinds_increasing.
  - rewrite !nth_error_map, Hj. reflexivity.
  - rewrite !nth_error_map, Hi. reflexivity.
  - exact Hrank.
Qed.

Lemma extractTasks_order_topological_witness :
  nth_error secureLoginTasks 1 = Some secureLoginSecurity
  /\ nth_error secureLoginTasks 0
     = Some (hd secureLoginSecurity secureLoginTasks)
  /\ 0 < 1.
Proof.
  assert (Hi : nth_error secureLoginTasks 1 = Some secureLoginSecurity)
    by (vm_compute; reflexivity).
  assert (Hj : nth_error secureLoginTasks 0
               = Some (hd secureLoginSecurity secureLoginTasks))
    by (vm_compute; reflexivity).
  split; [exact Hi | split; [exact Hj |]].
  apply (extractTasks_order_topological secureLogin frozenClock 1 0 _ _ Hi Hj).
  vm_compute. auto.
Defined.
